(** * Optimistic CRUD pages of the book catalogue

    A shallow embedding of the three scripts of the repository:

    - [Script]: script.js, the first list page (CRUD with optimistic
      updates, messages, [res.ok] checks);
    - [PaginaPrincipal]: pagina-principal.js, the main page (same CRUD, a
      pop-up form, cards for the first four books, the ['livros'] slot of
      localStorage);
    - [Catalogo]: catalogo.js, the catalogue page (normalisation of the
      records read back from the slot);
    - [CatalogoPagina]: the rest of catalogo.js (the cards and their
      escaping, the mock books, the start of the page, the filters);
    - [ScriptEdicao]: the edit button of script.js.

    The scripts are event driven.  An [async] handler runs synchronously up
    to its [await fetch(...)]; its continuation runs when the call settles.
    Each handler is therefore embedded as two functions over the page
    state: the part up to the call, which returns what the continuation
    captures ([pending]), and the continuation itself.  Interleavings are
    sequences of [event]s.

    What is not tracked: the loading overlay, the pop-up and the fields of
    the form after a submit, [console.error], timers.  Numbers are integers
    (identities, clock readings); strings are sequences of code units below
    256 (the messages and genre names of the scripts are kept as they are
    written in the files; none of them is measured or compared).  Objects
    are compared by value; two references to one object are not
    distinguished from two equal objects.

    A render pass can throw.  The conversion of a value to a string throws
    on an object that carries a property [toString] of its own (no value
    of this fragment can be called).  The main page writes the texts of a
    book into [innerHTML] as they are and then looks its two buttons up:
    what the HTML parser makes of a text that holds markup is a parameter
    of the development ([PaginaPrincipal.Parser]); texts without [<] need
    none.  The properties hold for every parser. *)

From Stdlib Require Import ZArith Lia Ascii String.
From stdpp Require Import base option list strings gmap pretty.

#[local] Open Scope Z_scope.
#[local] Set Warnings "-register-all".

(** ** The fragment of JavaScript the scripts use *)

Module JS.

(** Values.  [VArr] is a dense array (as JSON.parse builds them); an
    object is a finite map from property names to values. *)
Inductive jsval : Type :=
  | VUndef
  | VNull
  | VBool (b : bool)
  | VNum (n : Z)
  | VStr (s : string)
  | VArr (l : list jsval)
  | VObj (o : gmap string jsval).

(** Exceptions: the TypeError of a property read on null or undefined (or
    of a call on a non function), a rejected [fetch], a body that
    [res.json()] cannot parse, and [new Error(message)]. *)
Inductive exn : Type :=
  | TypeError
  | FetchRejected
  | JsonSyntaxError
  | Error (message : string).

Inductive res (A : Type) : Type :=
  | Ok (a : A)
  | Throw (e : exn).
Arguments Ok {A} a.
Arguments Throw {A} e.

#[global] Instance res_ret : MRet res := λ A a, Ok a.
#[global] Instance res_bind : MBind res := λ A B f m,
  match m with Ok a => f a | Throw e => Throw e end.

(** [o.k] on an object literal or a parsed object. *)
Definition field (o : gmap string jsval) (k : string) : jsval :=
  default VUndef (o !! k).

(** [v.k] for the property names the scripts read ([id], [title], [body],
    [author], [genre], [year] and the aliases of the catalogue): none of them
    is a member of the prototypes of arrays or primitives. *)
Definition js_get (v : jsval) (k : string) : res jsval :=
  match v with
  | VUndef | VNull => Throw TypeError
  | VObj o => Ok (field o k)
  | _ => Ok VUndef
  end.

(** ToBoolean. *)
Definition js_truthy (v : jsval) : bool :=
  match v with
  | VUndef | VNull => false
  | VBool b => b
  | VNum n => negb (n =? 0)
  | VStr s => negb (String.eqb s EmptyString)
  | VArr _ | VObj _ => true
  end.

(** [a || b] and [a ?? b]. *)
Definition js_or (a b : jsval) : jsval := if js_truthy a then a else b.

Definition js_nullish (v : jsval) : bool :=
  match v with VUndef | VNull => true | _ => false end.

Definition js_coalesce (a b : jsval) : jsval := if js_nullish a then b else a.

(** [typeof v === 'object'] *)
Definition js_typeof_object (v : jsval) : bool :=
  match v with VNull | VArr _ | VObj _ => true | _ => false end.

(** [a === b].  Two objects or arrays are equal when they are one
    reference, which values do not record: the comparison is [false]. *)
Definition js_strict_eq (a b : jsval) : bool :=
  match a, b with
  | VUndef, VUndef | VNull, VNull => true
  | VBool x, VBool y => Bool.eqb x y
  | VNum x, VNum y => x =? y
  | VStr x, VStr y => String.eqb x y
  | _, _ => false
  end.

(** ToString.  Numbers print in decimal (the form of every integer below
    10^21 in absolute value). *)
Fixpoint js_to_string (v : jsval) : string :=
  match v with
  | VUndef => "undefined"
  | VNull => "null"
  | VBool b => if b then "true" else "false"
  | VNum n => pretty n
  | VStr s => s
  | VArr l =>
      (fix join (l : list jsval) : string :=
         match l with
         | [] => EmptyString
         | x :: l' =>
             let sx := match x with
                       | VUndef | VNull => EmptyString
                       | _ => js_to_string x
                       end in
             match l' with
             | [] => sx
             | _ => sx +:+ "," +:+ join l'
             end
         end) l
  | VObj _ => "[object Object]"
  end.

(** Whether ToString returns.  An object converts unless it has a property
    [toString] of its own, which hides the method of the prototype: no
    value of this fragment can be called, and the [valueOf] of the
    prototype returns the object itself, so that the conversion ends in a
    TypeError.  An array converts when its elements do. *)
Fixpoint stringable (v : jsval) : bool :=
  match v with
  | VArr l => forallb stringable l
  | VObj o => negb (bool_decide (is_Some (o !! "toString")))
  | _ => true
  end.

(** [String(v)], and [v] in a template literal. *)
Definition to_string (v : jsval) : res string :=
  if stringable v then Ok (js_to_string v) else Throw TypeError.

(** White space of [trim] and of StringToNumber, among the code units below
    256: TAB, LF, VT, FF, CR, SPACE, NBSP. *)
Definition is_space (c : ascii) : bool :=
  let n := nat_of_ascii c in
  ((9 <=? n) && (n <=? 13) || (n =? 32) || (n =? 160))%nat.

Fixpoint trim_start (s : string) : string :=
  match s with
  | String c s' => if is_space c then trim_start s' else s
  | EmptyString => EmptyString
  end.

Definition trim (s : string) : string :=
  String.rev (trim_start (String.rev (trim_start s))).

Definition is_digit (c : ascii) : bool :=
  let n := nat_of_ascii c in ((48 <=? n) && (n <=? 57))%nat.

(** The value of a string of decimal digits, [None] when a character is not
    a digit. *)
Fixpoint digits_value (acc : Z) (s : string) : option Z :=
  match s with
  | EmptyString => Some acc
  | String c s' =>
      if is_digit c
      then digits_value (10 * acc + Z.of_nat (nat_of_ascii c - 48)) s'
      else None
  end.

(** StringToNumber on the literals that denote integers in decimal: an
    optional sign and digits, between white space; the empty string is 0.
    [None] is NaN.  The other literal forms (fraction, exponent, hexadecimal,
    Infinity) are not produced by ToString of an integer identity and are
    read as NaN here. *)
Definition string_to_number (s : string) : option Z :=
  match trim s with
  | EmptyString => Some 0
  | String "+" (String c d) => digits_value 0 (String c d)
  | String "-" (String c d) => Z.opp <$> digits_value 0 (String c d)
  | d => digits_value 0 d
  end.

(** [a == b].  Two references are compared as by [===]; otherwise a boolean
    operand becomes a number and an object or array operand its string
    (which null and undefined never equal). *)
Definition js_loose_eq (a b : jsval) : bool :=
  let is_ref v := match v with VArr _ | VObj _ => true | _ => false end in
  let prim v :=
    match v with
    | VBool x => VNum (if x then 1 else 0)
    | VArr _ | VObj _ => VStr (js_to_string v)
    | _ => v
    end in
  if is_ref a && is_ref b then false
  else
    match prim a, prim b with
    | (VUndef | VNull), (VUndef | VNull) => true
    | VNum x, VNum y => x =? y
    | VStr x, VStr y => String.eqb x y
    | VNum x, VStr s | VStr s, VNum x =>
        match string_to_number s with Some y => x =? y | None => false end
    | _, _ => false
    end.

(** The own enumerable properties that [{...v}] copies: the fields of an
    object, the indexed elements of an array or string, nothing for the
    other primitives. *)
Definition indexed (l : list jsval) : gmap string jsval :=
  list_to_map (imap (λ i v, (pretty i, v)) l).

Definition spread (v : jsval) : gmap string jsval :=
  match v with
  | VObj o => o
  | VArr l => indexed l
  | VStr s => indexed ((λ c, VStr (String c EmptyString)) <$> list_ascii_of_string s)
  | _ => ∅
  end.

(** [v.k = x] in sloppy mode: on an object the property is written, on a
    primitive other than null and undefined the write is dropped.  (A named
    property written on an array is not represented.) *)
Definition set_prop (v : jsval) (k : string) (x : jsval) : res jsval :=
  match v with
  | VUndef | VNull => Throw TypeError
  | VObj o => Ok (VObj (<[k := x]> o))
  | _ => Ok v
  end.

(** The document that [JSON.stringify] writes, as the value [JSON.parse]
    reads back from it: properties whose value is undefined are dropped,
    undefined elements of arrays become null. *)
Fixpoint to_json (v : jsval) : jsval :=
  match v with
  | VArr l =>
      VArr (map (λ x, match x with VUndef => VNull | _ => to_json x end) l)
  | VObj o =>
      VObj (omap (λ x, match x with VUndef => None | _ => Some (to_json x) end) o)
  | _ => v
  end.

(** *** Arrays that are mutated in place

    The array [books] is a list of slots; [None] is an empty slot (a hole),
    which [books[idx] = x] leaves behind when [idx] is past the end. *)
Abbreviation array := (list (option jsval)).

(** [a[i]] *)
Definition arr_get (a : array) (i : nat) : jsval :=
  match a !! i with Some (Some v) => v | _ => VUndef end.

(** [a[i] = x] *)
Definition arr_set (a : array) (i : nat) (x : jsval) : array :=
  if decide (i < length a)%nat then <[i := Some x]> a
  else a ++ replicate (i - length a) None ++ [Some x].

(** [a.unshift(x)] *)
Definition arr_unshift (x : jsval) (a : array) : array := Some x :: a.

(** [a.findIndex(p)]: every index is visited, a hole as undefined; [None]
    is the result -1. *)
Fixpoint arr_findIndex_from (p : jsval → res bool) (a : array) (i : nat)
  : res (option nat) :=
  match a with
  | [] => Ok None
  | x :: a' =>
      b ← p (default VUndef x);
      if b : bool then Ok (Some i) else arr_findIndex_from p a' (S i)
  end.

Definition arr_findIndex (p : jsval → res bool) (a : array) : res (option nat) :=
  arr_findIndex_from p a 0.

(** [a.filter(p)]: holes are skipped, the result is dense. *)
Fixpoint arr_filter (p : jsval → res bool) (a : array) : res array :=
  match a with
  | [] => Ok []
  | None :: a' => arr_filter p a'
  | Some v :: a' =>
      b ← p v;
      r ← arr_filter p a';
      Ok (if b : bool then Some v :: r else r)
  end.

(** [a.slice(0, n)] *)
Definition arr_slice0 (n : nat) (a : array) : array := take n a.

(** [a.splice(i, 1)] *)
Definition arr_splice_remove (i : nat) (a : array) : array := delete i a.

(** [a.splice(i, 0, x)]: a start past the end is clamped to the length. *)
Definition arr_splice_insert (i : nat) (x : jsval) (a : array) : array :=
  take i a ++ Some x :: drop i a.

(** [JSON.stringify(a)] of such an array: a hole is written as null. *)
Definition stringify_array (a : array) : jsval :=
  VArr (map (λ slot,
               match slot with
               | None | Some VUndef => VNull
               | Some v => to_json v
               end) a).

End JS.

(** ** What the two CRUD pages share: state, effects, events *)

Module Page.
Import JS.

(** What the user is told: [alert(text)] on the main page, where every
    alert tells a failure, and [showMessage(text, type)] on the list page,
    where [type] is ['info'], ['success'] or ['error'].  When the text ends
    with [err.message], [cause] is that [err]. *)
Inductive notice : Type :=
  | Alert (text : string)
  | Message (text : string) (cause : option exn) (type : string).

Definition is_error (n : notice) : bool :=
  match n with
  | Alert _ => true
  | Message _ _ type => String.eqb type "error"
  end.

(** A call of [fetch]: the method, what follows [API_BASE] in the URL, the
    JSON body. *)
Inductive method : Type := GET | POST | PUT | DELETE.

Record request : Type := Request {
  req_method : method;
  req_path : string;
  req_body : option jsval
}.

(** How a call settles: the promise of [fetch] rejects (transport failure)
    or resolves with a response; [json] is [None] when the body is not
    JSON, so that [res.json()] rejects. *)
Record response : Type := Response {
  ok : bool;
  json : option jsval
}.

Inductive settled : Type :=
  | Rejected
  | Resolved (r : response).

(** The children of [#listaLivros]: the paragraph for an empty list, or one
    item per book; [card_text] lists the values written into the item. *)
Record card : Type := Card {
  card_book : jsval;
  card_text : list jsval
}.

Inductive view : Type :=
  | NoBooks
  | Cards (cs : list card).

(** The state of a page: the array [books], the slot ['livros'] of
    localStorage (the document it holds), the list on screen, what the user
    was told and the calls issued (both most recent first). *)
Record state : Type := State {
  books : array;
  livros : option jsval;
  listaLivros : view;
  notices : list notice;
  requests : list request
}.

(** Statements run in a state and return or throw. *)
Definition M (A : Type) : Type := state → res A * state.

#[global] Instance M_ret : MRet M := λ A a st, (Ok a, st).
#[global] Instance M_bind : MBind M := λ A B f m st,
  match m st with
  | (Ok a, st') => f a st'
  | (Throw e, st') => (Throw e, st')
  end.

Definition lift {A} (r : res A) : M A := λ st, (r, st).

Definition throw {A} (e : exn) : M A := λ st, (Throw e, st).

(** [try { body } catch (err) { handler }] *)
Definition try_catch {A} (body : M A) (handler : exn → M A) : M A := λ st,
  match body st with
  | (Throw e, st') => handler e st'
  | r => r
  end.

Definition get_books : M array := λ st, (Ok (books st), st).

Definition put_books (a : array) : M unit := λ st,
  (Ok (), State a (livros st) (listaLivros st) (notices st) (requests st)).

Definition setItem_livros (doc : jsval) : M unit := λ st,
  (Ok (), State (books st) (Some doc) (listaLivros st) (notices st) (requests st)).

Definition set_view (v : view) : M unit := λ st,
  (Ok (), State (books st) (livros st) v (notices st) (requests st)).

Definition append_card (c : card) : M unit := λ st,
  let cs := match listaLivros st with Cards cs => cs | NoBooks => [] end in
  (Ok (), State (books st) (livros st) (Cards (cs ++ [c])) (notices st) (requests st)).

Definition notify (n : notice) : M unit := λ st,
  (Ok (), State (books st) (livros st) (listaLivros st) (n :: notices st) (requests st)).

Definition send (r : request) : M unit := λ st,
  (Ok (), State (books st) (livros st) (listaLivros st) (notices st) (r :: requests st)).

(** [await fetch(...)] and [await res.json()] once the call has settled. *)
Definition fetched (r : settled) : M response :=
  match r with
  | Rejected => throw FetchRejected
  | Resolved resp => mret resp
  end.

Definition res_json (resp : response) : M jsval :=
  match json resp with
  | Some v => mret v
  | None => throw JsonSyntaxError
  end.

(** [a.forEach(f)]: holes are skipped. *)
Fixpoint arr_forEach (f : jsval → M unit) (a : array) : M unit :=
  match a with
  | [] => mret ()
  | None :: a' => arr_forEach f a'
  | Some v :: a' => f v;; arr_forEach f a'
  end.

(** [books[idx].k = x] *)
Definition assign_prop (idx : nat) (k : string) (x : jsval) : M unit :=
  bs ← get_books;
  b ← lift (set_prop (arr_get bs idx) k x);
  put_books (<[idx := Some b]> bs).

(** The values of the inputs of the form when it is submitted. *)
Record form : Type := Form {
  livroId : string;
  titulo : string;
  autor : string;
  descricao : string;
  ano : string;
  genero : string
}.

(** What the continuation of a handler captured before its [await]. *)
Inductive pending : Type :=
  | PendingCreate (tempId : Z)
  | PendingUpdate (idx : nat) (oldBook : jsval)
  | PendingDelete (idx : nat) (removed : jsval).

(** The handlers of a page: the submit listener of the form and the delete
    button run up to the call of [fetch] and return what its continuation
    captured ([None] when they return without a call); [on_settle] is that
    continuation. *)
Record handlers : Type := Handlers {
  on_submit : form → Z → M (option pending);
  on_delete : jsval → M (option pending);
  on_settle : pending → settled → M unit
}.

(** A page with the calls in flight, oldest first. *)
Record system : Type := System {
  page : state;
  in_flight : list pending
}.

(** What happens to a page: the form is submitted when the clock reads
    [now], the delete button of the book [id] is pressed (and confirmed),
    the [k]-th call in flight settles. *)
Inductive event : Type :=
  | Submit (f : form) (now : Z)
  | ClickDelete (id : jsval)
  | Settle (k : nat) (r : settled).

(** A handler that throws leaves the state as it was when it threw. *)
Definition step (h : handlers) (e : event) (s : system) : system :=
  let started (r : res (option pending) * state) :=
    match r with
    | (Ok (Some p), st) => System st (in_flight s ++ [p])
    | (_, st) => System st (in_flight s)
    end in
  match e with
  | Submit f now => started (on_submit h f now (page s))
  | ClickDelete id => started (on_delete h id (page s))
  | Settle k r =>
      match in_flight s !! k with
      | Some p => System (on_settle h p r (page s)).2 (delete k (in_flight s))
      | None => s
      end
  end.

Definition run (h : handlers) (es : list event) (s : system) : system :=
  foldl (λ s e, step h e s) s es.

End Page.

(** ** script.js: the list page *)

Module Script.
Import JS Page.

(** [books.findIndex(b => String(b.id) === String(id))] *)
Definition findBookIndexById (id : jsval) : M (option nat) :=
  bs ← get_books;
  lift (arr_findIndex
          (λ b, bid ← js_get b "id";
                mret (String.eqb (js_to_string bid) (js_to_string id))) bs).

(** [validarTitulo], on the value of the title input. *)
Definition validarTitulo (value : string) : bool :=
  negb (String.length (trim value) <? 3)%nat.

Definition validarForm (f : form) : bool := validarTitulo (titulo f).

(** The item of a book: [dataset.id], title, author and description. *)
Definition item_of (book : jsval) : res card :=
  id ← js_get book "id";
  title ← js_get book "title";
  author ← js_get book "author";
  body ← js_get book "body";
  mret (Card book
          [id; title;
           VStr (if js_truthy author then " — " +:+ js_to_string author
                 else EmptyString);
           js_or body (VStr EmptyString)]).

(** The items of the loop of [renderBooks]; they are attached to the page
    only after the loop. *)
Fixpoint items_of (a : array) : res (list card) :=
  match a with
  | [] => mret []
  | None :: a' => items_of a'
  | Some book :: a' => c ← item_of book; cs ← items_of a'; mret (c :: cs)
  end.

Definition renderBooks : M unit :=
  set_view (Cards []);;
  bs ← get_books;
  if (length bs =? 0)%nat then set_view NoBooks
  else
    ul ← lift (items_of bs);
    set_view (Cards ul).

(** [fetchBooks], with the way its call settles. *)
Definition fetchBooks (r : settled) : M unit :=
  try_catch
    (send (Request GET "?_limit=10" None);;
     resp ← fetched r;
     (if ok resp then mret () else throw (Error "Falha ao carregar livros"));;
     data ← res_json resp;
     items ← lift
       match data with
       | VArr l =>
           mapM (λ item,
                   id ← js_get item "id";
                   title ← js_get item "title";
                   body ← js_get item "body";
                   author ← js_get item "author";
                   mret (VObj (<["id" := id]>
                              (<["title" := title]>
                              (<["body" := body]>
                              {["author" := js_or author (VStr EmptyString)]}))))) l
       | _ => Throw TypeError
       end;
     put_books (Some <$> items);;
     renderBooks)
    (λ err, notify (Message "Erro ao buscar livros: " (Some err) "error")).

(** [handleCreate], up to [await fetch]. *)
Definition handleCreate_call (now : Z) (bookData : gmap string jsval)
  : M (option pending) :=
  let tempId := now * -1 in
  let optimisticBook := VObj (bookData ∪ {["id" := VNum tempId]}) in
  bs ← get_books;
  put_books (arr_unshift optimisticBook bs);;
  renderBooks;;
  notify (Message "Criando livro..." None "info");;
  send (Request POST EmptyString
          (Some (to_json (VObj (<["title" := field bookData "title"]>
                               (<["body" := field bookData "body"]>
                               {["userId" := VNum 1]}))))));;
  mret (Some (PendingCreate tempId)).

(** The [catch] block of [handleCreate]. *)
Definition handleCreate_catch (tempId : Z) (err : exn) : M unit :=
  bs ← get_books;
  bs' ← lift (arr_filter
                (λ b, bid ← js_get b "id";
                      mret (negb (js_strict_eq bid (VNum tempId)))) bs);
  put_books bs';;
  renderBooks;;
  notify (Message "Erro ao criar livro: " (Some err) "error").

(** [handleCreate], from the moment its call settles. *)
Definition handleCreate_settle (tempId : Z) (r : settled) : M unit :=
  try_catch
    (resp ← fetched r;
     (if ok resp then mret () else throw (Error "POST falhou"));;
     serverBook ← res_json resp;
     idx ← findBookIndexById (VNum tempId);
     match idx with
     | Some i =>
         sid ← lift (js_get serverBook "id");
         assign_prop i "id" sid;;
         renderBooks
     | None => mret ()
     end;;
     notify (Message "Livro criado com sucesso!" None "success"))
    (handleCreate_catch tempId).

(** [handleUpdate], up to [await fetch]. *)
Definition handleUpdate_call (id : jsval) (updatedData : gmap string jsval)
  : M (option pending) :=
  idx ← findBookIndexById id;
  match idx with
  | None =>
      notify (Message "Livro para editar não encontrado." None "error");;
      mret None
  | Some i =>
      bs ← get_books;
      let oldBook := VObj (spread (arr_get bs i)) in
      put_books (arr_set bs i (VObj (updatedData ∪ spread (arr_get bs i))));;
      renderBooks;;
      notify (Message "Atualizando livro..." None "info");;
      send (Request PUT ("/" +:+ js_to_string id)
              (Some (to_json (VObj (<["id" := id]>
                                   (<["title" := field updatedData "title"]>
                                   (<["body" := field updatedData "body"]>
                                   {["userId" := VNum 1]})))))));;
      mret (Some (PendingUpdate i oldBook))
  end.

(** [handleUpdate], from the moment its call settles. *)
Definition handleUpdate_settle (idx : nat) (oldBook : jsval) (r : settled)
  : M unit :=
  try_catch
    (resp ← fetched r;
     (if ok resp then mret () else throw (Error "PUT falhou"));;
     serverBook ← res_json resp;
     bs ← get_books;
     put_books (arr_set bs idx (VObj (spread serverBook ∪ spread (arr_get bs idx))));;
     renderBooks;;
     notify (Message "Livro atualizado com sucesso!" None "success"))
    (λ err,
       bs ← get_books;
       put_books (arr_set bs idx oldBook);;
       renderBooks;;
       notify (Message "Erro ao atualizar livro: " (Some err) "error")).

(** [handleDelete], up to [await fetch]. *)
Definition handleDelete_call (id : jsval) : M (option pending) :=
  idx ← findBookIndexById id;
  match idx with
  | None =>
      notify (Message "Livro para excluir não encontrado." None "error");;
      mret None
  | Some i =>
      bs ← get_books;
      let removed := arr_get bs i in
      bs' ← lift (arr_filter
                    (λ b, bid ← js_get b "id";
                          mret (negb (js_strict_eq bid id))) bs);
      put_books bs';;
      renderBooks;;
      notify (Message "Excluindo livro..." None "info");;
      send (Request DELETE ("/" +:+ js_to_string id) None);;
      mret (Some (PendingDelete i removed))
  end.

(** [handleDelete], from the moment its call settles. *)
Definition handleDelete_settle (idx : nat) (removed : jsval) (r : settled)
  : M unit :=
  try_catch
    (resp ← fetched r;
     (if ok resp then mret () else throw (Error "DELETE falhou"));;
     notify (Message "Livro excluído com sucesso!" None "success"))
    (λ err,
       bs ← get_books;
       put_books (arr_splice_insert idx removed bs);;
       renderBooks;;
       notify (Message "Erro ao excluir livro: " (Some err) "error")).

(** The submit listener of the form, up to the [await] of the handler it
    calls. *)
Definition payload_of (f : form) : gmap string jsval :=
  <["title" := VStr (trim (titulo f))]>
  (<["body" := VStr (trim (descricao f))]>
  {["author" := VStr (trim (autor f))]}).

Definition submit (f : form) (now : Z) : M (option pending) :=
  if negb (validarForm f) then
    notify (Message "Corrija os erros do formulário." None "error");;
    mret None
  else
    let payload := payload_of f in
    let id := livroId f in
    if negb (String.eqb id EmptyString) then handleUpdate_call (VStr id) payload
    else handleCreate_call now payload.

Definition settle (p : pending) (r : settled) : M unit :=
  match p with
  | PendingCreate tempId => handleCreate_settle tempId r
  | PendingUpdate idx oldBook => handleUpdate_settle idx oldBook r
  | PendingDelete idx removed => handleDelete_settle idx removed r
  end.

Definition handlers : Page.handlers := Handlers submit handleDelete_call settle.

(** The three operations when nothing else happens between the call and
    its settlement. *)
Definition handleCreate (now : Z) (bookData : gmap string jsval) (r : settled)
  : M unit :=
  p ← handleCreate_call now bookData;
  from_option (λ p, settle p r) (mret ()) p.

Definition handleUpdate (id : jsval) (updatedData : gmap string jsval)
  (r : settled) : M unit :=
  p ← handleUpdate_call id updatedData;
  from_option (λ p, settle p r) (mret ()) p.

Definition handleDelete (id : jsval) (r : settled) : M unit :=
  p ← handleDelete_call id;
  from_option (λ p, settle p r) (mret ()) p.

End Script.

(** ** pagina-principal.js: the main page *)

Module PaginaPrincipal.
Import JS Page.

Definition generosValidos : list string :=
  ["Romance"; "Ação"; "Aventura"; "Terror"; "Ficção"].

(** [JSON.parse(localStorage.getItem('livros')) || []], the first value of
    [books]; [None] when the slot holds a document that is neither falsy
    nor an array, with which no function of the page works.  (A slot whose
    text is not JSON stops the script at this line; the state does not
    represent such a slot.) *)
Definition books_init (slot : option jsval) : option array :=
  match slot with
  | None => Some []
  | Some doc =>
      if js_truthy doc
      then match doc with VArr l => Some (Some <$> l) | _ => None end
      else Some []
  end.

(** The card of a book is parsed from a template in which the five texts
    of the book are written as they are, and the two buttons of the card
    are then looked up in what the parser built.  What the parser makes of
    a text that holds markup is not in the scripts: [with_markup texts]
    tells whether both buttons are found in the card of the texts
    [texts].  A text without [<] opens no tag and no comment, so the
    buttons of a card whose texts are [plain] are found whatever the
    parser is. *)
Class Parser := with_markup : list string → bool.

Definition plain (s : string) : bool :=
  negb (existsb (Ascii.eqb "<") (list_ascii_of_string s)).

Section page.
Context {parser : Parser}.

(** [card.querySelector('.editar')] and [card.querySelector('.excluir')]
    both find a button. *)
Definition buttons_found (texts : list string) : bool :=
  forallb plain texts || with_markup texts.

(** The card of a book: title, description, author, genre and year, each
    converted to a string as the template reads it; a text that does not
    convert throws, and so does [null.addEventListener] when a button is
    not found. *)
Definition card_of (book : jsval) : res card :=
  title ← js_get book "title";
  t ← to_string title;
  body ← js_get book "body";
  b ← to_string body;
  author ← js_get book "author";
  a ← to_string (js_or author (VStr "Autor desconhecido"));
  genre ← js_get book "genre";
  g ← to_string (js_or genre (VStr "—"));
  year ← js_get book "year";
  y ← to_string (js_or year (VStr "—"));
  if buttons_found [t; b; a; g; y]
  then mret (Card book
               [title; body;
                js_or author (VStr "Autor desconhecido");
                js_or genre (VStr "—");
                js_or year (VStr "—")])
  else Throw TypeError.

(** The body of the loop of [renderBooks]. *)
Definition show_card (book : jsval) : M unit :=
  c ← lift (card_of book);
  append_card c.

Definition renderBooks : M unit :=
  set_view (Cards []);;
  bs ← get_books;
  let livrosMostrados := arr_slice0 4 bs in
  if (length livrosMostrados =? 0)%nat then set_view NoBooks
  else
    arr_forEach show_card livrosMostrados;;
    bs ← get_books;
    setItem_livros (stringify_array bs).

(** The books made of the posts of the server; [random i] gives the two
    draws of [Math.random] for the [i]-th post, already multiplied and
    rounded down. *)
Fixpoint books_of_posts (random : nat → nat * nat) (i : nat) (data : list jsval)
  : res (list jsval) :=
  match data with
  | [] => mret []
  | item :: data' =>
      id ← js_get item "id";
      title ← js_get item "title";
      body ← js_get item "body";
      author ← js_get item "author";
      let genre := default VUndef
        (VStr <$> generosValidos !! ((random i).1 `mod` length generosValidos)%nat) in
      let year := VNum (2000 + Z.of_nat ((random i).2 `mod` 25)%nat) in
      rest ← books_of_posts random (S i) data';
      mret (VObj (<["id" := id]>
                 (<["title" := title]>
                 (<["body" := body]>
                 (<["author" := js_or author (VStr "Desconhecido")]>
                 (<["genre" := genre]>
                 {["year" := year]}))))) :: rest)
  end.

(** [fetchBooks], with the way its call settles when it issues one. *)
Definition fetchBooks (random : nat → nat * nat) (r : settled) : M unit :=
  try_catch
    (bs ← get_books;
     if (0 <? length bs)%nat then renderBooks
     else
       send (Request GET "?_limit=10" None);;
       resp ← fetched r;
       data ← res_json resp;
       items ← lift
         match data with
         | VArr l => books_of_posts random 0 l
         | _ => Throw TypeError
         end;
       put_books (Some <$> items);;
       renderBooks)
    (λ err, mret ()).

(** [handleCreate], up to [await fetch]. *)
Definition handleCreate_call (now : Z) (bookData : gmap string jsval)
  : M (option pending) :=
  let tempId := now * -1 in
  let optimisticBook := VObj (bookData ∪ {["id" := VNum tempId]}) in
  bs ← get_books;
  put_books (arr_unshift optimisticBook bs);;
  renderBooks;;
  send (Request POST EmptyString (Some (to_json (VObj bookData))));;
  mret (Some (PendingCreate tempId)).

(** The [catch] block of [handleCreate]. *)
Definition handleCreate_catch (tempId : Z) (err : exn) : M unit :=
  bs ← get_books;
  bs' ← lift (arr_filter
                (λ b, bid ← js_get b "id";
                      mret (negb (js_strict_eq bid (VNum tempId)))) bs);
  put_books bs';;
  renderBooks;;
  notify (Alert "Falha ao salvar o livro no servidor. Tente novamente.").

(** [handleCreate], from the moment its call settles. *)
Definition handleCreate_settle (tempId : Z) (r : settled) : M unit :=
  try_catch
    (resp ← fetched r;
     serverBook ← res_json resp;
     bs ← get_books;
     idx ← lift (arr_findIndex
                   (λ b, bid ← js_get b "id";
                         mret (js_strict_eq bid (VNum tempId))) bs);
     match idx with
     | Some i =>
         sid ← lift (js_get serverBook "id");
         assign_prop i "id" sid;;
         renderBooks
     | None => mret ()
     end)
    (handleCreate_catch tempId).

(** [books.findIndex(b => b.id == id)] *)
Definition findIndex_loose (id : jsval) : M (option nat) :=
  bs ← get_books;
  lift (arr_findIndex (λ b, bid ← js_get b "id"; mret (js_loose_eq bid id)) bs).

(** [handleUpdate], up to [await fetch]. *)
Definition handleUpdate_call (id : jsval) (updatedData : gmap string jsval)
  : M (option pending) :=
  idx ← findIndex_loose id;
  match idx with
  | None => notify (Alert "Livro não encontrado.");; mret None
  | Some i =>
      bs ← get_books;
      let oldBook := VObj (spread (arr_get bs i)) in
      put_books (arr_set bs i (VObj (updatedData ∪ spread (arr_get bs i))));;
      renderBooks;;
      send (Request PUT ("/" +:+ js_to_string id) (Some (to_json (VObj updatedData))));;
      mret (Some (PendingUpdate i oldBook))
  end.

(** [handleUpdate], from the moment its call settles. *)
Definition handleUpdate_settle (idx : nat) (oldBook : jsval) (r : settled)
  : M unit :=
  try_catch
    (fetched r;; mret ())
    (λ err,
       bs ← get_books;
       put_books (arr_set bs idx oldBook);;
       renderBooks;;
       notify (Alert "Falha ao salvar a edição no servidor. Tente novamente.")).

(** [handleDelete], up to [await fetch]. *)
Definition handleDelete_call (id : jsval) : M (option pending) :=
  idx ← findIndex_loose id;
  match idx with
  | None => mret None
  | Some i =>
      bs ← get_books;
      let removed := arr_get bs i in
      put_books (arr_splice_remove i bs);;
      renderBooks;;
      send (Request DELETE ("/" +:+ js_to_string id) None);;
      mret (Some (PendingDelete i removed))
  end.

(** [handleDelete], from the moment its call settles. *)
Definition handleDelete_settle (idx : nat) (removed : jsval) (r : settled)
  : M unit :=
  try_catch
    (fetched r;; mret ())
    (λ err,
       bs ← get_books;
       put_books (arr_splice_insert idx removed bs);;
       renderBooks;;
       notify (Alert "Falha ao excluir o livro no servidor. Tente novamente.")).

(** [/^\d{4}$/.test(s)] *)
Definition four_digits (s : string) : bool :=
  match s with
  | String a (String b (String c (String d EmptyString))) =>
      is_digit a && is_digit b && is_digit c && is_digit d
  | _ => false
  end.

(** The submit listener of the form, up to the [await] of the handler it
    calls. *)
Definition data_of (f : form) : gmap string jsval :=
  <["title" := VStr (trim (titulo f))]>
  (<["author" := VStr (trim (autor f))]>
  (<["body" := VStr (trim (descricao f))]>
  (<["year" := VStr (trim (ano f))]>
  {["genre" := VStr (trim (genero f))]}))).

Definition submit (f : form) (now : Z) : M (option pending) :=
  if negb (four_digits (trim (ano f))) then
    notify (Alert "O ano precisa ter exatamente 4 números.");; mret None
  else if (String.length (trim (titulo f)) <? 3)%nat then
    notify (Alert "O título precisa ter pelo menos 3 caracteres.");; mret None
  else if String.eqb (trim (genero f)) EmptyString then
    notify (Alert "Selecione um gênero.");; mret None
  else
    let data := data_of f in
    let id := livroId f in
    if negb (String.eqb id EmptyString) then handleUpdate_call (VStr id) data
    else handleCreate_call now data.

Definition settle (p : pending) (r : settled) : M unit :=
  match p with
  | PendingCreate tempId => handleCreate_settle tempId r
  | PendingUpdate idx oldBook => handleUpdate_settle idx oldBook r
  | PendingDelete idx removed => handleDelete_settle idx removed r
  end.

Definition handlers : Page.handlers := Handlers submit handleDelete_call settle.

(** The three operations when nothing else happens between the call and
    its settlement. *)
Definition handleCreate (now : Z) (bookData : gmap string jsval) (r : settled)
  : M unit :=
  p ← handleCreate_call now bookData;
  from_option (λ p, settle p r) (mret ()) p.

Definition handleUpdate (id : jsval) (updatedData : gmap string jsval)
  (r : settled) : M unit :=
  p ← handleUpdate_call id updatedData;
  from_option (λ p, settle p r) (mret ()) p.

Definition handleDelete (id : jsval) (r : settled) : M unit :=
  p ← handleDelete_call id;
  from_option (λ p, settle p r) (mret ()) p.

End page.

End PaginaPrincipal.

(** ** catalogo.js: the catalogue page *)

Module Catalogo.
Import JS.

(** The reads of the aliases have no effect, so every alias is read
    before the [??] chains choose among them. *)
Definition normalizarLivro (raw : jsval) : res jsval :=
  if negb (js_truthy raw) || negb (js_typeof_object raw) then mret VNull
  else
    raw_id ← js_get raw "id";
    raw_ID ← js_get raw "ID";
    let id := js_coalesce (js_coalesce raw_id raw_ID) VNull in
    raw_titulo ← js_get raw "titulo";
    raw_title ← js_get raw "title";
    let titulo := js_coalesce (js_coalesce raw_titulo raw_title) (VStr "Título sem nome") in
    raw_autor ← js_get raw "autor";
    raw_author ← js_get raw "author";
    let autor := js_coalesce (js_coalesce raw_autor raw_author) (VStr "Autor desconhecido") in
    raw_genero ← js_get raw "genero";
    raw_genre ← js_get raw "genre";
    raw_tipo ← js_get raw "tipo";
    let genero :=
      js_coalesce (js_coalesce (js_coalesce raw_genero raw_genre) raw_tipo) (VStr "Outros") in
    raw_ano ← js_get raw "ano";
    raw_year ← js_get raw "year";
    raw_publicationYear ← js_get raw "publicationYear";
    let ano :=
      js_coalesce (js_coalesce (js_coalesce raw_ano raw_year) raw_publicationYear) (VStr "—") in
    raw_descricao ← js_get raw "descricao";
    raw_body ← js_get raw "body";
    raw_description ← js_get raw "description";
    let descricao :=
      js_coalesce (js_coalesce (js_coalesce raw_descricao raw_body) raw_description)
        (VStr EmptyString) in
    mret (VObj (<["id" := id]>
               (<["titulo" := titulo]>
               (<["autor" := autor]>
               (<["genero" := genero]>
               (<["ano" := ano]>
               {["descricao" := descricao]})))))).

(** [(rawList || []).map(normalizarLivro).filter(Boolean)] *)
Definition normalizarLista (rawList : jsval) : res (list jsval) :=
  match js_or rawList (VArr []) with
  | VArr l =>
      normalized ← mapM normalizarLivro l;
      mret (List.filter js_truthy normalized)
  | _ => Throw TypeError
  end.

(** [carregarLivrosLocal], on the document of the slot; [None] is null. *)
Definition carregarLivrosLocal (slot : option jsval) : option (list jsval) :=
  match slot with
  | None => None
  | Some parsed =>
      match parsed with
      | VArr _ =>
          match normalizarLista parsed with
          | Ok norm => if (length norm =? 0)%nat then None else Some norm
          | Throw _ => None
          end
      | _ => None
      end
  end.

End Catalogo.

(** ** Stores of records, and the vocabulary of the statements *)

Module Store.
Import JS Page.

Section page.
Context {parser : PaginaPrincipal.Parser}.

(** The array of a sequence of records: dense, every element an object. *)
Definition of_records (rs : list (gmap string jsval)) : array :=
  (λ o, Some (VObj o)) <$> rs.

(** The identity of a record. *)
Definition identity (o : gmap string jsval) : jsval := field o "id".

Definition identities (rs : list (gmap string jsval)) : list jsval :=
  identity <$> rs.

(** The identities read off an array, element by element; a hole or an
    element without properties has none. *)
Definition identities_of (a : array) : list jsval :=
  omap (λ slot : option jsval,
          match js_get (default VUndef slot) "id" with
          | Ok id => Some id
          | Throw _ => None
          end) a.

(** The record carries the number [n] as its identity (by [===]); no
    record of the store does. *)
Definition has_identity (n : Z) (o : gmap string jsval) : bool :=
  js_strict_eq (identity o) (VNum n).

Definition fresh (n : Z) (rs : list (gmap string jsval)) : bool :=
  forallb (λ o, negb (has_identity n o)) rs.

(** The record matches [id] in the lookup of the main page ([==]) and of
    the list page (the strings are equal). *)
Definition pp_matches (id : jsval) (o : gmap string jsval) : bool :=
  js_loose_eq (identity o) id.

Definition sc_matches (id : jsval) (o : gmap string jsval) : bool :=
  String.eqb (js_to_string (identity o)) (js_to_string id).

(** The error notices among those added since the notices were [old]. *)
Definition errors_since (old : list notice) (st : state) : list notice :=
  List.filter is_error (take (length (notices st) - length old) (notices st)).

(** What [renderBooks] of the main page shows and writes for a store of
    records. *)
Definition pp_card (o : gmap string jsval) : card :=
  Card (VObj o)
    [field o "title"; field o "body";
     js_or (field o "author") (VStr "Autor desconhecido");
     js_or (field o "genre") (VStr "—");
     js_or (field o "year") (VStr "—")].

Definition pp_view (rs : list (gmap string jsval)) : view :=
  match rs with
  | [] => NoBooks
  | _ => Cards (pp_card <$> take 4 rs)
  end.

Definition pp_slot (rs : list (gmap string jsval)) (slot : option jsval)
  : option jsval :=
  match rs with
  | [] => slot
  | _ => Some (stringify_array (of_records rs))
  end.

(** What [renderBooks] of the list page shows for a store of records. *)
Definition sc_item (o : gmap string jsval) : card :=
  Card (VObj o)
    [field o "id"; field o "title";
     VStr (if js_truthy (field o "author")
           then " — " +:+ js_to_string (field o "author") else EmptyString);
     js_or (field o "body") (VStr EmptyString)].

Definition sc_view (rs : list (gmap string jsval)) : view :=
  match rs with
  | [] => NoBooks
  | _ => Cards (sc_item <$> rs)
  end.

(** The two CRUD pages. *)
Inductive which_page : Type := ListPage | MainPage.

Definition handlers_of (pg : which_page) : handlers :=
  match pg with
  | ListPage => Script.handlers
  | MainPage => PaginaPrincipal.handlers
  end.

(** The card of the record can be built: its five texts convert to strings
    and leave the two buttons in the card. *)
Definition shown (o : gmap string jsval) : bool :=
  match PaginaPrincipal.card_of (VObj o) with
  | Ok _ => true
  | Throw _ => false
  end.

(** The records whose cards are built before the loop of [renderBooks]
    stops. *)
Fixpoint shown_prefix (rs : list (gmap string jsval)) : list (gmap string jsval) :=
  match rs with
  | [] => []
  | o :: rs' => if shown o then o :: shown_prefix rs' else []
  end.

(** The render pass of the main page on the store [rs] completes; what it
    leaves on the page and in the slot, whether it completes or not. *)
Definition pp_pass (rs : list (gmap string jsval)) : bool :=
  forallb shown (take 4 rs).

Definition pp_shows (rs : list (gmap string jsval)) : view :=
  match rs with
  | [] => NoBooks
  | _ => Cards (pp_card <$> shown_prefix (take 4 rs))
  end.

Definition pp_saves (rs : list (gmap string jsval)) (slot : option jsval)
  : option jsval :=
  if pp_pass rs then pp_slot rs slot else slot.

(** The render pass of a page on the store [rs] completes.  (The list page
    writes its texts with [textContent].) *)
Definition renders (pg : which_page) (rs : list (gmap string jsval)) : bool :=
  match pg with
  | ListPage => true
  | MainPage => pp_pass rs
  end.

(** The form passes the checks of the submit listener. *)
Definition accepts (pg : which_page) (f : form) : bool :=
  match pg with
  | ListPage => Script.validarForm f
  | MainPage =>
      PaginaPrincipal.four_digits (trim (ano f))
      && negb (String.length (trim (titulo f)) <? 3)%nat
      && negb (String.eqb (trim (genero f)) EmptyString)
  end.

(** The payload the submit listener builds. *)
Definition payload (pg : which_page) (f : form) : gmap string jsval :=
  match pg with
  | ListPage => Script.payload_of f
  | MainPage => PaginaPrincipal.data_of f
  end.

(** The lookup of [handleUpdate] and [handleDelete]. *)
Definition lookup (pg : which_page) (id : jsval) : M (option nat) :=
  match pg with
  | ListPage => Script.findBookIndexById id
  | MainPage => PaginaPrincipal.findIndex_loose id
  end.

Definition has_body (resp : response) : bool :=
  match json resp with
  | Some serverBook => negb (js_nullish serverBook)
  | None => false
  end.

(** The settlements on which the [try] block of [handleCreate] throws while
    the optimistic record is in the store: the call is rejected, the list
    page sees a status that is not a success, the body is not JSON or is
    null. *)
Definition create_fails (pg : which_page) (r : settled) : bool :=
  match r with
  | Rejected => true
  | Resolved resp =>
      match pg with
      | ListPage => negb (ok resp) || negb (has_body resp)
      | MainPage => negb (has_body resp)
      end
  end.

(** The settlements on which the [try] block of [handleUpdate] throws. *)
Definition update_fails (pg : which_page) (r : settled) : bool :=
  match r with
  | Rejected => true
  | Resolved resp =>
      match pg with
      | ListPage =>
          negb (ok resp) || match json resp with Some _ => false | None => true end
      | MainPage => false
      end
  end.


(** The record [normalizarLivro] builds from the values it chose. *)
Definition built (id titulo autor genero ano descricao : jsval) : gmap string jsval :=
  <["id" := id]> (<["titulo" := titulo]> (<["autor" := autor]>
  (<["genero" := genero]> (<["ano" := ano]> {["descricao" := descricao]})))).

(** A raw record with its normalisation when there is one, as the
    specification words [normalizeList]: failed normalisations are filtered
    out, the order is kept. *)
Definition normalized (raw : jsval) : option jsval :=
  match Catalogo.normalizarLivro raw with
  | Ok (VObj n) => Some (VObj n)
  | _ => None
  end.

Definition normalizeList_spec (l : list jsval) : list jsval := omap normalized l.

(** Sample data of the scenarios. *)
Definition duna : gmap string jsval :=
  <["id" := VNum 7]> (<["title" := VStr "Duna"]> {["author" := VStr "Herbert"]}).

Definition emma : gmap string jsval :=
  <["id" := VNum 8]> (<["title" := VStr "Emma"]> {["author" := VStr "Austen"]}).

Definition ulysses : gmap string jsval :=
  <["id" := VNum 9]> (<["title" := VStr "Ulysses"]> {["author" := VStr "Joyce"]}).

Definition walden : gmap string jsval :=
  <["id" := VNum 10]> (<["title" := VStr "Walden"]> {["author" := VStr "Thoreau"]}).

Definition new_dune : form :=
  Form EmptyString "Dune" "Herrick" EmptyString "1965" "Romance".

Definition new_emma : form :=
  Form EmptyString "Emma" "Austen" EmptyString "1815" "Romance".

Definition edit_ulysses : form :=
  Form "9" "Ulisses" "Joyce" EmptyString "1922" "Romance".

Definition edit_duna : form :=
  Form "7" "Dune" "Herbert" EmptyString "1965" "Romance".

Definition blank : state := State [] None (Cards []) [] [].

Definition showing (pg : which_page) (rs : list (gmap string jsval)) : state :=
  State (of_records rs) None
    (match pg with ListPage => sc_view rs | MainPage => pp_view rs end) [] [].

(** A response with status 500 and the body [{}]; a response with status
    201 and the body [{ id: n }]. *)
Definition status_500 : settled := Resolved (Response false (Some (VObj ∅))).

Definition created (n : Z) : settled :=
  Resolved (Response true (Some (VObj {["id" := VNum n]}))).

Definition status_200 : settled := Resolved (Response true (Some (VObj ∅))).




End page.

(** The parser of the scenarios: it finds no button in a card whose texts
    hold markup.  The texts of the scenarios hold none, so that their
    cards never ask it: they run alike with any other parser. *)
Definition no_markup : PaginaPrincipal.Parser := λ _, false.

End Store.

(** ** catalogo.js: the mock books, the cards, the start of the page *)

Module CatalogoPagina.
Import JS Page Catalogo.

(** [s.replaceAll(c, new)] for a pattern [c] of one character and a
    replacement without [$]. *)
Fixpoint replaceAll (c : ascii) (new : string) (s : string) : string :=
  match s with
  | EmptyString => EmptyString
  | String x s' =>
      if Ascii.eqb x c then new +:+ replaceAll c new s'
      else String x (replaceAll c new s')
  end.

(** The five replacements of [escapeHtml], in their order. *)
Definition escaped (s : string) : string :=
  replaceAll "'" "&#39;"
    (replaceAll (ascii_of_nat 34) "&quot;"
       (replaceAll ">" "&gt;"
          (replaceAll "<" "&lt;"
             (replaceAll "&" "&amp;" s)))).

(** [escapeHtml(str = '')]; [String(str)] throws on a value that does not
    convert. *)
Definition escapeHtml (str : jsval) : res string :=
  let str := match str with VUndef => VStr EmptyString | _ => str end in
  s ← to_string str;
  mret (escaped s).

(** The card of [renderLivros]: title, author, genre, year, description,
    each escaped. *)
Definition card_of (livro : jsval) : res card :=
  titulo ← js_get livro "titulo";
  t ← escapeHtml titulo;
  autor ← js_get livro "autor";
  a ← escapeHtml autor;
  genero ← js_get livro "genero";
  g ← escapeHtml genero;
  ano ← js_get livro "ano";
  y ← escapeHtml ano;
  descricao ← js_get livro "descricao";
  d ← escapeHtml descricao;
  mret (Card livro [VStr t; VStr a; VStr g; VStr y; VStr d]).

(** The loop of [renderLivros]: the cards are attached one by one, so a
    throw leaves those already attached. *)
Fixpoint cards_of (lista : list jsval) (shown : list card) : res unit * list card :=
  match lista with
  | [] => (Ok (), shown)
  | livro :: rest =>
      match card_of livro with
      | Ok c => cards_of rest (shown ++ [c])
      | Throw e => (Throw e, shown)
      end
  end.

(** [renderLivros(lista)] on an array: what is thrown or not, and the
    children of [#listaLivros] afterwards. *)
Definition renderLivros (lista : list jsval) : res unit * view :=
  if (length lista =? 0)%nat then (Ok (), NoBooks)
  else ((cards_of lista []).1, Cards (cards_of lista []).2).

Definition generos : list string :=
  ["Romance"; "Ação"; "Aventura"; "Terror"; "Ficção"].

(** [gerarMockLivros()] *)
Definition gerarMockLivros : list jsval :=
  (λ i : nat,
     VObj (<["id" := VStr ("mock-" +:+ pretty (i + 1)%nat)]>
          (<["titulo" := VStr ("Livro Exemplo " +:+ pretty (i + 1)%nat)]>
          (<["autor" := VStr ("Autor Exemplo " +:+ pretty (i + 1)%nat)]>
          (<["genero" := default VUndef (VStr <$> generos !! (i `mod` length generos)%nat)]>
          (<["ano" := VNum (2010 + Z.of_nat (i `mod` 14)%nat)]>
          {["descricao" :=
              VStr "Descrição de exemplo para este livro. Adicione novos livros na página principal!"]}))))))
  <$> seq 0 8.

(** The callback of [data.map] in [initCatalogo], from the post of index
    [i] on. *)
Fixpoint mapped_from (i : nat) (data : list jsval) : res (list jsval) :=
  match data with
  | [] => mret []
  | item :: data' =>
      id ← js_get item "id";
      title ← js_get item "title";
      body ← js_get item "body";
      rest ← mapped_from (S i) data';
      mret (VObj (<["id" := id]>
                 (<["titulo" := title]>
                 (<["autor" := VStr ("Autor " +:+ pretty (i + 1)%nat)]>
                 (<["genero" := default VUndef (VStr <$> generos !! (i `mod` length generos)%nat)]>
                 (<["ano" := VNum (2010 + Z.of_nat (i `mod` 14)%nat)]>
                 {["descricao" := body]}))))) :: rest)
  end.

(** The two [then] callbacks of [initCatalogo] on a response: the books
    and the view, or what is thrown to the [catch] callback. *)
Definition fetched_books (resp : response) : res (list jsval * view) :=
  match json resp with
  | None => Throw JsonSyntaxError
  | Some data =>
      mapped ← match data with
               | VArr l => mapped_from 0 l
               | _ => Throw TypeError
               end;
      livros ← normalizarLista (VArr mapped);
      match renderLivros livros with
      | (Ok _, shown) => mret (livros, shown)
      | (Throw e, _) => Throw e
      end
  end.

(** [initCatalogo()], with the document of the slot and the way the call
    settles when one is issued: the variable [livros], the view, and
    whether the call was issued. *)
Definition initCatalogo (slot : option jsval) (r : settled)
  : list jsval * view * bool :=
  match carregarLivrosLocal slot with
  | Some salvos => (salvos, (renderLivros salvos).2, false)
  | None =>
      let mocks := gerarMockLivros in
      match r with
      | Rejected => (mocks, (renderLivros mocks).2, true)
      | Resolved resp =>
          match fetched_books resp with
          | Ok (livros, shown) => (livros, shown, true)
          | Throw _ => (mocks, (renderLivros mocks).2, true)
          end
      end
  end.

(** [livros.filter(l => l.genero === genero)] *)
Fixpoint filtrar (genero : jsval) (livros : list jsval) : res (list jsval) :=
  match livros with
  | [] => mret []
  | l :: rest =>
      g ← js_get l "genero";
      shown ← filtrar genero rest;
      mret (if js_strict_eq g genero then l :: shown else shown)
  end.

(** The click listener of a filter button whose [data-genero] is [genero]:
    what is thrown or not, and the view afterwards ([shown] before). *)
Definition on_filter (genero : jsval) (livros : list jsval) (shown : view)
  : res unit * view :=
  if js_strict_eq genero (VStr "Todos") then renderLivros livros
  else
    match filtrar genero livros with
    | Ok l => renderLivros l
    | Throw e => (Throw e, shown)
    end.

End CatalogoPagina.

(** ** script.js: filling the form for an edit *)

Module ScriptEdicao.
Import JS Page Script.



End ScriptEdicao.

(** ** The vocabulary of the further statements *)

Module Behaviour.
Import JS Page Store.

Section page.
Context {parser : PaginaPrincipal.Parser}.

(** The statement [m] leaves a component of the state as it finds it,
    whether it returns or throws. *)
Definition keeps {A B : Type} (proj : state → B) (m : M A) : Prop :=
  ∀ st, proj (m st).2 = proj st.

(** The slot holds the serialization of the store whenever the store is a
    sequence of records that is not empty. *)
Definition saved (st : state) : Prop :=
  ∀ rs, books st = of_records rs → rs ≠ [] →
        livros st = Some (stringify_array (of_records rs)).

(** The result is an exception. *)
Definition throws {A : Type} (r : res A) : bool :=
  match r with
  | Ok _ => false
  | Throw _ => true
  end.

(** When it returns, the statement [m] keeps the slot up to date if it
    was, and [m] leaves it up to date in any case.  (A statement that
    throws may have written the store and not the slot.) *)
Definition tidy {A : Type} (m : M A) : Prop :=
  ∀ st, saved st → throws (m st).1 = false → saved (m st).2.

Definition ends_saved {A : Type} (m : M A) : Prop :=
  ∀ st, throws (m st).1 = false → saved (m st).2.

(** No record of the store answers the lookup of the page for the number
    [n]: by [===] on the main page, by the strings on the list page. *)
Definition unmatched (pg : which_page) (n : Z) (rs : list (gmap string jsval)) : bool :=
  forallb (λ o, negb (match pg with
                      | ListPage => sc_matches (VNum n) o
                      | MainPage => has_identity n o
                      end)) rs.

(** The settlements on which the [try] block of [handleDelete] throws. *)
Definition delete_fails (pg : which_page) (r : settled) : bool :=
  match r with
  | Rejected => true
  | Resolved resp =>
      match pg with
      | ListPage => negb (ok resp)
      | MainPage => false
      end
  end.

(** [handleDelete] of a page, run to completion. *)
Definition delete_of (pg : which_page) (id : jsval) (r : settled) : M unit :=
  match pg with
  | ListPage => Script.handleDelete id r
  | MainPage => PaginaPrincipal.handleDelete id r
  end.


(** [item.k] when [item] is neither null nor undefined. *)
Definition prop (item : jsval) (k : string) : jsval :=
  match item with
  | VObj o => field o k
  | _ => VUndef
  end.

(** The posts of a response whose body is an array without null. *)
Definition posts_of (resp : response) : option (list jsval) :=
  match json resp with
  | Some (VArr l) => if existsb js_nullish l then None else Some l
  | _ => None
  end.

(** The settlements on which the [try] block of [fetchBooks] throws: the
    call is rejected, the list page sees a status that is not a success,
    the body is not JSON or not an array, or a post of it is null. *)
Definition list_fails (pg : which_page) (r : settled) : bool :=
  match r with
  | Rejected => true
  | Resolved resp =>
      match pg with
      | ListPage => negb (ok resp) || negb (bool_decide (is_Some (posts_of resp)))
      | MainPage => negb (bool_decide (is_Some (posts_of resp)))
      end
  end.

(** The book that [fetchBooks] makes of a post: on the list page, and on
    the main page with the draws for the genre and the year. *)
Definition sc_book_of (item : jsval) : gmap string jsval :=
  <["id" := prop item "id"]>
  (<["title" := prop item "title"]>
  (<["body" := prop item "body"]>
  {["author" := js_or (prop item "author") (VStr EmptyString)]})).

Definition pp_book_of (draws : nat * nat) (item : jsval) : gmap string jsval :=
  <["id" := prop item "id"]>
  (<["title" := prop item "title"]>
  (<["body" := prop item "body"]>
  (<["author" := js_or (prop item "author") (VStr "Desconhecido")]>
  (<["genre" := default VUndef
       (VStr <$> PaginaPrincipal.generosValidos
                 !! (draws.1 `mod` length PaginaPrincipal.generosValidos)%nat)]>
  {["year" := VNum (2000 + Z.of_nat (draws.2 `mod` 25)%nat)]})))).

(** [fetchBooks] of a page. *)
Definition fetchBooks_of (pg : which_page) (random : nat → nat * nat) (r : settled)
  : M unit :=
  match pg with
  | ListPage => Script.fetchBooks r
  | MainPage => PaginaPrincipal.fetchBooks random r
  end.

(** The store that a load makes of the posts, and what a page shows for a
    store of records. *)
Definition loaded (pg : which_page) (random : nat → nat * nat) (posts : list jsval)
  : list (gmap string jsval) :=
  match pg with
  | ListPage => sc_book_of <$> posts
  | MainPage => imap (λ j item, pp_book_of (random j) item) posts
  end.


(** What a render pass leaves on the page for a store of records: the
    pass of the main page stops at the first card it cannot build. *)
Definition shows_of (pg : which_page) (rs : list (gmap string jsval)) : view :=
  match pg with
  | ListPage => sc_view rs
  | MainPage => pp_shows rs
  end.

(** A record as [JSON.parse] reads it back from what [JSON.stringify]
    wrote of it. *)
Definition json_record (o : gmap string jsval) : gmap string jsval :=
  omap (λ x, match x with VUndef => None | _ => Some (to_json x) end) o.

(** The first of the properties [keys] of a record that is neither null
    nor undefined, [d] when there is none. *)
Definition chosen (o : gmap string jsval) (keys : list string) (d : jsval) : jsval :=
  foldr (λ k rest, js_coalesce (field o k) rest) d keys.

(** A book of the catalogue: an object whose title, author, genre, year
    and description are neither null nor undefined. *)
Definition catalogued (v : jsval) : bool :=
  match v with
  | VObj n =>
      forallb (λ k, negb (js_nullish (field n k)))
        ["titulo"; "autor"; "genero"; "ano"; "descricao"]
  | _ => false
  end.

(** A handler throws at an event, and no handler throws along a sequence
    of events. *)
Definition thrown (h : handlers) (e : event) (s : system) : bool :=
  match e with
  | Submit f now => throws (on_submit h f now (page s)).1
  | ClickDelete id => throws (on_delete h id (page s)).1
  | Settle k r =>
      match in_flight s !! k with
      | Some p => throws (on_settle h p r (page s)).1
      | None => false
      end
  end.

Fixpoint quiet (h : handlers) (es : list event) (s : system) : bool :=
  match es with
  | [] => true
  | e :: es' => negb (thrown h e s) && quiet h es' (step h e s)
  end.


(** The texts of a book that the catalogue shows: its title, author,
    genre, year and description; the book can be shown when they convert
    to strings. *)
Definition texts : list string := ["titulo"; "autor"; "genero"; "ano"; "descricao"].

Definition showable (v : jsval) : bool :=
  match v with
  | VObj n => forallb (λ k, stringable (field n k)) texts
  | _ => false
  end.

(** What [escapeHtml] returns for a value that converts. *)
Definition escaped_text (v : jsval) : string :=
  CatalogoPagina.escaped
    (js_to_string (match v with VUndef => VStr EmptyString | _ => v end)).

(** The card that the catalogue shows for a record. *)
Definition catalogue_card (n : gmap string jsval) : card :=
  Card (VObj n) ((λ k, VStr (escaped_text (field n k))) <$> texts).

(** What the catalogue shows for a list of records. *)
Definition catalogue_view (ns : list (gmap string jsval)) : view :=
  match ns with
  | [] => NoBooks
  | _ => Cards (catalogue_card <$> ns)
  end.

(** The record of the catalogue for a record of another page. *)
Definition catalogue_of (o : gmap string jsval) : gmap string jsval :=
  built (chosen o ["id"; "ID"] VNull)
    (chosen o ["titulo"; "title"] (VStr "Título sem nome"))
    (chosen o ["autor"; "author"] (VStr "Autor desconhecido"))
    (chosen o ["genero"; "genre"; "tipo"] (VStr "Outros"))
    (chosen o ["ano"; "year"; "publicationYear"] (VStr "—"))
    (chosen o ["descricao"; "body"; "description"] (VStr EmptyString)).

(** The settlements that give the catalogue no posts: the call is
    rejected, the body is not JSON or not an array, or a post of it is
    null.  (The catalogue does not look at the status.) *)
Definition no_posts (r : settled) : bool :=
  match r with
  | Rejected => true
  | Resolved resp => negb (bool_decide (is_Some (posts_of resp)))
  end.

(** The object that [initCatalogo] makes of the post of index [j]. *)
Definition mapped_of (j : nat) (item : jsval) : gmap string jsval :=
  <["id" := prop item "id"]>
  (<["titulo" := prop item "title"]>
  (<["autor" := VStr ("Autor " +:+ pretty (j + 1)%nat)]>
  (<["genero" := default VUndef
       (VStr <$> CatalogoPagina.generos !! (j `mod` length CatalogoPagina.generos)%nat)]>
  (<["ano" := VNum (2010 + Z.of_nat (j `mod` 14)%nat)]>
  {["descricao" := prop item "body"]})))).

(** The first half of a handler issues one call when it returns what its
    continuation captured, and none when it returns without or throws. *)
Definition starts_call (m : M (option pending)) : Prop :=
  ∀ st,
    match (m st).1 with
    | Ok (Some _) => ∃ req, requests (m st).2 = req :: requests st
    | _ => requests (m st).2 = requests st
    end.

End page.

End Behaviour.

(** * Properties *)

Import JS Page Store Behaviour.

(** Unfolds the statements of the monad and the projections of the state. *)
Ltac mstep :=
  cbv [mbind M_bind mret M_ret res_bind res_ret lift get_books put_books
       set_view setItem_livros notify send throw try_catch fetched res_json
       assign_prop from_option
       books livros listaLivros notices requests];
  cbn [ok json]; cbv beta iota.

Lemma run_bind {A B} (m : M A) (f : A → M B) st a st' :
  m st = (Ok a, st') → (m ≫= f) st = f a st'.
Proof. intros H. unfold mbind, M_bind. by rewrite H. Qed.

Section properties.
Context {parser : PaginaPrincipal.Parser}.

(** ** Arrays of records *)

Section records.
Implicit Types (rs : list (gmap string jsval)) (o : gmap string jsval).

Lemma of_records_take n rs : take n (of_records rs) = of_records (take n rs).
Proof. unfold of_records. by rewrite fmap_take. Qed.

Lemma of_records_length rs : length (of_records rs) = length rs.
Proof. unfold of_records. by rewrite length_fmap. Qed.

Lemma of_records_lookup rs i o :
  rs !! i = Some o → of_records rs !! i = Some (Some (VObj o)).
Proof. intros H. unfold of_records. by rewrite list_lookup_fmap, H. Qed.

Lemma arr_get_records rs i o : rs !! i = Some o → arr_get (of_records rs) i = VObj o.
Proof. intros H. unfold arr_get. by rewrite (of_records_lookup _ _ _ H). Qed.

Lemma of_records_insert rs i o :
  <[i := Some (VObj o)]> (of_records rs) = of_records (<[i := o]> rs).
Proof. unfold of_records. by rewrite list_fmap_insert. Qed.

Lemma arr_set_records rs i o :
  (i < length rs)%nat →
  arr_set (of_records rs) i (VObj o) = of_records (<[i := o]> rs).
Proof.
  intros Hi. unfold arr_set. rewrite of_records_length.
  destruct (decide (i < length rs)%nat); [|lia]. apply of_records_insert.
Qed.

(** A callback that reads the identity of the element it is given. *)
Variables (p : jsval → res bool) (q : gmap string jsval → bool).
Hypothesis p_records : ∀ o, p (VObj o) = Ok (q o).

Lemma arr_filter_records rs :
  arr_filter p (of_records rs) = Ok (of_records (List.filter q rs)).
Proof using p_records.
  induction rs as [|o rs IH]; [done|].
  simpl. rewrite p_records, IH. simpl. by destruct (q o).
Qed.


Lemma arr_findIndex_from_records rs k :
  arr_findIndex_from p (of_records rs) k
  = Ok ((λ j, (k + j)%nat) <$> (fst <$> list_find (λ o, q o = true) rs)).
Proof using p_records.
  revert k. induction rs as [|o rs IH]; intros k; [done|].
  simpl. rewrite p_records. simpl.
  destruct (decide (q o = true)) as [Hq|Hq].
  - rewrite Hq. simpl. by rewrite Nat.add_0_r.
  - apply not_true_is_false in Hq. rewrite Hq. rewrite IH.
    destruct (list_find _ rs) as [[j x]|]; simpl; [|done].
    do 2 f_equal. lia.
Qed.

Lemma arr_findIndex_records rs :
  arr_findIndex p (of_records rs)
  = Ok (fst <$> list_find (λ o, q o = true) rs).
Proof using p_records.
  unfold arr_findIndex. rewrite arr_findIndex_from_records.
  by destruct (list_find _ rs) as [[j x]|].
Qed.

End records.

Lemma filter_fresh n rs :
  fresh n rs = true →
  List.filter (λ o, negb (has_identity n o)) rs = rs.
Proof.
  unfold fresh. induction rs as [|o rs IH]; [done|].
  simpl. intros [-> ?]%andb_true_iff. f_equal. auto.
Qed.

(** ** Rendering a store of records *)

Lemma card_of_shown o :
  shown o = true → PaginaPrincipal.card_of (VObj o) = Ok (pp_card o).
Proof.
  unfold shown, PaginaPrincipal.card_of, pp_card.
  cbn [js_get mbind res_bind mret res_ret].
  repeat match goal with
         | |- context [to_string ?v] =>
             destruct (to_string v) as [?|?]; cbn [mbind res_bind]; [|done]
         end.
  by match goal with
     | |- context [PaginaPrincipal.buttons_found ?t] =>
         destruct (PaginaPrincipal.buttons_found t)
     end.
Qed.

Lemma card_of_unshown o :
  shown o = false → PaginaPrincipal.card_of (VObj o) = Throw TypeError.
Proof.
  unfold shown, PaginaPrincipal.card_of, to_string.
  cbn [js_get mbind res_bind mret res_ret].
  repeat match goal with
         | |- context [stringable ?v] =>
             destruct (stringable v); cbn [mbind res_bind]; [|done]
         end.
  by match goal with
     | |- context [PaginaPrincipal.buttons_found ?t] =>
         destruct (PaginaPrincipal.buttons_found t)
     end.
Qed.

Lemma shown_prefix_all rs : forallb shown rs = true → shown_prefix rs = rs.
Proof.
  induction rs as [|o rs IH]; [done|]. cbn.
  intros [-> Hrs]%andb_true_iff. by rewrite IH.
Qed.

Lemma pp_shows_pass rs : pp_pass rs = true → pp_shows rs = pp_view rs.
Proof.
  unfold pp_pass, pp_shows, pp_view. intros Hrs.
  destruct rs as [|o rs]; [done|]. by rewrite shown_prefix_all.
Qed.

Lemma pp_saves_pass rs lv : pp_pass rs = true → pp_saves rs lv = pp_slot rs lv.
Proof. unfold pp_saves. by intros ->. Qed.

Lemma pp_forEach_records rs bs lv cs ns rq :
  arr_forEach PaginaPrincipal.show_card (of_records rs) (State bs lv (Cards cs) ns rq)
  = (if forallb shown rs then Ok () else Throw TypeError,
     State bs lv (Cards (cs ++ (pp_card <$> shown_prefix rs))) ns rq).
Proof.
  revert cs. induction rs as [|o rs IH]; intros cs.
  - simpl. by rewrite app_nil_r.
  - cbn [of_records fmap list_fmap arr_forEach forallb shown_prefix].
    fold (of_records rs). mstep. unfold PaginaPrincipal.show_card at 1. mstep.
    destruct (shown o) eqn:Ho.
    + rewrite (card_of_shown o Ho). unfold append_card. cbn [listaLivros].
      mstep. rewrite IH. cbn [andb fmap list_fmap]. by rewrite <- app_assoc.
    + rewrite (card_of_unshown o Ho). cbn [andb fmap list_fmap].
      by rewrite app_nil_r.
Qed.

(** A render pass of the main page on a store of records, whether it
    completes or throws. *)
Lemma pp_render_records rs lv vw ns rq :
  PaginaPrincipal.renderBooks (State (of_records rs) lv vw ns rq)
  = (if pp_pass rs then Ok () else Throw TypeError,
     State (of_records rs) (pp_saves rs lv) (pp_shows rs) ns rq).
Proof.
  unfold PaginaPrincipal.renderBooks. mstep. unfold arr_slice0.
  rewrite of_records_take, of_records_length.
  destruct rs as [|o rs]; [done|].
  change (length (take 4 (o :: rs)) =? 0)%nat with false. cbv beta iota.
  rewrite pp_forEach_records. unfold pp_saves, pp_pass, pp_shows.
  by destruct (forallb shown (take 4 (o :: rs))).
Qed.

Lemma sc_items_records rs : Script.items_of (of_records rs) = Ok (sc_item <$> rs).
Proof.
  induction rs as [|o rs IH]; [done|]. simpl. by rewrite IH.
Qed.

Lemma sc_render_records rs lv vw ns rq :
  Script.renderBooks (State (of_records rs) lv vw ns rq)
  = (Ok (), State (of_records rs) lv (sc_view rs) ns rq).
Proof.
  unfold Script.renderBooks. mstep. rewrite of_records_length.
  destruct rs as [|o rs]; [done|].
  change (length (o :: rs) =? 0)%nat with false. cbv beta iota.
  by rewrite sc_items_records.
Qed.

(** ** The main page on a store of records *)

Section main_page.
Import PaginaPrincipal.
Implicit Types (rs : list (gmap string jsval)) (o : gmap string jsval).

(** Each half of a handler of the main page ends with a render pass: it
    returns when the pass completes, and throws, with the store already
    changed, when the pass throws. *)
Lemma pp_create_call now data rs lv vw ns rq :
  let o := data ∪ {["id" := VNum (now * -1)]} in
  handleCreate_call now data (State (of_records rs) lv vw ns rq)
  = (if pp_pass (o :: rs) then Ok (Some (PendingCreate (now * -1))) else Throw TypeError,
     State (of_records (o :: rs)) (pp_saves (o :: rs) lv) (pp_shows (o :: rs)) ns
       (if pp_pass (o :: rs)
        then Request POST EmptyString (Some (to_json (VObj data))) :: rq
        else rq)).
Proof.
  intros o. unfold handleCreate_call. mstep. unfold arr_unshift.
  change (Some (VObj ?x) :: of_records rs) with (of_records (x :: rs)).
  rewrite pp_render_records. by destruct (pp_pass _).
Qed.

Lemma pp_create_call_ok now data rs lv vw ns rq :
  let o := data ∪ {["id" := VNum (now * -1)]} in
  pp_pass (o :: rs) = true →
  handleCreate_call now data (State (of_records rs) lv vw ns rq)
  = (Ok (Some (PendingCreate (now * -1))),
     State (of_records (o :: rs)) (pp_slot (o :: rs) lv) (pp_view (o :: rs)) ns
       (Request POST EmptyString (Some (to_json (VObj data))) :: rq)).
Proof.
  intros o Ho. rewrite pp_create_call. fold o.
  by rewrite pp_saves_pass, pp_shows_pass, Ho.
Qed.

Lemma pp_create_catch t err rs lv vw ns rq :
  let rs' := List.filter (λ o, negb (has_identity t o)) rs in
  handleCreate_catch t err (State (of_records rs) lv vw ns rq)
  = (if pp_pass rs' then Ok () else Throw TypeError,
     State (of_records rs') (pp_saves rs' lv) (pp_shows rs')
       (if pp_pass rs'
        then Alert "Falha ao salvar o livro no servidor. Tente novamente." :: ns
        else ns) rq).
Proof.
  intros rs'. unfold handleCreate_catch. mstep.
  rewrite (arr_filter_records _ (λ o, negb (has_identity t o))) by done.
  cbv beta iota. rewrite pp_render_records. fold rs'. by destruct (pp_pass _).
Qed.

Lemma pp_create_catch_ok t err rs lv vw ns rq :
  let rs' := List.filter (λ o, negb (has_identity t o)) rs in
  pp_pass rs' = true →
  handleCreate_catch t err (State (of_records rs) lv vw ns rq)
  = (Ok (),
     State (of_records rs') (pp_slot rs' lv) (pp_view rs')
       (Alert "Falha ao salvar o livro no servidor. Tente novamente." :: ns) rq).
Proof.
  intros rs' Hrs'. rewrite pp_create_catch. fold rs'.
  by rewrite pp_saves_pass, pp_shows_pass, Hrs'.
Qed.

Lemma pp_create_commit t resp serverBook sid rs lv vw ns rq :
  json resp = Some serverBook →
  js_get serverBook "id" = Ok sid →
  handleCreate_settle t (Resolved resp) (State (of_records rs) lv vw ns rq)
  = match list_find (λ o, has_identity t o = true) rs with
    | Some (i, o) =>
        let rs' := <[i := <["id" := sid]> o]> rs in
        if pp_pass rs'
        then (Ok (), State (of_records rs') (pp_slot rs' lv) (pp_view rs') ns rq)
        else handleCreate_catch t TypeError
               (State (of_records rs') lv (pp_shows rs') ns rq)
    | None => (Ok (), State (of_records rs) lv vw ns rq)
    end.
Proof.
  intros Hjson Hid. unfold handleCreate_settle. mstep. rewrite Hjson.
  rewrite (arr_findIndex_records _ (has_identity t)) by done.
  destruct (list_find _ rs) as [[i o]|] eqn:Hf; simpl; [|done].
  apply list_find_Some in Hf as (Hi & _ & _).
  rewrite Hid, (arr_get_records _ _ _ Hi). simpl.
  rewrite of_records_insert, pp_render_records.
  destruct (pp_pass _) eqn:Hpass; [|by unfold pp_saves; rewrite Hpass].
  by rewrite pp_saves_pass, pp_shows_pass.
Qed.
End main_page.

Section main_page_more.
Import PaginaPrincipal.
Implicit Types (rs : list (gmap string jsval)) (o : gmap string jsval).


Lemma pp_lookup id rs lv vw ns rq :
  findIndex_loose id (State (of_records rs) lv vw ns rq)
  = (Ok (fst <$> list_find (λ o, pp_matches id o = true) rs),
     State (of_records rs) lv vw ns rq).
Proof.
  unfold findIndex_loose. mstep.
  by rewrite (arr_findIndex_records _ (pp_matches id)).
Qed.

Lemma pp_update_call id data rs lv vw ns rq :
  handleUpdate_call id data (State (of_records rs) lv vw ns rq)
  = match list_find (λ o, pp_matches id o = true) rs with
    | Some (i, o) =>
        let rs' := <[i := data ∪ o]> rs in
        (if pp_pass rs' then Ok (Some (PendingUpdate i (VObj o))) else Throw TypeError,
         State (of_records rs') (pp_saves rs' lv) (pp_shows rs') ns
           (if pp_pass rs'
            then Request PUT ("/" +:+ js_to_string id) (Some (to_json (VObj data))) :: rq
            else rq))
    | None =>
        (Ok None,
         State (of_records rs) lv vw (Alert "Livro não encontrado." :: ns) rq)
    end.
Proof.
  unfold handleUpdate_call.
  unfold mbind at 1, M_bind at 1. rewrite pp_lookup.
  destruct (list_find _ rs) as [[i o]|] eqn:Hf; simpl; [|done].
  apply list_find_Some in Hf as (Hi & _ & _).
  mstep. rewrite (arr_get_records _ _ _ Hi). simpl spread.
  rewrite arr_set_records by (by eapply lookup_lt_Some).
  rewrite pp_render_records. by destruct (pp_pass _).
Qed.


Lemma pp_delete_call id rs lv vw ns rq :
  handleDelete_call id (State (of_records rs) lv vw ns rq)
  = match list_find (λ o, pp_matches id o = true) rs with
    | Some (i, o) =>
        let rs' := delete i rs in
        (if pp_pass rs' then Ok (Some (PendingDelete i (VObj o))) else Throw TypeError,
         State (of_records rs') (pp_saves rs' lv) (pp_shows rs') ns
           (if pp_pass rs'
            then Request DELETE ("/" +:+ js_to_string id) None :: rq
            else rq))
    | None => (Ok None, State (of_records rs) lv vw ns rq)
    end.
Proof.
  unfold handleDelete_call.
  unfold mbind at 1, M_bind at 1. rewrite pp_lookup.
  destruct (list_find _ rs) as [[i o]|] eqn:Hf; simpl; [|done].
  apply list_find_Some in Hf as (Hi & _ & _).
  mstep. rewrite (arr_get_records _ _ _ Hi).
  unfold arr_splice_remove, of_records. rewrite <- list_fmap_delete.
  fold (of_records (delete i rs)). rewrite pp_render_records.
  by destruct (pp_pass _).
Qed.


End main_page_more.


(** ** The list page on a store of records *)

Section list_page.
Import Script.
Implicit Types (rs : list (gmap string jsval)) (o : gmap string jsval).

Lemma sc_lookup id rs lv vw ns rq :
  findBookIndexById id (State (of_records rs) lv vw ns rq)
  = (Ok (fst <$> list_find (λ o, sc_matches id o = true) rs),
     State (of_records rs) lv vw ns rq).
Proof.
  unfold findBookIndexById. mstep.
  by rewrite (arr_findIndex_records _ (sc_matches id)).
Qed.

Lemma sc_create_call now data rs lv vw ns rq :
  let o := data ∪ {["id" := VNum (now * -1)]} in
  ∃ req,
    handleCreate_call now data (State (of_records rs) lv vw ns rq)
    = (Ok (Some (PendingCreate (now * -1))),
       State (of_records (o :: rs)) lv (sc_view (o :: rs))
         (Message "Criando livro..." None "info" :: ns) (req :: rq)).
Proof.
  intros o. eexists. unfold handleCreate_call. mstep. unfold arr_unshift.
  change (Some (VObj ?x) :: of_records rs) with (of_records (x :: rs)).
  by rewrite sc_render_records.
Qed.


Lemma sc_create_commit t resp serverBook sid rs lv vw ns rq :
  ok resp = true →
  json resp = Some serverBook →
  js_get serverBook "id" = Ok sid →
  handleCreate_settle t (Resolved resp) (State (of_records rs) lv vw ns rq)
  = (Ok (),
     match list_find (λ o, sc_matches (VNum t) o = true) rs with
     | Some (i, o) =>
         let rs' := <[i := <["id" := sid]> o]> rs in
         State (of_records rs') lv (sc_view rs')
           (Message "Livro criado com sucesso!" None "success" :: ns) rq
     | None =>
         State (of_records rs) lv vw
           (Message "Livro criado com sucesso!" None "success" :: ns) rq
     end).
Proof.
  intros Hok Hjson Hid. unfold handleCreate_settle, try_catch.
  rewrite (run_bind _ _ _ resp (State (of_records rs) lv vw ns rq)) by done.
  rewrite Hok.
  rewrite (run_bind _ _ _ () (State (of_records rs) lv vw ns rq)) by done.
  rewrite (run_bind _ _ _ serverBook (State (of_records rs) lv vw ns rq))
    by (unfold res_json; by rewrite Hjson).
  erewrite run_bind by apply sc_lookup.
  destruct (list_find _ rs) as [[i o]|] eqn:Hf; simpl; [|done].
  apply list_find_Some in Hf as (Hi & _ & _).
  mstep. rewrite Hid, (arr_get_records _ _ _ Hi). simpl.
  by rewrite of_records_insert, sc_render_records.
Qed.


Lemma sc_update_call id data rs lv vw ns rq :
  handleUpdate_call id data (State (of_records rs) lv vw ns rq)
  = match list_find (λ o, sc_matches id o = true) rs with
    | Some (i, o) =>
        let rs' := <[i := data ∪ o]> rs in
        (Ok (Some (PendingUpdate i (VObj o))),
         State (of_records rs') lv (sc_view rs')
           (Message "Atualizando livro..." None "info" :: ns)
           (Request PUT ("/" +:+ js_to_string id)
              (Some (to_json (VObj (<["id" := id]>
                                   (<["title" := field data "title"]>
                                   (<["body" := field data "body"]>
                                   {["userId" := VNum 1]})))))) :: rq))
    | None =>
        (Ok None,
         State (of_records rs) lv vw
           (Message "Livro para editar não encontrado." None "error" :: ns) rq)
    end.
Proof.
  unfold handleUpdate_call. erewrite run_bind by apply sc_lookup.
  destruct (list_find _ rs) as [[i o]|] eqn:Hf; simpl; [|done].
  apply list_find_Some in Hf as (Hi & _ & _).
  mstep. rewrite (arr_get_records _ _ _ Hi). simpl spread.
  rewrite arr_set_records by (by eapply lookup_lt_Some).
  by rewrite sc_render_records.
Qed.


Lemma sc_delete_call id rs lv vw ns rq :
  handleDelete_call id (State (of_records rs) lv vw ns rq)
  = match list_find (λ o, sc_matches id o = true) rs with
    | Some (i, o) =>
        let rs' := List.filter (λ o, negb (js_strict_eq (identity o) id)) rs in
        (Ok (Some (PendingDelete i (VObj o))),
         State (of_records rs') lv (sc_view rs')
           (Message "Excluindo livro..." None "info" :: ns)
           (Request DELETE ("/" +:+ js_to_string id) None :: rq))
    | None =>
        (Ok None,
         State (of_records rs) lv vw
           (Message "Livro para excluir não encontrado." None "error" :: ns) rq)
    end.
Proof.
  unfold handleDelete_call. erewrite run_bind by apply sc_lookup.
  destruct (list_find _ rs) as [[i o]|] eqn:Hf; simpl; [|done].
  apply list_find_Some in Hf as (Hi & _ & _).
  mstep. rewrite (arr_get_records _ _ _ Hi).
  rewrite (arr_filter_records _ (λ o, negb (js_strict_eq (identity o) id))) by done.
  cbv beta iota. by rewrite sc_render_records.
Qed.
End list_page.

(** ** Submitting the form *)

Lemma step_submit h f now s p st' :
  on_submit h f now (page s) = (Ok (Some p), st') →
  step h (Submit f now) s = System st' (in_flight s ++ [p]).
Proof. intros H. simpl. by rewrite H. Qed.

Lemma step_settle_first h r s p ps :
  in_flight s = p :: ps →
  step h (Settle 0 r) s = System (on_settle h p r (page s)).2 ps.
Proof. intros H. simpl. by rewrite H. Qed.

Lemma submit_create pg f now st :
  accepts pg f = true →
  livroId f = EmptyString →
  on_submit (handlers_of pg) f now st
  = match pg with
    | ListPage => Script.handleCreate_call now (payload pg f) st
    | MainPage => PaginaPrincipal.handleCreate_call now (payload pg f) st
    end.
Proof.
  intros Hok Hid. destruct pg; simpl in *.
  - unfold Script.submit. by rewrite Hok, Hid.
  - unfold PaginaPrincipal.submit.
    apply andb_true_iff in Hok as [[H1 H2]%andb_true_iff H3].
    rewrite H1. apply negb_true_iff in H2, H3. by rewrite H2, H3, Hid.
Qed.


Lemma payload_no_id pg f : payload pg f !! "id" = None.
Proof. by destruct pg. Qed.

Lemma optimistic_identity pg f t :
  identity (payload pg f ∪ {["id" := VNum t]}) = VNum t.
Proof.
  unfold identity, field.
  by rewrite lookup_union_r, lookup_singleton_eq by apply payload_no_id.
Qed.


Lemma has_identity_refl t o : identity o = VNum t → has_identity t o = true.
Proof. unfold has_identity. intros ->. simpl. apply Z.eqb_refl. Qed.

Lemma has_identity_eq t o : has_identity t o = true → identity o = VNum t.
Proof.
  unfold has_identity. destruct (identity o); simpl; try done.
  by intros ->%Z.eqb_eq.
Qed.

Lemma sc_matches_refl id o : identity o = id → sc_matches id o = true.
Proof. unfold sc_matches. intros ->. apply String.eqb_refl. Qed.

Lemma fresh_Forall t rs : fresh t rs = true ↔ Forall (λ o, identity o ≠ VNum t) rs.
Proof.
  unfold fresh. rewrite forallb_forall, Forall_forall.
  setoid_rewrite <- list_elem_of_In.
  split; intros H o Ho; specialize (H o Ho).
  - intros Heq. by rewrite (has_identity_refl _ _ Heq) in H.
  - apply negb_true_iff, not_true_is_false. intros Heq. by apply H, has_identity_eq.
Qed.

(** ** What a card depends on *)

Lemma shown_fields (o o' : gmap string jsval) :
  field o "title" = field o' "title" →
  field o "body" = field o' "body" →
  field o "author" = field o' "author" →
  field o "genre" = field o' "genre" →
  field o "year" = field o' "year" →
  shown o = shown o'.
Proof.
  intros Ht Hb Ha Hg Hy. unfold shown, PaginaPrincipal.card_of.
  cbn [js_get mbind res_bind mret res_ret]. rewrite Ht, Hb, Ha, Hg, Hy.
  repeat match goal with
         | |- context [to_string ?v] =>
             destruct (to_string v) as [?|?]; cbn [mbind res_bind]; [|done]
         end.
  by match goal with
     | |- context [PaginaPrincipal.buttons_found ?t] =>
         destruct (PaginaPrincipal.buttons_found t)
     end.
Qed.

Lemma shown_set_id (o : gmap string jsval) (x : jsval) :
  shown (<["id" := x]> o) = shown o.
Proof. apply shown_fields; unfold field; by rewrite lookup_insert_ne. Qed.

Lemma pp_pass_set_id (o : gmap string jsval) (x : jsval) rs :
  pp_pass (<["id" := x]> o :: rs) = pp_pass (o :: rs).
Proof. unfold pp_pass. cbn [take forallb]. by rewrite shown_set_id. Qed.

(** A create issues its call exactly when the render pass that follows
    the optimistic insertion completes. *)
Lemma create_issued pg f now rs lv vw ns rq fl :
  accepts pg f = true →
  livroId f = EmptyString →
  in_flight (step (handlers_of pg) (Submit f now)
               (System (State (of_records rs) lv vw ns rq) fl)) ≠ fl →
  renders pg ((payload pg f ∪ {["id" := VNum (now * -1)]}) :: rs) = true.
Proof.
  intros Hok Hid Hfl. destruct pg; [done|]. cbn [renders].
  destruct (pp_pass _) eqn:Hpass; [done|]. destruct Hfl.
  cbn [step page in_flight]. rewrite submit_create by done.
  rewrite pp_create_call. cbv zeta. by rewrite Hpass.
Qed.

(** ** C1 *)


(** ** C2 *)

(** C2, as amended.  A create whose call was issued and succeeds: as soon
    as the form is submitted the new record is at the front of the store
    under the placeholder identity; once the call has settled it carries
    the identity the server assigned, no other record does, and no record
    carries the placeholder.  On both pages, for every form the listener
    accepts as a create, on a store of records that holds neither the
    identity assigned by the server nor the placeholder, the two being
    different. *)
Theorem C2_committed_create_has_server_identity
    (pg : which_page) (f : form) (now : Z) (resp : response)
    (serverBook sid : jsval) (rs : list (gmap string jsval)) (st : state) :
  books st = of_records rs →
  fresh (now * -1) rs = true →
  accepts pg f = true →
  livroId f = EmptyString →
  create_fails pg (Resolved resp) = false →
  json resp = Some serverBook →
  js_get serverBook "id" = Ok sid →
  sid ∉ identities rs →
  sid ≠ VNum (now * -1) →
  let s1 := run (handlers_of pg) [Submit f now] (System st []) in
  let s2 := run (handlers_of pg) [Settle 0 (Resolved resp)] s1 in
  in_flight s1 ≠ [] →
  (∃ o, books (page s1) = of_records (o :: rs) ∧ identity o = VNum (now * -1))
  ∧ (∃ o, books (page s2) = of_records (o :: rs)
          ∧ identity o = sid
          ∧ (sid ∉ identities rs)
          ∧ VNum (now * -1) ∉ identities (o :: rs)).
Proof.
  intros Hb Hfresh Hok Hid Hr Hjson Hsid Hnew Hne s1 s2 Hcall.
  destruct st as [bs lv vw ns rq]. simpl in Hb. subst bs s2 s1.
  unfold run in *. cbn [foldl] in *.
  pose proof (create_issued _ _ _ _ _ _ _ _ _ Hok Hid Hcall) as Hshown.
  clear Hcall.
  pose proof (optimistic_identity pg f (now * -1)) as Hopt.
  assert (VNum (now * -1) ∉ identities (<["id" := sid]> (payload pg f ∪ {["id" := VNum (now * -1)]}) :: rs)) as Hgone.
  { unfold identities. rewrite fmap_cons, not_elem_of_cons. split.
    - unfold identity, field. by rewrite lookup_insert_eq.
    - apply fresh_Forall in Hfresh. rewrite list_elem_of_fmap.
      intros (o & Ho & Hin). rewrite Forall_forall in Hfresh.
      by apply (Hfresh o). }
  destruct pg.
  - destruct (sc_create_call now (payload ListPage f) rs lv vw ns rq) as [req Hcall].
    erewrite step_submit; cycle 1.
    { cbn [page]. rewrite submit_create by done. apply Hcall. }
    split; [by eexists|].
    erewrite step_settle_first by done.
    cbn [page handlers_of on_settle Script.handlers Script.settle].
    simpl in Hr. apply orb_false_iff in Hr as [Hr _]. apply negb_false_iff in Hr.
    rewrite (sc_create_commit _ _ _ _ _ _ _ _ _ Hr Hjson Hsid).
    cbn [list_find]. rewrite decide_True by (by apply sc_matches_refl).
    cbn. eexists. split; [done|]. split; [|done].
    unfold identity, field. by rewrite lookup_insert_eq.
  - cbn [renders] in Hshown.
    erewrite step_submit; cycle 1.
    { cbn [page]. rewrite submit_create by done. by apply pp_create_call_ok. }
    split; [by eexists|].
    erewrite step_settle_first by done.
    cbn [page handlers_of on_settle PaginaPrincipal.handlers PaginaPrincipal.settle].
    rewrite (pp_create_commit _ _ _ _ _ _ _ _ _ Hjson Hsid).
    cbn [list_find]. rewrite decide_True by (by apply has_identity_refl).
    cbn [fmap option_fmap option_map prod_map fst snd]. cbv zeta.
    cbn [insert list_insert]. rewrite pp_pass_set_id, Hshown.
    cbn. eexists. split; [done|]. split; [|done].
    unfold identity, field. by rewrite lookup_insert_eq.
Qed.

(** ** C3 *)

Lemma lookup_records pg id rs lv vw ns rq :
  lookup pg id (State (of_records rs) lv vw ns rq)
  = (Ok (fst <$> list_find
           (λ o, (match pg with
                  | ListPage => sc_matches id o
                  | MainPage => pp_matches id o
                  end) = true) rs),
     State (of_records rs) lv vw ns rq).
Proof. destruct pg; [apply sc_lookup|apply pp_lookup]. Qed.

(** C3. An update that fails after another record was deleted does not
    put its record back where the lookup finds it.  With the records 8 and
    9 in the store: 9 is edited, 8 is deleted and that call succeeds, then
    the call of the edit fails.  Before the edit the lookup of 9 found the
    record titled "Ulysses"; after the failure it finds a record that
    carries the title of the form, on the list page and on the main page:
    the rollback wrote at the index found before the call. *)
Theorem C3_failed_update_after_a_delete_keeps_the_edit :
  (let s0 := System (showing ListPage [emma; ulysses]) [] in
   let s := run Script.handlers
              [Submit edit_ulysses 1000; ClickDelete (VNum 8);
               Settle 1 status_200; Settle 0 status_500] s0 in
   (lookup ListPage (VStr "9") (page s0)).1 = Ok (Some 1%nat)
   ∧ js_get (arr_get (books (page s0)) 1) "title" = Ok (VStr "Ulysses")
   ∧ update_fails ListPage status_500 = true
   ∧ (lookup ListPage (VStr "9") (page s)).1 = Ok (Some 0%nat)
   ∧ js_get (arr_get (books (page s)) 0) "title" = Ok (VStr "Ulisses")
   ∧ in_flight s = [])
  ∧ (let s0 := System (showing MainPage [emma; ulysses]) [] in
     let s := run PaginaPrincipal.handlers
                [Submit edit_ulysses 1000; ClickDelete (VNum 8);
                 Settle 1 status_200; Settle 0 Rejected] s0 in
     (lookup MainPage (VStr "9") (page s0)).1 = Ok (Some 1%nat)
     ∧ js_get (arr_get (books (page s0)) 1) "title" = Ok (VStr "Ulysses")
     ∧ update_fails MainPage Rejected = true
     ∧ (lookup MainPage (VStr "9") (page s)).1 = Ok (Some 0%nat)
     ∧ js_get (arr_get (books (page s)) 0) "title" = Ok (VStr "Ulisses")
     ∧ in_flight s = []).
Proof. cbv zeta. split_and!; by vm_compute. Qed.

(** ** C8: the normalisation of the catalogue *)

Section normalisation.
Import Catalogo.

Lemma coalesce_default a d : js_nullish d = false → js_nullish (js_coalesce a d) = false.
Proof. intros Hd. unfold js_coalesce. by destruct (js_nullish a) eqn:Ha. Qed.

Lemma coalesce_kept x y : js_nullish x = false → js_coalesce x y = x.
Proof. intros Hx. unfold js_coalesce. by rewrite Hx. Qed.

Lemma coalesce_null_again a :
  js_coalesce (js_coalesce (js_coalesce a VNull) VUndef) VNull = js_coalesce a VNull.
Proof. by destruct a. Qed.

Lemma normalizarLivro_built id titulo autor genero ano descricao :
  js_nullish titulo = false → js_nullish autor = false →
  js_nullish genero = false → js_nullish ano = false →
  js_nullish descricao = false →
  normalizarLivro (VObj (built (js_coalesce id VNull) titulo autor genero ano descricao))
  = Ok (VObj (built (js_coalesce id VNull) titulo autor genero ano descricao)).
Proof.
  intros Ht Ha Hg Hy Hd. unfold normalizarLivro. cbn [js_truthy js_typeof_object negb orb].
  cbn [js_get mbind res_bind mret res_ret]. unfold field, built.
  repeat first
    [ rewrite lookup_insert_eq
    | rewrite lookup_insert_ne by done
    | rewrite lookup_singleton_eq
    | rewrite lookup_singleton_ne by done ].
  cbv [default from_option Datatypes.id].
  rewrite coalesce_null_again.
  rewrite !(coalesce_kept titulo), !(coalesce_kept autor), !(coalesce_kept genero),
    !(coalesce_kept ano), !(coalesce_kept descricao) by done.
  done.
Qed.

Lemma normalizarLivro_object (raw : jsval) :
  js_truthy raw && js_typeof_object raw = true →
  ∃ n, normalizarLivro raw = Ok (VObj n) ∧ normalizarLivro (VObj n) = Ok (VObj n).
Proof.
  intros Hraw.
  assert (∃ g : string → jsval, ∀ k, js_get raw k = Ok (g k)) as [g Hg].
  { destruct raw; try done; eexists (λ k, _); intros k; reflexivity. }
  eexists. split.
  - unfold normalizarLivro.
    apply andb_true_iff in Hraw as [-> ->]. cbn [negb orb].
    rewrite !Hg. cbn [mbind res_bind mret res_ret]. reflexivity.
  - apply normalizarLivro_built; by repeat apply coalesce_default.
Qed.

Lemma normalizarLivro_other (raw : jsval) :
  js_truthy raw && js_typeof_object raw = false → normalizarLivro raw = Ok VNull.
Proof.
  intros Hraw. unfold normalizarLivro.
  by destruct (js_truthy raw), (js_typeof_object raw).
Qed.

Lemma normalizarLivro_cases (raw : jsval) :
  (normalizarLivro raw = Ok VNull ∧ normalized raw = None)
  ∨ (∃ n, normalizarLivro raw = Ok (VObj n) ∧ normalized raw = Some (VObj n)).
Proof.
  destruct (js_truthy raw && js_typeof_object raw) eqn:Hraw.
  - right. destruct (normalizarLivro_object raw Hraw) as (n & Hn & _).
    exists n. unfold normalized. by rewrite Hn.
  - left. unfold normalized. by rewrite (normalizarLivro_other raw Hraw).
Qed.

Lemma normalizarLista_array (l : list jsval) :
  normalizarLista (VArr l) = Ok (normalizeList_spec l).
Proof.
  unfold normalizarLista, normalizeList_spec. cbn [js_or js_truthy].
  assert (∃ ns, mapM normalizarLivro l = Ok ns
                ∧ List.filter js_truthy ns = omap normalized l) as (ns & -> & <-);
    [|done].
  induction l as [|raw l (ns & IH1 & IH2)]; [by exists []|].
  destruct (normalizarLivro_cases raw) as [[Hn Hs]|(n & Hn & Hs)].
  - exists (VNull :: ns). cbn. rewrite Hn. cbn. rewrite IH1. cbn. by rewrite Hs.
  - exists (VObj n :: ns). cbn. rewrite Hn. cbn. rewrite IH1. cbn.
    by rewrite Hs, IH2.
Qed.
End normalisation.

(** C8. Normalising twice is normalising once: [normalizarLivro] returns on
    every value, what it returns is a fixed point of it, and on a
    well-formed input (an object) the result is a record; [normalizarLista]
    keeps, in their order, exactly the elements whose normalisation gave a
    record. *)
Theorem C8_normalization_idempotent :
  (∀ raw : jsval,
     ∃ n, Catalogo.normalizarLivro raw = Ok n ∧ Catalogo.normalizarLivro n = Ok n)
  ∧ (∀ o : gmap string jsval,
       ∃ n, Catalogo.normalizarLivro (VObj o) = Ok (VObj n)
            ∧ Catalogo.normalizarLivro (VObj n) = Ok (VObj n))
  ∧ (∀ l : list jsval,
       Catalogo.normalizarLista (VArr l) = Ok (normalizeList_spec l)
       ∧ normalizeList_spec l `sublist_of` omap (λ raw,
           match Catalogo.normalizarLivro raw with Ok n => Some n | Throw _ => None end) l).
Proof.
  split_and!.
  - intros raw. destruct (js_truthy raw && js_typeof_object raw) eqn:Hraw.
    + destruct (normalizarLivro_object raw Hraw) as (n & Hn & Hnn). eauto.
    + exists VNull. by rewrite (normalizarLivro_other raw Hraw).
  - intros o. by apply normalizarLivro_object.
  - intros l. split; [apply normalizarLista_array|].
    unfold normalizeList_spec. induction l as [|raw l IH]; [done|].
    cbn. destruct (normalizarLivro_cases raw) as [[Hn Hs]|(n & Hn & Hs)];
      rewrite Hn, Hs; by constructor.
Qed.

(** ** C10 and C9: what a render pass of the main page shows and saves *)

Lemma stringify_records (rs : list (gmap string jsval)) :
  stringify_array (of_records rs) = VArr ((λ o, to_json (VObj o)) <$> rs).
Proof.
  unfold stringify_array, of_records. f_equal.
  rewrite <- list_fmap_compose. done.
Qed.

Lemma shown_prefix_prefix (rs : list (gmap string jsval)) :
  shown_prefix rs `prefix_of` rs.
Proof.
  induction rs as [|o rs IH]; [done|]. cbn.
  destruct (shown o); [by apply prefix_cons|apply prefix_nil].
Qed.

(** C10. A render pass of the main page on a store of records that is not
    empty passes only records among the first four to the display: the
    cards on the page are those of the first of them, in the order of the
    store, up to the first whose card cannot be built.  When the pass
    completes, the cards are those of the first four records and the slot
    it wrote holds every record; when it throws, it wrote nothing.  So
    when the call of a create was issued and succeeds on a store of four
    records or more, the record that was the fourth, now the fifth, has
    no card any more, and is still in the store and in the slot. *)
Theorem C10_render_shows_first_four_and_saves_all :
  (∀ (rs : list (gmap string jsval)) (st : state),
     books st = of_records rs →
     rs ≠ [] →
     let st' := (PaginaPrincipal.renderBooks st).2 in
     books st' = books st
     ∧ (∃ first, first `prefix_of` take 4 rs
                 ∧ listaLivros st' = Cards (pp_card <$> first))
     ∧ ((PaginaPrincipal.renderBooks st).1 = Ok () →
        listaLivros st' = Cards (pp_card <$> take 4 rs)
        ∧ livros st' = Some (VArr ((λ o, to_json (VObj o)) <$> rs)))
     ∧ ((PaginaPrincipal.renderBooks st).1 ≠ Ok () → livros st' = livros st))
  ∧ (∀ (f : form) (now : Z) (resp : response) (serverBook sid : jsval)
       (rs : list (gmap string jsval)) (st : state) (fourth : gmap string jsval),
       books st = of_records rs →
       rs !! 3%nat = Some fourth →
       accepts MainPage f = true →
       livroId f = EmptyString →
       json resp = Some serverBook →
       js_get serverBook "id" = Ok sid →
       let s1 := run PaginaPrincipal.handlers [Submit f now] (System st []) in
       let s' := run PaginaPrincipal.handlers [Settle 0 (Resolved resp)] s1 in
       in_flight s1 ≠ [] →
       ∃ (o : gmap string jsval) (cards : list card) (doc : list jsval),
         books (page s') = of_records (o :: rs)
         ∧ identity o = sid
         ∧ listaLivros (page s') = Cards cards
         ∧ cards = pp_card <$> (o :: take 3 rs)
         ∧ length cards = 4%nat
         ∧ pp_view rs = Cards ((pp_card <$> take 3 rs) ++ [pp_card fourth])
         ∧ books (page s') !! 4%nat = Some (Some (VObj fourth))
         ∧ livros (page s') = Some (VArr doc)
         ∧ doc !! 4%nat = Some (to_json (VObj fourth))).
Proof.
  split.
  - intros rs [bs lv vw ns rq] Hb Hne. simpl in Hb. subst bs.
    rewrite pp_render_records. cbn [fst snd books listaLivros livros].
    split; [done|]. split.
    { exists (shown_prefix (take 4 rs)). split; [apply shown_prefix_prefix|].
      by destruct rs. }
    destruct (pp_pass rs) eqn:Hpass.
    + split; [|done]. intros _.
      rewrite pp_shows_pass, pp_saves_pass by done.
      destruct rs as [|o rs]; [done|].
      cbn [pp_view pp_slot]. by rewrite stringify_records.
    + split; [done|]. intros _. unfold pp_saves. by rewrite Hpass.
  - intros f now resp serverBook sid rs [bs lv vw ns rq] fourth
      Hb H4 Hok Hid Hjson Hsid s1 s' Hcall.
    simpl in Hb. subst bs s' s1. unfold run in *. cbn [foldl] in *.
    pose proof (create_issued MainPage _ _ _ _ _ _ _ _ Hok Hid Hcall) as Hshown.
    clear Hcall. cbn [renders payload] in Hshown.
    pose proof (optimistic_identity MainPage f (now * -1)) as Hopt.
    erewrite step_submit; cycle 1.
    { cbn [page]. change PaginaPrincipal.handlers with (handlers_of MainPage).
      rewrite submit_create by done. by apply pp_create_call_ok. }
    erewrite step_settle_first by done.
    cbn [page handlers_of on_settle PaginaPrincipal.handlers PaginaPrincipal.settle].
    rewrite (pp_create_commit _ _ _ _ _ _ _ _ _ Hjson Hsid).
    cbn [list_find]. rewrite decide_True by (by apply has_identity_refl).
    cbn [fmap option_fmap option_map prod_map fst snd]. cbv zeta.
    cbn [insert list_insert payload]. rewrite pp_pass_set_id, Hshown.
    cbn -[pp_view pp_slot take stringify_array of_records].
    assert (take 4 rs = take 3 rs ++ [fourth]) as Htake.
    { by rewrite (take_S_r _ _ _ H4). }
    exists (<["id" := sid]> (PaginaPrincipal.data_of f ∪ {["id" := VNum (now * -1)]})),
      (pp_card <$> (<["id" := sid]> (PaginaPrincipal.data_of f ∪ {["id" := VNum (now * -1)]})
                    :: take 3 rs)),
      ((λ o, to_json (VObj o)) <$>
         (<["id" := sid]> (PaginaPrincipal.data_of f ∪ {["id" := VNum (now * -1)]}) :: rs)).
    split; [reflexivity|].
    split; [unfold identity, field; by rewrite lookup_insert_eq|].
    split; [reflexivity|]. split; [reflexivity|].
    split.
    { rewrite length_fmap. cbn [length]. rewrite length_take.
      apply lookup_lt_Some in H4. lia. }
    split.
    { destruct rs as [|o rs]; [done|]. cbn [pp_view]. by rewrite Htake, fmap_app. }
    split.
    { change (of_records (?o :: rs) !! 4%nat) with (of_records rs !! 3%nat).
      by apply of_records_lookup. }
    split.
    { cbn [pp_slot]. by rewrite stringify_records. }
    rewrite fmap_cons. cbn [lookup list_lookup].
    change (((λ o, to_json (VObj o)) <$> rs) !! 3%nat = Some (to_json (VObj fourth))).
    by rewrite list_lookup_fmap, H4.
Qed.

(** C9. The render pass of an empty store returns before it writes the
    slot: the slot keeps what it held.  After the only record of the store
    is deleted the slot still holds it, and the next load of the page
    starts from a store that contains it again. *)
Theorem C9_render_of_empty_store_keeps_old_slot :
  (∀ slot vw ns rq,
     PaginaPrincipal.renderBooks (State [] slot vw ns rq)
     = (Ok (), State [] slot NoBooks ns rq))
  ∧ (let st := State (of_records [duna]) (Some (stringify_array (of_records [duna])))
                 (pp_view [duna]) [] [] in
     let s' := run PaginaPrincipal.handlers [ClickDelete (VNum 7); Settle 0 status_200]
                 (System st []) in
     books (page s') = []
     ∧ livros (page s') = Some (stringify_array (of_records [duna]))
     ∧ livros (page s') ≠ Some (stringify_array (books (page s')))
     ∧ PaginaPrincipal.books_init (livros (page s')) = Some (of_records [duna])).
Proof.
  split; [done|]. cbv zeta. split_and!; try by vm_compute.
Qed.

(** ** C5: the status of the response *)

(** C5. The main page never reads the status of a response.  With status
    500 and the body [{}]: its create is committed (the record stays, under
    the identity undefined) and the user is told nothing; its update keeps
    the optimistic fields; its delete stays deleted; its list of posts is
    taken when the body is an array.  The list page, on the same create,
    removes the record and tells the error. *)
Theorem C5_main_page_ignores_status :
  (let s := run PaginaPrincipal.handlers [Submit new_dune 1000; Settle 0 status_500]
              (System blank []) in
   books (page s)
   = of_records [<["id" := VUndef]> (PaginaPrincipal.data_of new_dune ∪ {["id" := VNum (-1000)]})]
   ∧ notices (page s) = [])
  ∧ (let s := run PaginaPrincipal.handlers [Submit edit_duna 1000; Settle 0 status_500]
                (System (showing MainPage [duna]) []) in
     books (page s) = of_records [PaginaPrincipal.data_of edit_duna ∪ duna]
     ∧ notices (page s) = [])
  ∧ (let s := run PaginaPrincipal.handlers [ClickDelete (VNum 7); Settle 0 status_500]
                (System (showing MainPage [duna]) []) in
     books (page s) = [] ∧ notices (page s) = [])
  ∧ (books (PaginaPrincipal.fetchBooks (λ _, (0, 0)%nat)
              (Resolved (Response false (Some (VArr [VObj duna])))) blank).2
     = of_records [<["genre" := VStr "Romance"]>
                   (<["year" := VNum 2000]>
                   (<["body" := VUndef]> duna))])
  ∧ (let s := run Script.handlers [Submit new_dune 1000; Settle 0 status_500]
                (System blank []) in
     books (page s) = []
     ∧ List.filter is_error (notices (page s))
       = [Message "Erro ao criar livro: " (Some (Error "POST falhou")) "error"]).
Proof. cbv zeta. split_and!; by vm_compute. Qed.

(** ** C4: where a rollback writes *)

(** C4. The rollback of an update writes the record it captured at the index
    found before the call.  With the records 8 and 9 in the store: 9 is
    edited, 8 is deleted and that call succeeds, then the edit fails; the
    record captured is written at index 1, past the edited record, which
    stays at index 0 with its optimistic title, so that two records carry
    the identity 9 and the lookup of 9 finds the edited one.  With a third
    record in front that is deleted too, the write leaves a hole.  The
    commit of a create does look its record up when the call settles. *)
Theorem C4_update_rollback_writes_at_stale_index :
  (let s := run PaginaPrincipal.handlers
              [Submit edit_ulysses 1000; ClickDelete (VNum 8);
               Settle 1 status_200; Settle 0 Rejected]
              (System (showing MainPage [emma; ulysses]) []) in
   books (page s)
   = of_records [PaginaPrincipal.data_of edit_ulysses ∪ ulysses; ulysses]
   ∧ (PaginaPrincipal.findIndex_loose (VStr "9") (page s)).1 = Ok (Some 0%nat)
   ∧ js_get (arr_get (books (page s)) 0) "title" = Ok (VStr "Ulisses")
   ∧ in_flight s = [])
  ∧ (let s := run PaginaPrincipal.handlers
                [Submit edit_ulysses 1000; ClickDelete (VNum 7); ClickDelete (VNum 8);
                 Settle 1 status_200; Settle 1 status_200; Settle 0 Rejected]
                (System (showing MainPage [duna; emma; ulysses]) []) in
     books (page s)
     = [Some (VObj (PaginaPrincipal.data_of edit_ulysses ∪ ulysses)); None;
        Some (VObj ulysses)])
  ∧ (let s := run Script.handlers
                [Submit edit_ulysses 1000; ClickDelete (VNum 8);
                 Settle 1 status_200; Settle 0 Rejected]
                (System (showing ListPage [emma; ulysses]) []) in
     books (page s) = of_records [Script.payload_of edit_ulysses ∪ ulysses; ulysses])
  ∧ (let s := run PaginaPrincipal.handlers
                [Submit new_dune 1000; Submit new_emma 2000; Settle 0 (created 101)]
                (System blank []) in
     identities_of (books (page s)) = [VNum (-2000); VNum 101]).
Proof. cbv zeta. split_and!; by vm_compute. Qed.

(** ** C6: errors found before any call *)

(** A form the listener rejects changes neither the store nor the slot,
    issues no call and tells exactly one error. *)
Lemma rejected_form_changes_nothing (pg : which_page) (f : form) (now : Z) (s : system) :
  accepts pg f = false →
  let s' := step (handlers_of pg) (Submit f now) s in
  books (page s') = books (page s)
  ∧ livros (page s') = livros (page s)
  ∧ requests (page s') = requests (page s)
  ∧ in_flight s' = in_flight s
  ∧ length (errors_since (notices (page s)) (page s')) = 1%nat.
Proof.
  intros Hno. destruct s as [[bs lv vw ns rq] fl].
  assert (∀ n, is_error n = true →
    let s' := System (State bs lv vw (n :: ns) rq) fl in
    books (page s') = bs ∧ livros (page s') = lv ∧ requests (page s') = rq
    ∧ in_flight s' = fl
    ∧ length (errors_since ns (page s')) = 1%nat) as Hn.
  { intros n Herr. cbn. split_and!; try done.
    replace (S (length ns) - length ns)%nat with 1%nat by lia.
    cbn. by rewrite Herr. }
  destruct pg; simpl in Hno.
  - cbn [step handlers_of on_submit Script.handlers page]. unfold Script.submit.
    rewrite Hno. cbn [negb]. mstep. by apply Hn.
  - cbn [step handlers_of on_submit PaginaPrincipal.handlers page].
    unfold PaginaPrincipal.submit.
    destruct (PaginaPrincipal.four_digits (trim (ano f)));
      [|cbn [negb]; mstep; by apply Hn].
    destruct (String.length (trim (titulo f)) <? 3)%nat;
      [cbn [negb]; mstep; by apply Hn|].
    destruct (String.eqb (trim (genero f)) EmptyString);
      [cbn [negb]; mstep; by apply Hn|done].
Qed.

(** An update or a delete of an identity that the lookup does not find
    changes neither the store nor the slot and issues no call. *)
Lemma absent_identity_changes_nothing (pg : which_page) (id : jsval)
    (data : gmap string jsval) (rs : list (gmap string jsval)) (st : state) :
  books st = of_records rs →
  (lookup pg id st).1 = Ok None →
  let after_update :=
    match pg with
    | ListPage => Script.handleUpdate_call id data st
    | MainPage => PaginaPrincipal.handleUpdate_call id data st
    end in
  let after_delete := on_delete (handlers_of pg) id st in
  after_update.1 = Ok None
  ∧ after_delete.1 = Ok None
  ∧ books after_update.2 = books st ∧ books after_delete.2 = books st
  ∧ livros after_update.2 = livros st ∧ livros after_delete.2 = livros st
  ∧ requests after_update.2 = requests st ∧ requests after_delete.2 = requests st.
Proof.
  intros Hb Hnone. destruct st as [bs lv vw ns rq]. simpl in Hb. subst bs.
  rewrite lookup_records in Hnone. cbn [fst] in Hnone.
  destruct pg; cbn [handlers_of on_delete Script.handlers PaginaPrincipal.handlers].
  - rewrite sc_update_call, sc_delete_call.
    by destruct (list_find _ rs) as [[j o]|].
  - rewrite pp_update_call, pp_delete_call.
    by destruct (list_find _ rs) as [[j o]|].
Qed.


(** ** The settlements of a delete and of an update, and the first load *)




Lemma step_click h id s p st' :
  on_delete h id (page s) = (Ok (Some p), st') →
  step h (ClickDelete id) s = System st' (in_flight s ++ [p]).
Proof. intros H. simpl. by rewrite H. Qed.

Lemma step_settle_at h k r s p :
  in_flight s !! k = Some p →
  step h (Settle k r) s = System (on_settle h p r (page s)).2 (delete k (in_flight s)).
Proof. intros H. simpl. by rewrite H. Qed.

Lemma sc_delete_settle_ok i removed resp bs lv vw ns rq :
  ok resp = true →
  Script.handleDelete_settle i removed (Resolved resp) (State bs lv vw ns rq)
  = (Ok (),
     State bs lv vw (Message "Livro excluído com sucesso!" None "success" :: ns) rq).
Proof. intros Hok. unfold Script.handleDelete_settle. mstep. by rewrite Hok. Qed.

Lemma pp_delete_resolved_run i removed resp st :
  PaginaPrincipal.handleDelete_settle i removed (Resolved resp) st = (Ok (), st).
Proof. done. Qed.


Lemma js_get_prop item k : js_nullish item = false → js_get item k = Ok (prop item k).
Proof. by destruct item. Qed.

Lemma js_get_nullish item k : js_nullish item = true → js_get item k = Throw TypeError.
Proof. by destruct item. Qed.

Lemma sc_posts_books (l : list jsval) :
  existsb js_nullish l = false →
  mapM (λ item,
          id ← js_get item "id";
          title ← js_get item "title";
          body ← js_get item "body";
          author ← js_get item "author";
          mret (VObj (<["id" := id]>
                     (<["title" := title]>
                     (<["body" := body]>
                     {["author" := js_or author (VStr EmptyString)]}))))) l
  = Ok ((λ item, VObj (sc_book_of item)) <$> l).
Proof.
  induction l as [|item l IH]; [done|].
  cbn [existsb]. intros [Hitem Hl]%orb_false_iff.
  cbn [mapM fmap list_fmap]. rewrite !(js_get_prop item) by done.
  cbn [mbind res_bind mret res_ret]. by rewrite IH.
Qed.

Lemma sc_posts_throw (l : list jsval) :
  existsb js_nullish l = true →
  ∃ err,
    mapM (λ item,
            id ← js_get item "id";
            title ← js_get item "title";
            body ← js_get item "body";
            author ← js_get item "author";
            mret (VObj (<["id" := id]>
                       (<["title" := title]>
                       (<["body" := body]>
                       {["author" := js_or author (VStr EmptyString)]}))))) l
    = Throw err.
Proof.
  induction l as [|item l IH]; [done|].
  cbn [existsb mapM]. destruct (js_nullish item) eqn:Hitem.
  - intros _. exists TypeError. by rewrite !(js_get_nullish item).
  - intros Hl. destruct (IH Hl) as [err Herr]. exists err.
    rewrite !(js_get_prop item) by done.
    cbn [mbind res_bind mret res_ret]. by rewrite Herr.
Qed.

Lemma pp_posts_books random i (l : list jsval) :
  existsb js_nullish l = false →
  PaginaPrincipal.books_of_posts random i l
  = Ok (imap (λ j item, VObj (pp_book_of (random (i + j)%nat) item)) l).
Proof.
  revert i. induction l as [|item l IH]; intros i; [done|].
  cbn [existsb]. intros [Hitem Hl]%orb_false_iff.
  cbn [PaginaPrincipal.books_of_posts imap]. rewrite !(js_get_prop item) by done.
  cbn [mbind res_bind mret res_ret]. rewrite IH by done.
  cbn [mbind res_bind mret res_ret]. rewrite Nat.add_0_r. do 2 f_equal.
  apply imap_ext. intros j x _. cbn. do 3 f_equal. lia.
Qed.

Lemma pp_posts_throw random i (l : list jsval) :
  existsb js_nullish l = true →
  ∃ err, PaginaPrincipal.books_of_posts random i l = Throw err.
Proof.
  revert i. induction l as [|item l IH]; intros i; [done|].
  cbn [existsb PaginaPrincipal.books_of_posts].
  destruct (js_nullish item) eqn:Hitem.
  - intros _. exists TypeError. by rewrite !(js_get_nullish item).
  - intros Hl. destruct (IH (S i) Hl) as [err Herr]. exists err.
    rewrite !(js_get_prop item) by done.
    cbn [mbind res_bind mret res_ret]. by rewrite Herr.
Qed.





Lemma posts_of_Some resp posts :
  posts_of resp = Some posts →
  json resp = Some (VArr posts) ∧ existsb js_nullish posts = false.
Proof.
  unfold posts_of. destruct (json resp) as [[| | | | |l|]|]; try done.
  destruct (existsb js_nullish l) eqn:Hl; [done|]. by intros [= <-].
Qed.


(** A load that fails: nothing is taken. *)
Lemma failed_load pg random r st :
  (pg = MainPage → books st = []) →
  list_fails pg r = true →
  let st' := (fetchBooks_of pg random r st).2 in
  (fetchBooks_of pg random r st).1 = Ok ()
  ∧ books st' = books st
  ∧ livros st' = livros st
  ∧ listaLivros st' = listaLivros st
  ∧ requests st' = Request GET "?_limit=10" None :: requests st
  ∧ length (errors_since (notices st) st')
    = match pg with ListPage => 1%nat | MainPage => 0%nat end.
Proof.
  intros Hempty Hr. destruct st as [bs lv vw ns rq].
  assert (S (length ns) - length ns = 1)%nat as Hone by lia.
  destruct pg; cbn [fetchBooks_of].
  - unfold Script.fetchBooks. destruct r as [|[okb body]].
    + mstep. cbn. rewrite Hone. done.
    + destruct okb; [|mstep; cbn; by rewrite Hone].
      simpl in Hr. unfold posts_of in Hr. cbn [json] in Hr.
      destruct body as [data|]; [|mstep; cbn; by rewrite Hone].
      destruct data as [| | | | |l|]; try (mstep; cbn; by rewrite Hone).
      destruct (existsb js_nullish l) eqn:Hl; [|done].
      destruct (sc_posts_throw l Hl) as [err Herr].
      cbv [mbind mret res_bind res_ret] in Herr.
      mstep. rewrite Herr. cbn. by rewrite Hone.
  - specialize (Hempty eq_refl). cbn in Hempty. subst bs.
    unfold PaginaPrincipal.fetchBooks. destruct r as [|[okb body]].
    + mstep. cbn. by rewrite Nat.sub_diag.
    + simpl in Hr. unfold posts_of in Hr. cbn [json] in Hr.
      destruct body as [data|]; [|mstep; cbn; by rewrite Nat.sub_diag].
      destruct data as [| | | | |l|]; try (mstep; cbn; by rewrite Nat.sub_diag).
      destruct (existsb js_nullish l) eqn:Hl; [|done].
      destruct (pp_posts_throw random 0 l Hl) as [err Herr].
      mstep. cbn [length Nat.ltb Nat.leb]. rewrite Herr. cbn. by rewrite Nat.sub_diag.
Qed.

(** A load that succeeds: the store is made of the posts, and the page
    shows it; the main page saves it when its render pass completes, and
    what the pass throws is caught. *)
Lemma fetch_ok pg random resp posts st :
  (pg = MainPage → books st = []) →
  (pg = ListPage → ok resp = true) →
  posts_of resp = Some posts →
  fetchBooks_of pg random (Resolved resp) st
  = (Ok (),
     State (of_records (loaded pg random posts))
       (match pg with
        | ListPage => livros st
        | MainPage => pp_saves (loaded pg random posts) (livros st)
        end)
       (shows_of pg (loaded pg random posts))
       (notices st)
       (Request GET "?_limit=10" None :: requests st)).
Proof.
  intros Hempty Hok [Hjson Hposts]%posts_of_Some.
  destruct st as [bs lv vw ns rq], resp as [okb body]. cbn [json ok] in *. subst body.
  destruct pg; cbn [fetchBooks_of loaded shows_of].
  - rewrite (Hok eq_refl). unfold Script.fetchBooks.
    pose proof (sc_posts_books posts Hposts) as Hmap.
    cbv [mbind mret res_bind res_ret] in Hmap.
    mstep. rewrite Hmap.
    replace (Some <$> ((λ item, VObj (sc_book_of item)) <$> posts))
      with (of_records (sc_book_of <$> posts)).
    2:{ unfold of_records. by rewrite <- !list_fmap_compose. }
    by rewrite sc_render_records.
  - specialize (Hempty eq_refl). cbn in Hempty. subst bs.
    unfold PaginaPrincipal.fetchBooks.
    mstep. cbn [length Nat.ltb Nat.leb].
    rewrite (pp_posts_books random 0 posts Hposts).
    replace (Some <$> imap (λ j item, VObj (pp_book_of (random (0 + j)%nat) item)) posts)
      with (of_records (imap (λ j item, pp_book_of (random j) item) posts)).
    2:{ unfold of_records. by rewrite fmap_imap, fmap_imap. }
    rewrite pp_render_records. by destruct (pp_pass _).
Qed.

(** The load of the main page when its store holds books: a render pass,
    and no call. *)
Lemma pp_fetch_populated random r (rs : list (gmap string jsval)) lv vw ns rq :
  rs ≠ [] →
  PaginaPrincipal.fetchBooks random r (State (of_records rs) lv vw ns rq)
  = (Ok (), State (of_records rs) (pp_saves rs lv) (pp_shows rs) ns rq).
Proof.
  intros Hrs. unfold PaginaPrincipal.fetchBooks. mstep.
  rewrite of_records_length. destruct rs as [|o rs]; [done|].
  change (0 <? length (o :: rs))%nat with true. cbv beta iota.
  rewrite pp_render_records. by destruct (pp_pass _).
Qed.

(** ** C7: distinct identities *)

Section distinct.
Implicit Types (rs : list (gmap string jsval)) (o : gmap string jsval).












End distinct.






(** * Further properties *)

(** ** What a statement leaves alone *)

Lemma keeps_ret {A B} (proj : state → B) (a : A) : keeps proj (mret a).
Proof. by intros st. Qed.

Lemma keeps_bind {A A' B} (proj : state → B) (m : M A) (f : A → M A') :
  keeps proj m → (∀ a, keeps proj (f a)) → keeps proj (m ≫= f).
Proof.
  intros Hm Hf st. unfold mbind, M_bind. specialize (Hm st).
  destruct (m st) as [[a|e] st']; simpl in *; [|done].
  by rewrite Hf.
Qed.

Lemma keeps_try_catch {A B} (proj : state → B) (body : M A) (handler : exn → M A) :
  keeps proj body → (∀ e, keeps proj (handler e)) → keeps proj (try_catch body handler).
Proof.
  intros Hm Hf st. unfold try_catch. specialize (Hm st).
  destruct (body st) as [[a|e] st']; simpl in *; [done|].
  by rewrite Hf.
Qed.

Lemma keeps_forEach {B} (proj : state → B) (f : jsval → M unit) (a : array) :
  (∀ v, keeps proj (f v)) → keeps proj (arr_forEach f a).
Proof.
  intros Hf. induction a as [|[v|] a IH]; simpl; [by intros st| |done].
  by apply keeps_bind.
Qed.

Create HintDb keeps.

(** Splits a statement into its parts; what is left is a part that writes
    the component. *)
Ltac keeps_tac :=
  repeat first
    [ progress cbv zeta
    | solve [auto with keeps]
    | solve [intros ?; reflexivity]
    | apply keeps_try_catch; [|intros ?]
    | apply keeps_forEach; intros ?
    | apply keeps_bind; [|intros ?]
    | match goal with
      | |- keeps _ (match ?x with _ => _ end) => destruct x
      | |- keeps _ (from_option _ _ ?x) => destruct x; simpl
      end ].

Lemma pp_render_keeps_books : keeps books PaginaPrincipal.renderBooks.
Proof. unfold PaginaPrincipal.renderBooks, PaginaPrincipal.show_card. keeps_tac. Qed.

Lemma pp_render_keeps_requests : keeps requests PaginaPrincipal.renderBooks.
Proof. unfold PaginaPrincipal.renderBooks, PaginaPrincipal.show_card. keeps_tac. Qed.

Lemma pp_render_keeps_notices : keeps notices PaginaPrincipal.renderBooks.
Proof. unfold PaginaPrincipal.renderBooks, PaginaPrincipal.show_card. keeps_tac. Qed.

Lemma sc_render_keeps_books : keeps books Script.renderBooks.
Proof. unfold Script.renderBooks. keeps_tac. Qed.

Lemma sc_render_keeps_requests : keeps requests Script.renderBooks.
Proof. unfold Script.renderBooks. keeps_tac. Qed.

Lemma sc_render_keeps_livros : keeps livros Script.renderBooks.
Proof. unfold Script.renderBooks. keeps_tac. Qed.

Lemma sc_render_keeps_notices : keeps notices Script.renderBooks.
Proof. unfold Script.renderBooks. keeps_tac. Qed.

#[local] Hint Resolve pp_render_keeps_books pp_render_keeps_requests
  pp_render_keeps_notices sc_render_keeps_books sc_render_keeps_requests
  sc_render_keeps_livros sc_render_keeps_notices : keeps.

Lemma settle_keeps_requests pg p r :
  keeps requests (on_settle (handlers_of pg) p r).
Proof.
  destruct pg, p; cbn [handlers_of on_settle Script.handlers PaginaPrincipal.handlers
                         Script.settle PaginaPrincipal.settle];
    unfold Script.handleCreate_settle, Script.handleUpdate_settle,
      Script.handleDelete_settle, PaginaPrincipal.handleCreate_settle,
      PaginaPrincipal.handleUpdate_settle, PaginaPrincipal.handleDelete_settle,
      Script.handleCreate_catch, PaginaPrincipal.handleCreate_catch,
      Script.findBookIndexById, assign_prop, fetched, res_json;
    keeps_tac.
Qed.

(** X1. No retry: the continuation of a handler never calls [fetch], on
    either page, whatever the store holds and however the call settled. *)
Theorem X1_settlement_issues_no_call (pg : which_page) :
  (∀ (p : pending) (r : settled) (st : state),
     requests (on_settle (handlers_of pg) p r st).2 = requests st)
  ∧ (∀ (k : nat) (r : settled) (s : system),
       requests (page (step (handlers_of pg) (Settle k r) s)) = requests (page s)).
Proof.
  split; [intros p r st; apply settle_keeps_requests|].
  intros k r s. cbn [step]. destruct (in_flight s !! k) as [p|]; [|done].
  apply settle_keeps_requests.
Qed.

Lemma sc_step_keeps_livros e s :
  livros (page (step Script.handlers e s)) = livros (page s).
Proof.
  assert (∀ (m : M (option pending)) st fl, keeps livros m →
    livros (page (match m st with
                  | (Ok (Some p), st') => System st' (fl ++ [p])
                  | (_, st') => System st' fl
                  end)) = livros st) as Hstart.
  { intros m st fl Hm. specialize (Hm st).
    by destruct (m st) as [[[p|]|err] st']. }
  destruct e as [f now|id|k r]; cbn [step Script.handlers on_submit on_delete on_settle].
  - apply Hstart.
    unfold Script.submit, Script.handleUpdate_call, Script.handleCreate_call,
      Script.findBookIndexById.
    keeps_tac.
  - apply Hstart.
    unfold Script.handleDelete_call, Script.findBookIndexById. keeps_tac.
  - destruct (in_flight s !! k) as [p|]; [|done]. cbn [page].
    assert (keeps livros (Script.settle p r)) as Hk; [|apply Hk].
    destruct p; cbn [Script.settle];
      unfold Script.handleCreate_settle, Script.handleUpdate_settle,
        Script.handleDelete_settle, Script.handleCreate_catch,
        Script.findBookIndexById, assign_prop, fetched, res_json;
      keeps_tac.
Qed.

(** X2. The list page never writes the slot of localStorage: after any
    sequence of events, and after [fetchBooks], the slot holds what it held
    (only the main page feeds the catalogue). *)
Theorem X2_list_page_never_writes_slot :
  (∀ (es : list event) (s : system),
     livros (page (run Script.handlers es s)) = livros (page s))
  ∧ (∀ (r : settled) (st : state), livros (Script.fetchBooks r st).2 = livros st).
Proof.
  split.
  - intros es. unfold run. induction es as [|e es IH]; intros s; [done|].
    cbn [foldl]. by rewrite IH, sc_step_keeps_livros.
  - intros r. change (keeps livros (Script.fetchBooks r)).
    unfold Script.fetchBooks, fetched, res_json. keeps_tac.
Qed.

(** ** The slot of the main page *)

Lemma of_records_inj rs rs' : of_records rs = of_records rs' → rs = rs'.
Proof.
  revert rs'. induction rs as [|o rs IH]; intros [|o' rs']; try done.
  intros [= -> H]. f_equal. by apply IH.
Qed.

Lemma pp_render_ends_saved : ends_saved PaginaPrincipal.renderBooks.
Proof.
  intros st Hok rs Hb Hne. rewrite pp_render_keeps_books in Hb.
  destruct st as [bs lv vw ns rq]. simpl in Hb. subst bs.
  rewrite pp_render_records in *. cbn [fst snd livros] in *.
  destruct (pp_pass rs) eqn:Hpass; [|done].
  rewrite pp_saves_pass by done. by destruct rs.
Qed.

Lemma keeps_tidy {A} (m : M A) : keeps books m → keeps livros m → tidy m.
Proof.
  intros Hb Hl st Hs _ rs Hrs Hne. rewrite Hb in Hrs. rewrite Hl. by apply Hs.
Qed.

Lemma ends_saved_tidy {A} (m : M A) : ends_saved m → tidy m.
Proof. intros H st _. apply H. Qed.

Lemma tidy_bind {A B} (m : M A) (f : A → M B) :
  tidy m → (∀ a, tidy (f a)) → tidy (m ≫= f).
Proof.
  intros Hm Hf st Hs. unfold mbind, M_bind. specialize (Hm st Hs).
  destruct (m st) as [[a|e] st']; simpl in *; [|done]. intros Hok. by apply Hf; auto.
Qed.

(** What a [try] block threw is lost when the [catch] block returns: the
    slot is up to date when the [catch] block ends with a render pass. *)
Lemma tidy_try_catch {A} (body : M A) (handler : exn → M A) :
  tidy body → (∀ e, ends_saved (handler e)) → tidy (try_catch body handler).
Proof.
  intros Hm Hf st Hs. unfold try_catch. specialize (Hm st Hs).
  destruct (body st) as [[a|e] st']; simpl in *; [done|]. apply Hf.
Qed.

Lemma ends_saved_bind {A B} (m : M A) (f : A → M B) :
  ends_saved m → (∀ a, tidy (f a)) → ends_saved (m ≫= f).
Proof.
  intros Hm Hf st. unfold mbind, M_bind. specialize (Hm st).
  destruct (m st) as [[a|e] st']; simpl in *; [|done]. intros Hok. by apply Hf; auto.
Qed.

Lemma ends_saved_after {A B} (m : M A) (k : A → M B) :
  (∀ a, ends_saved (k a)) → ends_saved (m ≫= k).
Proof.
  intros Hk st. unfold mbind, M_bind.
  destruct (m st) as [[a|e] st']; simpl; [apply Hk|done].
Qed.

Lemma ends_saved_assign {B} i key x (k : M B) :
  ends_saved k → tidy (assign_prop i key x;; k).
Proof. intros Hk. apply ends_saved_tidy, ends_saved_after. by intros _. Qed.

(** Splits a statement of the main page into parts that leave the store
    and the slot alone and parts that write the store and render. *)
Ltac tidy_tac :=
  repeat first
    [ progress cbv zeta
    | solve [apply keeps_tidy; keeps_tac]
    | apply pp_render_ends_saved
    | apply ends_saved_tidy, pp_render_ends_saved
    | apply ends_saved_assign
    | apply ends_saved_bind; [apply pp_render_ends_saved|intros ?]
    | match goal with
      | |- tidy (put_books _ ≫= _) => apply ends_saved_tidy
      | |- ends_saved (_ ≫= _) => apply ends_saved_after; intros ?
      end
    | apply tidy_try_catch; [|intros ?]
    | apply tidy_bind; [|intros ?]
    | match goal with
      | |- tidy (match ?x with _ => _ end) => destruct x
      | |- tidy (from_option _ _ ?x) => destruct x; simpl
      end ].

Lemma pp_step_tidy e s :
  saved (page s) →
  thrown PaginaPrincipal.handlers e s = false →
  saved (page (step PaginaPrincipal.handlers e s)).
Proof.
  intros Hs.
  assert (∀ (m : M (option pending)) fl, tidy m →
    throws (m (page s)).1 = false →
    saved (page (match m (page s) with
                 | (Ok (Some p), st') => System st' (fl ++ [p])
                 | (_, st') => System st' fl
                 end))) as Hstart.
  { intros m fl Hm Hok. specialize (Hm (page s) Hs Hok).
    by destruct (m (page s)) as [[[p|]|err] st']. }
  destruct e as [f now|id|k r];
    cbn [step thrown PaginaPrincipal.handlers on_submit on_delete on_settle].
  - apply Hstart.
    unfold PaginaPrincipal.submit, PaginaPrincipal.handleUpdate_call,
      PaginaPrincipal.handleCreate_call, PaginaPrincipal.findIndex_loose.
    tidy_tac.
  - apply Hstart.
    unfold PaginaPrincipal.handleDelete_call, PaginaPrincipal.findIndex_loose.
    tidy_tac.
  - destruct (in_flight s !! k) as [p|]; [|done]. cbn [page].
    assert (tidy (PaginaPrincipal.settle p r)) as Hk; [|by apply Hk].
    destruct p; cbn [PaginaPrincipal.settle];
      unfold PaginaPrincipal.handleCreate_settle, PaginaPrincipal.handleUpdate_settle,
        PaginaPrincipal.handleDelete_settle, PaginaPrincipal.handleCreate_catch,
        fetched, res_json;
      tidy_tac.
Qed.

(** A render pass leaves the slot up to date when the page can show the
    store. *)
Lemma pp_render_saved st :
  (∀ rs, books st = of_records rs → renders MainPage rs = true) →
  saved (PaginaPrincipal.renderBooks st).2.
Proof.
  intros Hshow rs Hb Hne. rewrite pp_render_keeps_books in Hb.
  destruct st as [bs lv vw ns rq]. simpl in Hb. subst bs.
  rewrite pp_render_records. cbn [snd livros].
  rewrite pp_saves_pass by (by apply Hshow). by destruct rs.
Qed.

(** [fetchBooks] leaves the store and the slot alone, or ends with a
    render pass. *)
Lemma pp_fetch_cases random r st :
  (books (PaginaPrincipal.fetchBooks random r st).2 = books st
   ∧ livros (PaginaPrincipal.fetchBooks random r st).2 = livros st)
  ∨ ∃ st1, (PaginaPrincipal.fetchBooks random r st).2
           = (PaginaPrincipal.renderBooks st1).2.
Proof.
  assert (∀ st1,
    (let (r0, st') := PaginaPrincipal.renderBooks st1 in
     match r0 with Ok a => (Ok a, st') | Throw _ => (Ok (), st') end).2
    = (PaginaPrincipal.renderBooks st1).2) as Hrender.
  { intros st1. by destruct (PaginaPrincipal.renderBooks st1) as [[[]|e] st']. }
  destruct st as [bs lv vw ns rq]. unfold PaginaPrincipal.fetchBooks.
  destruct r as [|[okb [data|]]]; mstep;
    (destruct (0 <? length bs)%nat; [right; eexists; apply Hrender|]);
    try (by left).
  destruct data as [| | | | |l|]; try (by left).
  destruct (PaginaPrincipal.books_of_posts random 0 l) as [items|e]; [|by left].
  right. eexists. apply Hrender.
Qed.

(** X3. The slot of the main page follows the store as long as the store
    is not empty and no handler throws: if the slot holds the
    serialization of the store whenever the store is a sequence of records
    that is not empty, the same is true after any sequence of events, in
    any order, along which no handler throws (a render pass that throws
    leaves the slot behind the store); and after [fetchBooks], which
    catches what its render pass throws, when the page can show the store
    that it leaves.  (Nothing is said of the empty store, for which the
    render pass writes nothing.) *)
Theorem X3_main_page_slot_follows_store :
  (∀ (es : list event) (s : system),
     saved (page s) →
     quiet PaginaPrincipal.handlers es s = true →
     saved (page (run PaginaPrincipal.handlers es s)))
  ∧ (∀ (random : nat → nat * nat) (r : settled) (st : state),
       saved st →
       (∀ rs, books (PaginaPrincipal.fetchBooks random r st).2 = of_records rs →
              renders MainPage rs = true) →
       saved (PaginaPrincipal.fetchBooks random r st).2).
Proof.
  split.
  - intros es. unfold run. induction es as [|e es IH]; intros s Hs Hq; [done|].
    cbn [foldl quiet] in *. apply andb_true_iff in Hq as [He%negb_true_iff Hq].
    apply IH; [by apply pp_step_tidy|done].
  - intros random r st Hs Hshow.
    destruct (pp_fetch_cases random r st) as [[Hb Hl]|[st1 Hst1]].
    + intros rs Hrs Hne. rewrite Hb in Hrs. rewrite Hl. by apply Hs.
    + rewrite Hst1 in *. apply pp_render_saved.
      intros rs Hrs. apply Hshow. by rewrite pp_render_keeps_books.
Qed.

(** ** Errors found before any call, and deletes *)

(** X4. A form that the submit listener rejects (on the main page: a year
    that is not four digits, then a title of fewer than three characters
    once trimmed, then no genre; on the list page: the title) changes
    neither the store nor the slot, issues no call, leaves nothing in
    flight and tells exactly one error. *)
Theorem X4_rejected_form_changes_nothing
    (pg : which_page) (f : form) (now : Z) (s : system) :
  accepts pg f = false →
  let s' := step (handlers_of pg) (Submit f now) s in
  books (page s') = books (page s)
  ∧ livros (page s') = livros (page s)
  ∧ requests (page s') = requests (page s)
  ∧ in_flight s' = in_flight s
  ∧ length (errors_since (notices (page s)) (page s')) = 1%nat.
Proof. apply rejected_form_changes_nothing. Qed.

(** X5. An update or a delete of an identity that the lookup of the page
    does not find in a store of records returns without a call: the store
    and the slot are as before and no request was issued. *)
Theorem X5_absent_identity_changes_nothing
    (pg : which_page) (id : jsval) (data : gmap string jsval)
    (rs : list (gmap string jsval)) (st : state) :
  books st = of_records rs →
  (lookup pg id st).1 = Ok None →
  let after_update :=
    match pg with
    | ListPage => Script.handleUpdate_call id data st
    | MainPage => PaginaPrincipal.handleUpdate_call id data st
    end in
  let after_delete := on_delete (handlers_of pg) id st in
  after_update.1 = Ok None
  ∧ after_delete.1 = Ok None
  ∧ books after_update.2 = books st ∧ books after_delete.2 = books st
  ∧ livros after_update.2 = livros st ∧ livros after_delete.2 = livros st
  ∧ requests after_update.2 = requests st ∧ requests after_delete.2 = requests st.
Proof. apply absent_identity_changes_nothing. Qed.


(** ** A delete that overtakes a create *)

Lemma step_submit_res h f now s r st' :
  on_submit h f now (page s) = (r, st') →
  step h (Submit f now) s
  = System st' (in_flight s ++ match r with Ok (Some p) => [p] | _ => [] end).
Proof. intros H. simpl. rewrite H. destruct r as [[p|]|e]; by rewrite ?app_nil_r. Qed.

Lemma step_click_res h id s r st' :
  on_delete h id (page s) = (r, st') →
  step h (ClickDelete id) s
  = System st' (in_flight s ++ match r with Ok (Some p) => [p] | _ => [] end).
Proof. intros H. simpl. rewrite H. destruct r as [[p|]|e]; by rewrite ?app_nil_r. Qed.

Lemma step_settle_none h k r s :
  in_flight s !! k = None → step h (Settle k r) s = s.
Proof. intros H. simpl. by rewrite H. Qed.

Lemma unmatched_fresh pg t rs : unmatched pg t rs = true → fresh t rs = true.
Proof.
  unfold unmatched, fresh. destruct pg; [|done].
  rewrite !forallb_forall. intros H o Ho. specialize (H o Ho).
  apply negb_true_iff in H. apply negb_true_iff, not_true_is_false.
  intros Hid. apply has_identity_eq in Hid.
  by rewrite (sc_matches_refl _ _ Hid) in H.
Qed.

Lemma unmatched_not_found pg t (rs : list (gmap string jsval)) :
  unmatched pg t rs = true →
  list_find (λ o, (match pg with
                   | ListPage => sc_matches (VNum t) o
                   | MainPage => has_identity t o
                   end) = true) rs = None.
Proof.
  unfold unmatched. rewrite forallb_forall. intros H.
  apply list_find_None, Forall_forall. intros o Ho%list_elem_of_In.
  specialize (H o Ho). apply negb_true_iff in H. by rewrite H.
Qed.

(** X7. A delete that overtakes a create makes the commit of the create
    do nothing: when the optimistic record is deleted (the call succeeds)
    before the call of its create succeeds, the store ends as it was before
    the create, no error is told and nothing is left in flight.  On both
    pages, on a store of records none of which answers the lookup for the
    placeholder. *)
Theorem X7_commit_after_delete_does_nothing
    (pg : which_page) (f : form) (now : Z) (r_delete r_create : settled)
    (rs : list (gmap string jsval)) (st : state) :
  books st = of_records rs →
  unmatched pg (now * -1) rs = true →
  accepts pg f = true →
  livroId f = EmptyString →
  delete_fails pg r_delete = false →
  create_fails pg r_create = false →
  let s' := run (handlers_of pg)
              [Submit f now; ClickDelete (VNum (now * -1));
               Settle 1 r_delete; Settle 0 r_create] (System st []) in
  books (page s') = books st
  ∧ errors_since (notices st) (page s') = []
  ∧ in_flight s' = [].
Proof.
  intros Hb Hun Hok Hid Hd Hc. destruct st as [bs lv vw ns rq].
  simpl in Hb. subst bs.
  pose proof (optimistic_identity pg f (now * -1)) as Hnew.
  pose proof (unmatched_fresh _ _ _ Hun) as Hfresh.
  pose proof (unmatched_not_found _ _ _ Hun) as Hnone.
  destruct r_delete as [|resp_d]; [done|].
  destruct r_create as [|resp_c]; [done|].
  assert (∃ serverBook sid, json resp_c = Some serverBook
                            ∧ js_get serverBook "id" = Ok sid) as (sb & sid & Hjson & Hsid).
  { assert (has_body resp_c = true) as Hbody.
    { destruct pg; simpl in Hc.
      - apply orb_false_iff in Hc as [_ Hc]. by apply negb_false_iff in Hc.
      - by apply negb_false_iff in Hc. }
    unfold has_body in Hbody. destruct (json resp_c) as [sb|]; [|done].
    exists sb. destruct sb; try done; by eexists. }
  unfold run. cbn [foldl]. destruct pg.
  - destruct (sc_create_call now (payload ListPage f) rs lv vw ns rq) as [req Hcall].
    erewrite step_submit; cycle 1.
    { cbn [page]. rewrite submit_create by done. apply Hcall. }
    erewrite step_click; cycle 1.
    { cbn [page handlers_of on_delete Script.handlers].
      rewrite sc_delete_call. cbn [list_find].
      rewrite decide_True by (by apply sc_matches_refl).
      cbn [fmap option_fmap option_map prod_map fst snd List.filter].
      fold (has_identity (now * -1) (payload ListPage f ∪ {["id" := VNum (now * -1)]})).
      rewrite (has_identity_refl _ _ Hnew). cbn [negb].
      change (List.filter _ rs)
        with (List.filter (λ o, negb (has_identity (now * -1) o)) rs).
      rewrite filter_fresh by done. reflexivity. }
    erewrite step_settle_at by reflexivity.
    erewrite step_settle_at by reflexivity.
    cbn [page in_flight handlers_of on_settle Script.handlers Script.settle].
    simpl in Hd, Hc. apply negb_false_iff in Hd.
    apply orb_false_iff in Hc as [Hcok _]. apply negb_false_iff in Hcok.
    rewrite sc_delete_settle_ok by done. cbn [snd].
    rewrite (sc_create_commit _ _ _ _ _ _ _ _ _ Hcok Hjson Hsid).
    rewrite Hnone. cbn. split_and!; try done.
    replace (S (S (S (S (length ns)))) - length ns)%nat with 4%nat by lia. done.
  - erewrite step_submit_res; cycle 1.
    { cbn [page]. rewrite submit_create by done. apply pp_create_call. }
    erewrite step_click_res; cycle 1.
    { cbn [page handlers_of on_delete PaginaPrincipal.handlers].
      rewrite pp_delete_call. cbn [list_find].
      rewrite decide_True; cycle 1.
      { unfold pp_matches. rewrite Hnew. simpl. apply Z.eqb_refl. }
      reflexivity. }
    cbv zeta. cbn [fmap option_fmap option_map prod_map fst snd delete list_delete].
    assert (∀ lv' vw' rq' fl,
      fl = [PendingCreate (now * -1); PendingDelete 0 (VObj (payload MainPage f ∪ {["id" := VNum (now * -1)]}))]
      ∨ fl = [PendingCreate (now * -1)]
      ∨ fl = [PendingDelete 0 (VObj (payload MainPage f ∪ {["id" := VNum (now * -1)]}))]
      ∨ fl = [] →
      let s' := step (handlers_of MainPage) (Settle 0 (Resolved resp_c))
                  (step (handlers_of MainPage) (Settle 1 (Resolved resp_d))
                     (System (State (of_records rs) lv' vw' ns rq') fl)) in
      books (page s') = of_records rs
      ∧ errors_since ns (page s') = []
      ∧ in_flight s' = []) as Hsettle.
    { intros lv' vw' rq' fl [->|[->|[->| ->]]]; cbv zeta.
      - do 2 (erewrite step_settle_at by reflexivity).
        cbn [page in_flight handlers_of on_settle PaginaPrincipal.handlers
               PaginaPrincipal.settle].
        rewrite pp_delete_resolved_run. cbn [snd].
        rewrite (pp_create_commit _ _ _ _ _ _ _ _ _ Hjson Hsid), Hnone.
        cbn. by rewrite Nat.sub_diag.
      - rewrite (step_settle_none _ 1) by reflexivity.
        erewrite step_settle_at by reflexivity.
        cbn [page in_flight handlers_of on_settle PaginaPrincipal.handlers
               PaginaPrincipal.settle].
        rewrite (pp_create_commit _ _ _ _ _ _ _ _ _ Hjson Hsid), Hnone.
        cbn. by rewrite Nat.sub_diag.
      - rewrite (step_settle_none _ 1) by reflexivity.
        erewrite step_settle_at by reflexivity.
        cbn [page in_flight handlers_of on_settle PaginaPrincipal.handlers
               PaginaPrincipal.settle].
        rewrite pp_delete_resolved_run. unfold errors_since.
        cbn [snd page books notices in_flight length]. by rewrite Nat.sub_diag.
      - rewrite !step_settle_none by reflexivity. unfold errors_since.
        cbn [snd page books notices in_flight length]. by rewrite Nat.sub_diag. }
    cbn [notices books].
    destruct (pp_pass (_ :: rs)), (pp_pass rs); cbn [app in_flight];
      apply Hsettle; auto.
Qed.

(** ** The first load of the books *)

(** X8. When the first load of the books fails (the call is rejected, the
    body is not an array of posts, one post is null, or, on the list page,
    the status is not a success) nothing is taken: the store stays as it
    was, whatever it held, after the one GET call.  The list page tells
    the error; the main page, which loads only when its store is empty,
    tells nothing. *)
Theorem X8_failed_load_takes_nothing
    (pg : which_page) (random : nat → nat * nat) (r : settled) (st : state) :
  (pg = MainPage → books st = []) →
  list_fails pg r = true →
  let st' := (fetchBooks_of pg random r st).2 in
  (fetchBooks_of pg random r st).1 = Ok ()
  ∧ books st' = books st
  ∧ livros st' = livros st
  ∧ listaLivros st' = listaLivros st
  ∧ requests st' = Request GET "?_limit=10" None :: requests st
  ∧ length (errors_since (notices st) st')
    = match pg with ListPage => 1%nat | MainPage => 0%nat end.
Proof. apply failed_load. Qed.


Lemma generosValidos_draw (n : nat) :
  ∃ g, PaginaPrincipal.generosValidos !! (n `mod` length PaginaPrincipal.generosValidos)%nat
       = Some g.
Proof.
  apply lookup_lt_is_Some. apply Nat.mod_upper_bound. done.
Qed.

(** X10. Every book that the main page takes from the server on its first
    load carries one of the five genres of the page and a year from 2000 to
    2024, whatever the draws of the random numbers are; its author is the
    one of the post, or "Desconhecido" when the post has none. *)
Theorem X10_loaded_books_have_genre_and_year
    (random : nat → nat * nat) (resp : response) (st : state) (o : gmap string jsval) :
  books st = [] →
  list_fails MainPage (Resolved resp) = false →
  Some (VObj o) ∈ books (PaginaPrincipal.fetchBooks random (Resolved resp) st).2 →
  (∃ g, field o "genre" = VStr g ∧ g ∈ PaginaPrincipal.generosValidos)
  ∧ (∃ y, field o "year" = VNum y ∧ 2000 ≤ y ≤ 2024)%Z
  ∧ js_truthy (field o "author") = true.
Proof.
  intros Hempty Hr.
  assert (∃ posts, posts_of resp = Some posts) as [posts Hposts].
  { unfold list_fails in Hr. destruct (posts_of resp) as [posts|]; [eauto|]. cbn in Hr. discriminate Hr. }
  pose proof (fetch_ok MainPage random resp posts st (λ _, Hempty)
                ltac:(discriminate) Hposts) as Hrun.
  cbn [fetchBooks_of] in Hrun. rewrite Hrun. cbn [books snd].
  unfold of_records. intros (o' & [= <-] & Ho)%list_elem_of_fmap.
  cbn [loaded] in Ho. apply list_elem_of_lookup in Ho as [j Hj].
  rewrite list_lookup_imap in Hj.
  destruct (posts !! j) as [item|]; [|done]. cbn in Hj. injection Hj as <-.
  unfold field, pp_book_of.
  split; [|split].
  - destruct (generosValidos_draw (random j).1) as [g Hg].
    exists g. rewrite lookup_insert_ne, lookup_insert_ne, lookup_insert_ne,
      lookup_insert_ne, lookup_insert_eq by done.
    rewrite Hg. split; [done|]. by eapply list_elem_of_lookup_2.
  - eexists. rewrite lookup_insert_ne, lookup_insert_ne, lookup_insert_ne,
      lookup_insert_ne, lookup_insert_ne, lookup_singleton_eq by done.
    split; [done|]. cbn.
    pose proof (Nat.mod_upper_bound (random j).2 25 ltac:(done)). lia.
  - rewrite lookup_insert_ne, lookup_insert_ne, lookup_insert_ne,
      lookup_insert_eq by done. cbn.
    unfold js_or. by destruct (js_truthy (prop item "author")) eqn:Ha.
Qed.

(** ** The next visit of the main page *)

Lemma json_record_field (o : gmap string jsval) (k : string) :
  field (json_record o) k = to_json (field o k).
Proof.
  unfold field, json_record. rewrite lookup_omap.
  destruct (o !! k) as [v|]; [|done]. by destruct v.
Qed.

(** X11. A visit of the main page that finds in the slot what an earlier
    visit wrote for a store of records that is not empty starts with one
    book for each of them, in the same order, every property as JSON keeps
    it; its load then issues no call to the server, whatever the server
    would answer, and shows the first four of these books (up to the
    first that it cannot show, if there is one). *)
Theorem X11_next_visit_starts_from_saved_books
    (rs : list (gmap string jsval)) (random : nat → nat * nat) (r : settled)
    (st : state) :
  rs ≠ [] →
  PaginaPrincipal.books_init (Some (stringify_array (of_records rs))) = Some (books st) →
  books st = of_records (json_record <$> rs)
  ∧ (∀ i o k, rs !! i = Some o →
       arr_get (books st) i = VObj (json_record o)
       ∧ field (json_record o) k = to_json (field o k))
  ∧ (PaginaPrincipal.fetchBooks random r st).1 = Ok ()
  ∧ books (PaginaPrincipal.fetchBooks random r st).2 = books st
  ∧ requests (PaginaPrincipal.fetchBooks random r st).2 = requests st
  ∧ listaLivros (PaginaPrincipal.fetchBooks random r st).2
    = pp_shows (json_record <$> rs)
  ∧ (renders MainPage (json_record <$> rs) = true →
     listaLivros (PaginaPrincipal.fetchBooks random r st).2
     = pp_view (json_record <$> rs)).
Proof.
  intros Hrs Hinit. rewrite stringify_records in Hinit. cbn in Hinit.
  assert (books st = of_records (json_record <$> rs)) as Hbooks.
  { injection Hinit as <-. unfold of_records. rewrite <- !list_fmap_compose.
    apply list_fmap_ext. by intros _ o _. }
  split; [done|]. split.
  { intros i o k Hi. split; [|apply json_record_field].
    rewrite Hbooks. unfold arr_get, of_records.
    by rewrite !list_lookup_fmap, Hi. }
  destruct st as [bs lv vw ns rq]. cbn [books] in Hbooks. subst bs.
  rewrite pp_fetch_populated by (by destruct rs).
  cbn [fst snd books requests listaLivros renders]. split_and!; try done.
  apply pp_shows_pass.
Qed.

(** ** The catalogue: escaping *)

Section escaping.
Import CatalogoPagina.

Lemma in_append (d : ascii) (s t : string) :
  d ∈ list_ascii_of_string (s +:+ t) →
  d ∈ list_ascii_of_string s ∨ d ∈ list_ascii_of_string t.
Proof.
  induction s as [|x s IH]; cbn; [by right|].
  intros [->|Hd]%elem_of_cons; [left; by left|].
  destruct (IH Hd); [left; by right|by right].
Qed.

Lemma replaceAll_in (d c : ascii) (new s : string) :
  d ∈ list_ascii_of_string (replaceAll c new s) →
  d ∈ list_ascii_of_string new ∨ (d ≠ c ∧ d ∈ list_ascii_of_string s).
Proof.
  induction s as [|x s IH]; cbn; [by intros ?%elem_of_nil|].
  destruct (Ascii.eqb x c) eqn:Hx.
  - intros [Hd|Hd]%in_append; [by left|].
    destruct (IH Hd) as [?|[? ?]]; [by left|right]. split; [done|by right].
  - cbn. apply Ascii.eqb_neq in Hx.
    intros [->|Hd]%elem_of_cons; [right; split; [done|by left]|].
    destruct (IH Hd) as [?|[? ?]]; [by left|right]. split; [done|by right].
Qed.

Lemma replaceAll_free (d c : ascii) (new s : string) :
  d ∉ list_ascii_of_string new →
  d = c ∨ d ∉ list_ascii_of_string s →
  d ∉ list_ascii_of_string (replaceAll c new s).
Proof.
  intros Hnew Hs [Hin|[Hne Hin]]%replaceAll_in; [done|]. by destruct Hs.
Qed.

Lemma replaceAll_plain (c : ascii) (new s : string) :
  c ∉ list_ascii_of_string s → replaceAll c new s = s.
Proof.
  induction s as [|x s IH]; cbn; [done|].
  intros Hc. apply not_elem_of_cons in Hc as [Hx Hs].
  destruct (Ascii.eqb x c) eqn:Heq; [by apply Ascii.eqb_eq in Heq|].
  by rewrite IH.
Qed.

End escaping.

Lemma escapeHtml_text (v : jsval) :
  CatalogoPagina.escapeHtml v
  = if stringable v then Ok (escaped_text v) else Throw TypeError.
Proof.
  unfold CatalogoPagina.escapeHtml, escaped_text, to_string.
  assert (stringable (match v with VUndef => VStr EmptyString | _ => v end)
          = stringable v) as -> by (by destruct v).
  by destruct (stringable v).
Qed.

Lemma escaped_has_no_markup (s : string) :
  Forall (λ c, c ∉ list_ascii_of_string (CatalogoPagina.escaped s))
    ["<"; ">"; ascii_of_nat 34; "'"]%char.
Proof.
  unfold CatalogoPagina.escaped.
  assert (∀ d text : _, bool_decide (d ∉ list_ascii_of_string text) = true →
                        d ∉ list_ascii_of_string text) as Hfree.
  { intros d text. apply bool_decide_eq_true. }
  repeat apply Forall_cons_2; [| | | |apply Forall_nil_2].
  - do 3 (apply replaceAll_free; [by apply Hfree|right]).
    apply replaceAll_free; [by apply Hfree|by left].
  - do 2 (apply replaceAll_free; [by apply Hfree|right]).
    apply replaceAll_free; [by apply Hfree|by left].
  - apply replaceAll_free; [by apply Hfree|right].
    apply replaceAll_free; [by apply Hfree|by left].
  - apply replaceAll_free; [by apply Hfree|by left].
Qed.

(** X12. The text that [escapeHtml] returns, for any value, holds none of
    the characters [<], [>], the double quote and the single quote: what a
    card shows of a book cannot open a tag or close an attribute.  It
    returns for every value that converts to a string, and throws a
    TypeError for the others. *)
Theorem X12_escaped_text_has_no_markup (v : jsval) :
  match CatalogoPagina.escapeHtml v with
  | Ok s =>
      stringable v = true
      ∧ Forall (λ c, c ∉ list_ascii_of_string s) ["<"; ">"; ascii_of_nat 34; "'"]%char
  | Throw e => stringable v = false ∧ e = TypeError
  end.
Proof.
  rewrite escapeHtml_text. destruct (stringable v); [|done].
  split; [done|]. apply escaped_has_no_markup.
Qed.

(** X13. [escapeHtml] changes nothing else: a value that converts to a
    string which holds none of [&], [<], [>] and the two quotes comes back
    as that string, and an argument left out comes back as the empty
    string. *)
Theorem X13_plain_text_is_kept (v : jsval) :
  stringable v = true →
  Forall (λ c, c ∉ list_ascii_of_string (js_to_string v))
    ["&"; "<"; ">"; ascii_of_nat 34; "'"]%char →
  CatalogoPagina.escapeHtml v
  = Ok (match v with VUndef => EmptyString | _ => js_to_string v end).
Proof.
  intros Hv Hplain. rewrite escapeHtml_text, Hv. f_equal.
  unfold escaped_text, CatalogoPagina.escaped.
  assert (v = VUndef ∨ match v with VUndef => VStr EmptyString | _ => v end = v)
    as [Hu|Hu] by (destruct v; auto).
  { by subst v. }
  rewrite Hu.
  apply Forall_cons in Hplain as [Hamp Hplain].
  apply Forall_cons in Hplain as [Hlt Hplain].
  apply Forall_cons in Hplain as [Hgt Hplain].
  apply Forall_cons in Hplain as [Hdq Hplain].
  apply Forall_cons in Hplain as [Hsq _].
  rewrite (replaceAll_plain "&") by done.
  rewrite (replaceAll_plain "<") by done.
  rewrite (replaceAll_plain ">") by done.
  rewrite (replaceAll_plain (ascii_of_nat 34)) by done.
  rewrite (replaceAll_plain "'") by done.
  by destruct v.
Qed.

(** ** The catalogue: its books and its cards *)

Section catalogue.
Import Catalogo CatalogoPagina.
Implicit Types (o n : gmap string jsval) (ns : list (gmap string jsval)).

Lemma coalesce_assoc a b c :
  js_coalesce (js_coalesce a b) c = js_coalesce a (js_coalesce b c).
Proof. unfold js_coalesce. by destruct (js_nullish a) eqn:Ha; [|rewrite Ha]. Qed.

Lemma normalizarLivro_record o : normalizarLivro (VObj o) = Ok (VObj (catalogue_of o)).
Proof.
  unfold normalizarLivro. cbn [js_truthy js_typeof_object negb orb js_get].
  cbn [mbind res_bind mret res_ret]. unfold catalogue_of, built, chosen. cbn [foldr].
  by rewrite !coalesce_assoc.
Qed.

Lemma built_fields id titulo autor genero ano descricao :
  let n := built id titulo autor genero ano descricao in
  field n "id" = id ∧ field n "titulo" = titulo ∧ field n "autor" = autor
  ∧ field n "genero" = genero ∧ field n "ano" = ano ∧ field n "descricao" = descricao.
Proof.
  unfold field, built. cbv zeta.
  repeat first
    [ rewrite lookup_insert_eq
    | rewrite lookup_insert_ne by done
    | rewrite lookup_singleton_eq ].
  done.
Qed.

Lemma catalogue_of_catalogued o : catalogued (VObj (catalogue_of o)) = true.
Proof.
  unfold catalogued, catalogue_of. cbn [forallb].
  destruct (built_fields (chosen o ["id"; "ID"] VNull)
    (chosen o ["titulo"; "title"] (VStr "Título sem nome"))
    (chosen o ["autor"; "author"] (VStr "Autor desconhecido"))
    (chosen o ["genero"; "genre"; "tipo"] (VStr "Outros"))
    (chosen o ["ano"; "year"; "publicationYear"] (VStr "—"))
    (chosen o ["descricao"; "body"; "description"] (VStr EmptyString)))
    as (_ & -> & -> & -> & -> & ->).
  cbn [chosen foldr].
  by rewrite !coalesce_default by (by repeat apply coalesce_default).
Qed.

Lemma normalized_catalogued raw v : normalized raw = Some v → catalogued v = true.
Proof.
  unfold normalized.
  destruct (js_truthy raw && js_typeof_object raw) eqn:Hraw.
  - apply andb_true_iff in Hraw as [_ Hobj].
    destruct raw as [| | | | |l|o]; try done.
    + (* an array: every property read is undefined *)
      change (normalizarLivro (VArr l)) with (normalizarLivro (VObj ∅)).
      rewrite normalizarLivro_record. intros [= <-]. apply catalogue_of_catalogued.
    + rewrite normalizarLivro_record. intros [= <-]. apply catalogue_of_catalogued.
  - by rewrite (normalizarLivro_other raw Hraw).
Qed.

Lemma normalizeList_catalogued (l : list jsval) :
  Forall (λ v, catalogued v = true) (normalizeList_spec l).
Proof.
  unfold normalizeList_spec. apply Forall_forall. intros v Hv.
  apply list_elem_of_omap in Hv as (raw & _ & Hraw). by eapply normalized_catalogued.
Qed.

Lemma normalizeList_records ns :
  normalizeList_spec (VObj <$> ns) = VObj <$> (catalogue_of <$> ns).
Proof.
  unfold normalizeList_spec. induction ns as [|o ns IH]; [done|].
  assert (normalized (VObj o) = Some (VObj (catalogue_of o))) as Ho.
  { unfold normalized. by rewrite normalizarLivro_record. }
  rewrite !fmap_cons. cbn [omap list_omap]. by rewrite Ho, IH.
Qed.

Lemma card_of_record n :
  card_of (VObj n)
  = if showable (VObj n) then Ok (catalogue_card n) else Throw TypeError.
Proof.
  unfold card_of, catalogue_card, showable, texts.
  cbn [js_get mbind res_bind mret res_ret forallb fmap list_fmap].
  rewrite !escapeHtml_text.
  repeat match goal with
         | |- context [stringable (field n ?k)] =>
             destruct (stringable (field n k)); cbn [mbind res_bind andb]; [|done]
         end.
  done.
Qed.

Lemma catalogued_record v : catalogued v = true → ∃ n, v = VObj n.
Proof. destruct v as [| | | | | |n]; try done. intros _. by exists n. Qed.

Lemma card_of_catalogued v :
  catalogued v = true → showable v = true →
  ∃ n, v = VObj n ∧ card_of v = Ok (catalogue_card n).
Proof.
  intros (n & ->)%catalogued_record Hs. exists n. split; [done|].
  by rewrite card_of_record, Hs.
Qed.

Lemma cards_of_catalogued (l : list jsval) shown :
  Forall (λ v, catalogued v = true) l →
  Forall (λ v, showable v = true) l →
  ∃ cs, cards_of l shown = (Ok (), shown ++ cs) ∧ length cs = length l.
Proof.
  intros Hl. revert shown. induction Hl as [|v l Hv _ IH]; intros shown Hs.
  - exists []. by rewrite app_nil_r.
  - apply Forall_cons in Hs as [Hsv Hs].
    destruct (card_of_catalogued v Hv Hsv) as (n & -> & Hc).
    cbn [cards_of]. rewrite Hc.
    destruct (IH (shown ++ [catalogue_card n]) Hs) as (cs & -> & Hcs).
    exists (catalogue_card n :: cs). rewrite <- app_assoc. cbn. by rewrite Hcs.
Qed.

Lemma cards_of_records ns shown :
  Forall (λ n, showable (VObj n) = true) ns →
  cards_of (VObj <$> ns) shown = (Ok (), shown ++ (catalogue_card <$> ns)).
Proof.
  intros Hs. revert shown. induction Hs as [|n ns Hn _ IH]; intros shown; cbn [fmap list_fmap cards_of].
  - by rewrite app_nil_r.
  - rewrite card_of_record, Hn.
    change (list_fmap _ _ VObj ns) with (VObj <$> ns). rewrite IH.
    by rewrite <- app_assoc.
Qed.

Lemma renderLivros_records ns :
  Forall (λ n, showable (VObj n) = true) ns →
  renderLivros (VObj <$> ns) = (Ok (), catalogue_view ns).
Proof.
  intros Hs. unfold renderLivros. rewrite length_fmap, cards_of_records by done.
  by destruct ns.
Qed.

(** The cards that a pass of [renderLivros] attaches before it throws are
    left on the page: the page says that no book was found only for the
    empty list. *)
Lemma renderLivros_none (l : list jsval) :
  (renderLivros l).2 = NoBooks ↔ l = [].
Proof. unfold renderLivros. by destruct l. Qed.

Lemma renderLivros_catalogued (l : list jsval) :
  Forall (λ v, catalogued v = true) l →
  Forall (λ v, showable v = true) l →
  (renderLivros l).1 = Ok ().
Proof.
  intros Hl Hs. unfold renderLivros. destruct l as [|v l]; [done|].
  cbn [length Nat.eqb]. by destruct (cards_of_catalogued (v :: l) [] Hl Hs) as (cs & -> & _).
Qed.

Lemma mapped_from_records i (data : list jsval) mapped :
  mapped_from i data = Ok mapped →
  ∃ ns, mapped = VObj <$> ns ∧ length ns = length data.
Proof.
  revert i mapped. induction data as [|item data IH]; intros i mapped.
  - intros [= <-]. by exists [].
  - cbn [mapped_from].
    destruct (js_nullish item) eqn:Hitem; [by rewrite !(js_get_nullish item)|].
    rewrite !(js_get_prop item) by done. cbn [mbind res_bind mret res_ret].
    destruct (mapped_from (S i) data) as [rest|err] eqn:Hrest; [|done].
    cbn. intros [= <-]. destruct (IH _ _ Hrest) as (ns & -> & Hns).
    eexists (_ :: ns). cbn. by rewrite Hns.
Qed.

Lemma fetched_books_catalogued resp l shown :
  fetched_books resp = Ok (l, shown) →
  Forall (λ v, catalogued v = true) l
  ∧ renderLivros l = (Ok (), shown)
  ∧ (l = [] ↔ json resp = Some (VArr [])).
Proof.
  unfold fetched_books. destruct (json resp) as [data|]; [|done].
  destruct data as [| | | | |posts|]; try done.
  destruct (mapped_from 0 posts) as [mapped|] eqn:Hmapped; [|done].
  destruct (mapped_from_records _ _ _ Hmapped) as (ns & -> & Hns).
  cbn [mbind res_bind]. rewrite normalizarLista_array, normalizeList_records.
  cbn [mbind res_bind].
  destruct (renderLivros _) as [[[]|e] shown'] eqn:Hrender; [|done].
  intros [= <- <-].
  split; [|split; [done|]].
  - rewrite <- normalizeList_records. apply normalizeList_catalogued.
  - split.
    + intros Hnil. destruct ns; [|done]. by destruct posts.
    + intros [= ->]. by destruct ns.
Qed.

Lemma carregarLivrosLocal_catalogued slot salvos :
  carregarLivrosLocal slot = Some salvos →
  Forall (λ v, catalogued v = true) salvos ∧ salvos ≠ [].
Proof.
  unfold carregarLivrosLocal. destruct slot as [[| | | | |l|]|]; try done.
  rewrite normalizarLista_array.
  destruct (length (normalizeList_spec l) =? 0)%nat eqn:Hlen; [done|].
  intros [= <-]. split; [apply normalizeList_catalogued|].
  intros Hnil. by rewrite Hnil in Hlen.
Qed.

Lemma mocks_catalogued : Forall (λ v, catalogued v = true) gerarMockLivros.
Proof. repeat apply Forall_cons_2; [..|apply Forall_nil_2]; reflexivity. Qed.

End catalogue.

(** X14. Whatever the slot holds and however the call settles, the books
    that [initCatalogo] leaves in [livros] are objects whose title, author,
    genre, year and description are neither null nor undefined; the page
    holds what a pass of [renderLivros] leaves for them, a pass that does
    not throw when their texts convert to strings.  The list is empty, and
    the page says that no book was found, only when the slot gave no book
    and the server answered with an empty array. *)
Theorem X14_catalogue_books_are_well_formed (slot : option jsval) (r : settled) :
  Forall (λ v, catalogued v = true) (CatalogoPagina.initCatalogo slot r).1.1
  ∧ (CatalogoPagina.renderLivros (CatalogoPagina.initCatalogo slot r).1.1).2
    = (CatalogoPagina.initCatalogo slot r).1.2
  ∧ (Forall (λ v, showable v = true) (CatalogoPagina.initCatalogo slot r).1.1 →
     (CatalogoPagina.renderLivros (CatalogoPagina.initCatalogo slot r).1.1).1 = Ok ())
  ∧ ((CatalogoPagina.initCatalogo slot r).1.2 = NoBooks
     ↔ (CatalogoPagina.initCatalogo slot r).1.1 = [])
  ∧ ((CatalogoPagina.initCatalogo slot r).1.1 = []
     ↔ Catalogo.carregarLivrosLocal slot = None
       ∧ ∃ resp, r = Resolved resp ∧ json resp = Some (VArr [])).
Proof.
  assert (CatalogoPagina.gerarMockLivros ≠ []) as Hmocks by done.
  assert (∀ l, Forall (λ v, catalogued v = true) l →
               (CatalogoPagina.renderLivros l).2 = (CatalogoPagina.renderLivros l).2
               ∧ (Forall (λ v, showable v = true) l →
                  (CatalogoPagina.renderLivros l).1 = Ok ())
               ∧ ((CatalogoPagina.renderLivros l).2 = NoBooks ↔ l = [])) as Hrender.
  { intros l Hl. split; [done|]. split; [by apply renderLivros_catalogued|].
    apply renderLivros_none. }
  unfold CatalogoPagina.initCatalogo.
  destruct (Catalogo.carregarLivrosLocal slot) as [salvos|] eqn:Hslot.
  - destruct (carregarLivrosLocal_catalogued slot salvos Hslot) as [Hs Hne].
    cbn [fst snd]. split; [done|].
    destruct (Hrender salvos Hs) as (? & ? & ?).
    do 3 (split; [done|]). split; [done|]. by intros [? _].
  - destruct r as [|resp].
    + cbn [fst snd]. split; [apply mocks_catalogued|].
      destruct (Hrender _ mocks_catalogued) as (? & ? & ?).
      do 3 (split; [done|]). split; [done|]. by intros [_ (? & ? & _)].
    + destruct (CatalogoPagina.fetched_books resp) as [[l shown]|err] eqn:Hf.
      * destruct (fetched_books_catalogued resp l shown Hf) as (Hl & Hshown & Hnil).
        cbn [fst snd]. split; [done|].
        destruct (Hrender l Hl) as (_ & ? & Hnone). rewrite Hshown in Hnone |- *.
        split; [done|]. split; [done|]. split; [done|].
        rewrite Hnil. split; [by eauto|]. by intros [_ (? & [= <-] & ?)].
      * cbn [fst snd]. split; [apply mocks_catalogued|].
        destruct (Hrender _ mocks_catalogued) as (? & ? & ?).
        do 3 (split; [done|]). split; [done|].
        intros [_ (? & [= <-] & Hjson)].
        unfold CatalogoPagina.fetched_books in Hf. by rewrite Hjson in Hf.
Qed.

Lemma filtrar_catalogued (genero : jsval) (l : list jsval) :
  Forall (λ v, catalogued v = true) l →
  CatalogoPagina.filtrar genero l
  = Ok (List.filter (λ v, js_strict_eq (prop v "genero") genero) l).
Proof.
  induction 1 as [|v l Hv _ IH]; [done|].
  destruct (catalogued_record v Hv) as (n & ->).
  cbn [CatalogoPagina.filtrar js_get mbind res_bind mret res_ret List.filter prop].
  rewrite IH. cbn [mbind res_bind mret res_ret]. done.
Qed.

Lemma filter_catalogued (p : jsval → bool) (l : list jsval) :
  Forall (λ v, catalogued v = true) l →
  Forall (λ v, catalogued v = true) (List.filter p l).
Proof.
  induction 1 as [|v l Hv _ IH]; [done|]. cbn. destruct (p v); [by constructor|done].
Qed.

(** X15. The catalogue shows what the main page saved.  When the slot
    holds what the main page wrote for its store of records, and the store
    is not empty, [initCatalogo] issues no call and takes one book for each
    record of the store, in the order of the store; when the texts of
    these books convert to strings it shows one card for each: all of
    them, not only the four that the main page shows. *)
Theorem X15_catalogue_shows_every_saved_book
    (rs : list (gmap string jsval)) (st : state) (r : settled) :
  saved st →
  books st = of_records rs →
  rs ≠ [] →
  let ns := (λ o, catalogue_of (json_record o)) <$> rs in
  (CatalogoPagina.initCatalogo (livros st) r).1.1 = VObj <$> ns
  ∧ (CatalogoPagina.initCatalogo (livros st) r).2 = false
  ∧ length ns = length rs
  ∧ (Forall (λ n, showable (VObj n) = true) ns →
     (CatalogoPagina.initCatalogo (livros st) r).1.2 = Cards (catalogue_card <$> ns)).
Proof.
  intros Hsaved Hbooks Hrs ns. subst ns.
  rewrite (Hsaved rs Hbooks Hrs), stringify_records.
  unfold CatalogoPagina.initCatalogo, Catalogo.carregarLivrosLocal.
  rewrite normalizarLista_array.
  replace ((λ o, to_json (VObj o)) <$> rs) with (VObj <$> (json_record <$> rs))
    by (by rewrite <- list_fmap_compose).
  rewrite normalizeList_records, !length_fmap.
  destruct rs as [|o rs]; [done|].
  cbn [length Nat.eqb fst snd].
  rewrite <- (list_fmap_compose json_record catalogue_of).
  split; [done|]. split; [done|]. split; [done|].
  intros Hs. by rewrite renderLivros_records.
Qed.

(** X16. [normalizarLivro] on an object takes, for each property of the
    book, the first of its aliases that is neither null nor undefined, the
    Portuguese name before the English ones, and the default only when
    there is none: an empty string, a zero or a false that is set is
    kept. *)
Theorem X16_first_alias_that_is_set_wins (o : gmap string jsval) :
  ∃ n,
    Catalogo.normalizarLivro (VObj o) = Ok (VObj n)
    ∧ dom n = list_to_set ["id"; "titulo"; "autor"; "genero"; "ano"; "descricao"]
    ∧ field n "id" = chosen o ["id"; "ID"] VNull
    ∧ field n "titulo" = chosen o ["titulo"; "title"] (VStr "Título sem nome")
    ∧ field n "autor" = chosen o ["autor"; "author"] (VStr "Autor desconhecido")
    ∧ field n "genero" = chosen o ["genero"; "genre"; "tipo"] (VStr "Outros")
    ∧ field n "ano" = chosen o ["ano"; "year"; "publicationYear"] (VStr "—")
    ∧ field n "descricao"
      = chosen o ["descricao"; "body"; "description"] (VStr EmptyString).
Proof.
  exists (catalogue_of o). split; [apply normalizarLivro_record|].
  split.
  { unfold catalogue_of, built. rewrite !dom_insert_L, dom_singleton_L. set_solver. }
  apply built_fields.
Qed.

(** X17. A click on a filter button, on books as [initCatalogo] leaves
    them: the button "Todos" shows every book, another button exactly the
    books whose genre is, by [===], the one of the button, in their
    order; when there is none the page says that no book was found.  The
    click does not throw when the texts of the books it shows convert to
    strings. *)
Theorem X17_filter_shows_the_books_of_a_genre
    (genero : jsval) (livros : list jsval) (shown : view) :
  Forall (λ v, catalogued v = true) livros →
  let wanted :=
    if js_strict_eq genero (VStr "Todos") then livros
    else List.filter (λ v, js_strict_eq (prop v "genero") genero) livros in
  CatalogoPagina.on_filter genero livros shown = CatalogoPagina.renderLivros wanted
  ∧ (Forall (λ v, showable v = true) wanted →
     (CatalogoPagina.renderLivros wanted).1 = Ok ())
  ∧ ((CatalogoPagina.renderLivros wanted).2 = NoBooks ↔ wanted = []).
Proof.
  intros Hl wanted.
  assert (Forall (λ v, catalogued v = true) wanted) as Hw.
  { subst wanted. destruct (js_strict_eq genero (VStr "Todos")); [done|].
    by apply filter_catalogued. }
  split; [|split; [by apply renderLivros_catalogued|apply renderLivros_none]].
  unfold CatalogoPagina.on_filter. subst wanted.
  destruct (js_strict_eq genero (VStr "Todos")); [done|].
  by rewrite filtrar_catalogued.
Qed.

(** ** Updates and deletes that succeed *)



(** ** The edit button of the list page *)



(** ** Calls and continuations *)

Lemma starts_bind {A} (m : M A) (f : A → M (option pending)) :
  keeps requests m → (∀ a, starts_call (f a)) → starts_call (m ≫= f).
Proof.
  intros Hm Hf st. unfold mbind, M_bind. specialize (Hm st).
  destruct (m st) as [[a|e] st1]; cbn [fst snd] in *; [|done].
  specialize (Hf a st1). by rewrite Hm in Hf.
Qed.

Lemma starts_send req p : starts_call (send req;; mret (Some p)).
Proof. intros st. cbn. by exists req. Qed.

Lemma starts_none : starts_call (mret None).
Proof. by intros st. Qed.

Ltac starts_tac :=
  repeat first
    [ progress cbv zeta
    | apply starts_send
    | apply starts_none
    | apply starts_bind; [solve [keeps_tac]|intros ?]
    | match goal with
      | |- starts_call (match ?x with _ => _ end) => destruct x
      end ].

Lemma submit_starts_call pg f now : starts_call (on_submit (handlers_of pg) f now).
Proof.
  destruct pg; cbn [handlers_of on_submit Script.handlers PaginaPrincipal.handlers];
    unfold Script.submit, Script.handleUpdate_call, Script.handleCreate_call,
      Script.findBookIndexById, PaginaPrincipal.submit, PaginaPrincipal.handleUpdate_call,
      PaginaPrincipal.handleCreate_call, PaginaPrincipal.findIndex_loose;
    starts_tac.
Qed.

Lemma delete_starts_call pg id : starts_call (on_delete (handlers_of pg) id).
Proof.
  destruct pg; cbn [handlers_of on_delete Script.handlers PaginaPrincipal.handlers];
    unfold Script.handleDelete_call, Script.findBookIndexById,
      PaginaPrincipal.handleDelete_call, PaginaPrincipal.findIndex_loose;
    starts_tac.
Qed.

(** X21. Calls and continuations pair up, on both pages and whatever the
    store holds: a submit or a click on a delete button issues exactly one
    call when it leaves a continuation in flight and none when it returns
    early or throws, and a settlement takes one continuation out of flight
    without a call.  So at every event the calls issued so far are as many
    as the continuations in flight and the ones already settled. *)
Theorem X21_one_call_for_each_continuation
    (pg : which_page) (e : event) (s : system) :
  let s' := step (handlers_of pg) e s in
  let settled_now :=
    match e with
    | Settle k _ => if decide (k < length (in_flight s))%nat then 1%nat else 0%nat
    | _ => 0%nat
    end in
  (length (requests (page s')) + length (in_flight s))%nat
  = (length (requests (page s)) + length (in_flight s') + settled_now)%nat.
Proof.
  assert (∀ m : M (option pending), starts_call m →
    let s' := match m (page s) with
              | (Ok (Some p), st) => System st (in_flight s ++ [p])
              | (_, st) => System st (in_flight s)
              end in
    (length (requests (page s')) + length (in_flight s))%nat
    = (length (requests (page s)) + length (in_flight s') + 0)%nat) as Hstart.
  { intros m Hm. specialize (Hm (page s)).
    destruct (m (page s)) as [[[p|]|err] st]; cbn [fst snd page in_flight] in *.
    - destruct Hm as [req ->]. rewrite length_app. cbn [length]. lia.
    - rewrite Hm. lia.
    - rewrite Hm. lia. }
  destruct e as [f now|id|k r]; cbn [step].
  - apply Hstart, submit_starts_call.
  - apply Hstart, delete_starts_call.
  - cbv zeta. destruct (in_flight s !! k) as [p|] eqn:Hk.
    + pose proof (lookup_lt_Some _ _ _ Hk) as Hlt.
      rewrite decide_True by done. cbn [page in_flight].
      rewrite settle_keeps_requests, length_delete by done. lia.
    + apply lookup_ge_None in Hk. rewrite decide_False by lia. lia.
Qed.

(** ** From the form of the main page to the catalogue *)

Lemma initCatalogo_saved (rs : list (gmap string jsval)) (r : settled) :
  rs ≠ [] →
  let ns := (λ o, catalogue_of (json_record o)) <$> rs in
  (CatalogoPagina.initCatalogo (Some (stringify_array (of_records rs))) r).1.1
  = VObj <$> ns
  ∧ (CatalogoPagina.initCatalogo (Some (stringify_array (of_records rs))) r).2 = false
  ∧ (Forall (λ n, showable (VObj n) = true) ns →
     (CatalogoPagina.initCatalogo (Some (stringify_array (of_records rs))) r).1.2
     = Cards (catalogue_card <$> ns)).
Proof.
  intros Hrs. cbv zeta. rewrite stringify_records.
  unfold CatalogoPagina.initCatalogo, Catalogo.carregarLivrosLocal.
  rewrite normalizarLista_array.
  replace ((λ o, to_json (VObj o)) <$> rs) with (VObj <$> (json_record <$> rs))
    by (by rewrite <- list_fmap_compose).
  rewrite normalizeList_records, !length_fmap.
  destruct rs as [|o rs]; [done|].
  cbn [length Nat.eqb fst snd].
  rewrite <- (list_fmap_compose json_record catalogue_of).
  split; [done|]. split; [done|].
  intros Hs. by rewrite renderLivros_records.
Qed.

Lemma catalogue_of_created (f : form) (t : Z) :
  catalogue_of (json_record (PaginaPrincipal.data_of f ∪ {["id" := VNum t]}))
  = built (VNum t) (VStr (trim (titulo f))) (VStr (trim (autor f)))
      (VStr (trim (genero f))) (VStr (trim (ano f))) (VStr (trim (descricao f))).
Proof.
  unfold catalogue_of, chosen. cbn [foldr]. rewrite !json_record_field.
  unfold field, PaginaPrincipal.data_of. rewrite !lookup_union.
  repeat first
    [ rewrite lookup_insert_eq
    | rewrite lookup_insert_ne by done
    | rewrite lookup_singleton_eq
    | rewrite lookup_singleton_ne by done ].
  done.
Qed.

(** X22. A book created with the form of the main page is the first book
    of the catalogue as soon as the form is submitted and the call of the
    create is issued, before the server answers: its identity is the
    placeholder, and its title, author, genre, year and description are
    the trimmed values of the form, also an empty author or description,
    for which the catalogue takes no default.  The books that the store
    held follow it. *)
Theorem X22_created_book_reaches_the_catalogue
    (f : form) (now : Z) (rs : list (gmap string jsval)) (st : state) (r : settled) :
  books st = of_records rs →
  accepts MainPage f = true →
  livroId f = EmptyString →
  let s' := step (handlers_of MainPage) (Submit f now) (System st []) in
  in_flight s' ≠ [] →
  ∃ ns,
    (CatalogoPagina.initCatalogo (livros (page s')) r).1.1
    = VObj (built (VNum (now * -1)) (VStr (trim (titulo f))) (VStr (trim (autor f)))
              (VStr (trim (genero f))) (VStr (trim (ano f)))
              (VStr (trim (descricao f))))
      :: ns
    ∧ length ns = length rs
    ∧ (CatalogoPagina.initCatalogo (livros (page s')) r).2 = false.
Proof.
  intros Hb Hvalid Hid. destruct st as [bs lv vw ns rq]. simpl in Hb. subst bs.
  cbv zeta. intros Hcall.
  pose proof (create_issued MainPage _ _ _ _ _ _ _ _ Hvalid Hid Hcall) as Hshown.
  cbn [renders] in Hshown. clear Hcall.
  erewrite step_submit; cycle 1.
  { cbn [page]. rewrite (submit_create MainPage) by done. by apply pp_create_call_ok. }
  cbn [page livros pp_slot payload].
  destruct (initCatalogo_saved ((PaginaPrincipal.data_of f ∪ {["id" := VNum (now * -1)]}) :: rs) r
              ltac:(done)) as (-> & -> & _).
  rewrite !fmap_cons.
  rewrite catalogue_of_created. eexists. split; [done|].
  split; [by rewrite !length_fmap|done].
Qed.

(** X23. The catalogue keeps the last book that the main page deleted.
    When the store of the main page holds one record, saved in the slot, and
    that record is deleted with a call that does not fail, the store is
    empty and the main page says so, but the slot still holds the record:
    the catalogue goes on taking it, without a call to the server, and
    shows it (when its texts convert to strings). *)
Theorem X23_catalogue_keeps_the_last_book_deleted
    (id : jsval) (o : gmap string jsval) (st : state) (r r' : settled) :
  saved st →
  books st = of_records [o] →
  (lookup MainPage id st).1 = Ok (Some 0%nat) →
  delete_fails MainPage r = false →
  let st' := (delete_of MainPage id r st).2 in
  books st' = []
  ∧ listaLivros st' = NoBooks
  ∧ (CatalogoPagina.initCatalogo (livros st') r').1.1
    = [VObj (catalogue_of (json_record o))]
  ∧ (CatalogoPagina.initCatalogo (livros st') r').2 = false
  ∧ (showable (VObj (catalogue_of (json_record o))) = true →
     (CatalogoPagina.initCatalogo (livros st') r').1.2
     = Cards [catalogue_card (catalogue_of (json_record o))]).
Proof.
  intros Hsaved Hb Hfound Hr. pose proof (Hsaved [o] Hb ltac:(done)) as Hslot.
  destruct st as [bs lv vw ns rq]. cbn [books livros] in Hb, Hslot. subst bs lv.
  rewrite lookup_records in Hfound. cbn [fst] in Hfound.
  destruct (list_find _ [o]) as [[j o']|] eqn:Hf; [|done].
  cbn in Hfound. injection Hfound as ->.
  pose proof Hf as Hf'. apply list_find_Some in Hf' as (Hi & _ & _).
  cbn in Hi. injection Hi as <-.
  destruct r as [|resp]; [done|].
  unfold delete_of, PaginaPrincipal.handleDelete. cbv zeta.
  erewrite run_bind; cycle 1.
  { rewrite pp_delete_call, Hf. reflexivity. }
  cbn [from_option PaginaPrincipal.settle]. rewrite pp_delete_resolved_run.
  cbn [snd books listaLivros livros].
  split; [done|]. split; [done|].
  change (pp_saves (delete 0%nat [o]) (Some (stringify_array (of_records [o]))))
    with (Some (stringify_array (of_records [o]))).
  destruct (initCatalogo_saved [o] r' ltac:(done)) as (-> & -> & Hcards).
  split; [done|]. split; [done|]. intros Hs. apply Hcards. by constructor.
Qed.

(** ** The catalogue without a saved book *)

Lemma mapped_from_posts i (posts : list jsval) :
  existsb js_nullish posts = false →
  CatalogoPagina.mapped_from i posts
  = Ok (VObj <$> imap (λ j item, mapped_of (i + j) item) posts).
Proof.
  revert i. induction posts as [|item posts IH]; intros i; [done|].
  cbn [existsb]. intros [Hitem Hl]%orb_false_iff.
  cbn [CatalogoPagina.mapped_from imap]. rewrite !(js_get_prop item) by done.
  cbn [mbind res_bind mret res_ret]. rewrite IH by done.
  cbn [mbind res_bind mret res_ret]. rewrite Nat.add_0_r, fmap_cons. do 3 f_equal.
  apply imap_ext. intros j x _. cbn. f_equal. lia.
Qed.

Lemma mapped_from_throw i (posts : list jsval) :
  existsb js_nullish posts = true →
  ∃ err, CatalogoPagina.mapped_from i posts = Throw err.
Proof.
  revert i. induction posts as [|item posts IH]; intros i; [done|].
  cbn [existsb CatalogoPagina.mapped_from].
  destruct (js_nullish item) eqn:Hitem.
  - intros _. exists TypeError. by rewrite !(js_get_nullish item).
  - intros Hl. destruct (IH (S i) Hl) as [err Herr]. exists err.
    rewrite !(js_get_prop item) by done.
    cbn [mbind res_bind mret res_ret]. by rewrite Herr.
Qed.

Lemma fetched_books_throw resp :
  no_posts (Resolved resp) = true → ∃ err, CatalogoPagina.fetched_books resp = Throw err.
Proof.
  unfold no_posts, posts_of, CatalogoPagina.fetched_books.
  destruct (json resp) as [data|]; [|by eexists].
  destruct data as [| | | | |posts|]; try by eexists.
  destruct (existsb js_nullish posts) eqn:Hposts; [|done].
  intros _. destruct (mapped_from_throw 0 posts Hposts) as [err ->]. by eexists.
Qed.

Lemma generos_draw (j : nat) :
  ∃ g, CatalogoPagina.generos !! (j `mod` length CatalogoPagina.generos)%nat = Some g.
Proof. apply lookup_lt_is_Some. apply Nat.mod_upper_bound. done. Qed.

Lemma mapped_of_catalogue j item :
  let n := catalogue_of (mapped_of j item) in
  field n "id" = js_coalesce (prop item "id") VNull
  ∧ field n "titulo" = js_coalesce (prop item "title") (VStr "Título sem nome")
  ∧ field n "autor" = VStr ("Autor " +:+ pretty (j + 1)%nat)
  ∧ field n "genero"
    = default VUndef
        (VStr <$> CatalogoPagina.generos !! (j `mod` length CatalogoPagina.generos)%nat)
  ∧ field n "ano" = VNum (2010 + Z.of_nat (j `mod` 14)%nat)
  ∧ field n "descricao" = js_coalesce (prop item "body") (VStr EmptyString).
Proof.
  cbv zeta. unfold catalogue_of.
  destruct (built_fields
    (chosen (mapped_of j item) ["id"; "ID"] VNull)
    (chosen (mapped_of j item) ["titulo"; "title"] (VStr "Título sem nome"))
    (chosen (mapped_of j item) ["autor"; "author"] (VStr "Autor desconhecido"))
    (chosen (mapped_of j item) ["genero"; "genre"; "tipo"] (VStr "Outros"))
    (chosen (mapped_of j item) ["ano"; "year"; "publicationYear"] (VStr "—"))
    (chosen (mapped_of j item) ["descricao"; "body"; "description"] (VStr EmptyString)))
    as (-> & -> & -> & -> & -> & ->).
  destruct (generos_draw j) as [g Hg].
  unfold chosen, field, mapped_of. cbn [foldr].
  repeat first
    [ rewrite lookup_insert_eq
    | rewrite lookup_insert_ne by done
    | rewrite lookup_singleton_eq
    | rewrite lookup_singleton_ne by done ].
  rewrite Hg. cbn [fmap option_fmap option_map default from_option Datatypes.id].
  cbv [default from_option Datatypes.id].
  by split_and!.
Qed.

Lemma mocks_showable : Forall (λ v, showable v = true) CatalogoPagina.gerarMockLivros.
Proof. repeat apply Forall_cons_2; [..|apply Forall_nil_2]; reflexivity. Qed.

(** X24. When the slot gives no book and the call of the catalogue gives
    no posts (it is rejected, its body is not an array, or a post is
    null), [initCatalogo] falls back to the eight mock books, shows a card
    for each of them, and keeps nothing of the answer. *)
Theorem X24_catalogue_falls_back_to_the_mock_books (slot : option jsval) (r : settled) :
  Catalogo.carregarLivrosLocal slot = None →
  no_posts r = true →
  ∃ cards,
    CatalogoPagina.initCatalogo slot r = (CatalogoPagina.gerarMockLivros, Cards cards, true)
    ∧ length CatalogoPagina.gerarMockLivros = 8%nat
    ∧ length cards = 8%nat.
Proof.
  intros Hslot Hr. unfold CatalogoPagina.initCatalogo. rewrite Hslot.
  assert (∃ cards, (CatalogoPagina.renderLivros CatalogoPagina.gerarMockLivros).2
                   = Cards cards ∧ length cards = 8%nat) as (cards & Hcards & Hlen).
  { destruct (cards_of_catalogued CatalogoPagina.gerarMockLivros []
                mocks_catalogued mocks_showable) as (cs & Hcs & Hlen).
    exists cs. split; [|done].
    unfold CatalogoPagina.renderLivros.
    change (length CatalogoPagina.gerarMockLivros =? 0)%nat with false.
    cbv iota. by rewrite Hcs. }
  exists cards. destruct r as [|resp].
  - by rewrite Hcards.
  - destruct (fetched_books_throw resp Hr) as [err ->]. by rewrite Hcards.
Qed.

Lemma mapped_of_showable j item :
  stringable (prop item "title") = true →
  stringable (prop item "body") = true →
  showable (VObj (catalogue_of (mapped_of j item))) = true.
Proof.
  intros Ht Hb. unfold showable, texts. cbn [forallb].
  destruct (mapped_of_catalogue j item) as (_ & -> & -> & -> & -> & ->).
  destruct (generos_draw j) as [g ->].
  unfold js_coalesce.
  destruct (js_nullish (prop item "title")), (js_nullish (prop item "body"));
    cbn [stringable fmap option_fmap option_map default andb]; by rewrite ?Ht, ?Hb.
Qed.

(** X25. When the slot gives no book and the server answers with an array
    of posts whose titles and bodies convert to strings, the catalogue
    takes one book for each post, in the order of the answer, whatever
    the status: its identity and title are those of the post (null and
    "Título sem nome" when the post has none), its description the body
    of the post, its author "Autor" and the rank of the post, its genre
    one of the five genres and its year a number from 2010 to 2023. *)
Theorem X25_catalogue_takes_one_book_for_each_post
    (slot : option jsval) (resp : response) (posts : list jsval) :
  Catalogo.carregarLivrosLocal slot = None →
  posts_of resp = Some posts →
  Forall (λ item, stringable (prop item "title") = true
                  ∧ stringable (prop item "body") = true) posts →
  ∃ ns,
    CatalogoPagina.initCatalogo slot (Resolved resp) = (VObj <$> ns, catalogue_view ns, true)
    ∧ length ns = length posts
    ∧ ∀ j item,
        posts !! j = Some item →
        ∃ n,
          ns !! j = Some n
          ∧ field n "id" = js_coalesce (prop item "id") VNull
          ∧ field n "titulo" = js_coalesce (prop item "title") (VStr "Título sem nome")
          ∧ field n "autor" = VStr ("Autor " +:+ pretty (j + 1)%nat)
          ∧ field n "descricao" = js_coalesce (prop item "body") (VStr EmptyString)
          ∧ (∃ g, field n "genero" = VStr g ∧ g ∈ CatalogoPagina.generos)
          ∧ (∃ y, field n "ano" = VNum y ∧ 2010 ≤ y ≤ 2023)%Z.
Proof.
  intros Hslot [Hjson Hposts]%posts_of_Some Htexts.
  exists (catalogue_of <$> imap (λ j item, mapped_of j item) posts).
  split; [|split].
  - unfold CatalogoPagina.initCatalogo, CatalogoPagina.fetched_books.
    rewrite Hslot, Hjson, (mapped_from_posts 0 posts Hposts).
    cbn [mbind res_bind]. rewrite normalizarLista_array, normalizeList_records.
    cbn [mbind res_bind]. rewrite renderLivros_records; [done|].
    apply Forall_forall. intros n Hn.
    apply list_elem_of_fmap in Hn as (m & -> & Hm).
    apply list_elem_of_lookup in Hm as [j Hj]. rewrite list_lookup_imap in Hj.
    destruct (posts !! j) as [item|] eqn:Hitem; [|done]. cbn in Hj. injection Hj as <-.
    rewrite Forall_forall in Htexts.
    destruct (Htexts item) as [Ht Hb]; [by eapply list_elem_of_lookup_2|].
    by apply mapped_of_showable.
  - by rewrite length_fmap, length_imap.
  - intros j item Hj. exists (catalogue_of (mapped_of j item)).
    split; [by rewrite list_lookup_fmap, list_lookup_imap, Hj|].
    destruct (mapped_of_catalogue j item) as (Hid & Ht & Ha & Hg & Hy & Hd).
    split; [done|]. split; [done|]. split; [done|]. split; [done|]. split.
    + destruct (generos_draw j) as [g Hgen]. exists g.
      rewrite Hg, Hgen. split; [done|]. by eapply list_elem_of_lookup_2.
    + eexists. split; [exact Hy|].
      pose proof (Nat.mod_upper_bound j 14 ltac:(done)). lia.
Qed.

(** ** An update that fails with nothing in between *)


End properties.

(** * Scenarios *)

Section scenarios.
#[local] Existing Instance no_markup.

(** ** The claims at sample data *)



Lemma C2_witness :
  accepts ListPage new_dune = true
  ∧ create_fails ListPage (created 42) = false
  ∧ in_flight (run (handlers_of ListPage) [Submit new_dune 1000] (System blank [])) ≠ []
  ∧ (∃ o, books (page (run (handlers_of ListPage) [Submit new_dune 1000] (System blank [])))
          = of_records [o]
          ∧ identity o = VNum (1000 * -1))
  ∧ (∃ o, books (page (run (handlers_of ListPage) [Settle 0 (created 42)]
                         (run (handlers_of ListPage) [Submit new_dune 1000]
                            (System blank []))))
          = of_records [o]
          ∧ identity o = VNum 42
          ∧ (VNum 42 ∉ identities [])
          ∧ (VNum (1000 * -1) ∉ identities [o])).
Proof.
  assert (in_flight (run (handlers_of ListPage) [Submit new_dune 1000] (System blank []))
          ≠ []) as Hcall by (by vm_compute).
  split; [reflexivity|]. split; [reflexivity|]. split; [exact Hcall|].
  apply (C2_committed_create_has_server_identity ListPage new_dune 1000
           (Response true (Some (VObj {["id" := VNum 42]})))
           (VObj {["id" := VNum 42]}) (VNum 42) [] blank);
    first [reflexivity | apply not_elem_of_nil | discriminate | exact Hcall].
Defined.

(** C2, as stated, fails.  On the list page a create is submitted at the
    reading 1000 of the clock while another create, submitted at the same
    reading, is in flight: after the server answered it with the identity
    42, which the store did not hold, a record of the store still carries
    the placeholder.  And when the server answers a create with the number
    that is its placeholder, the record committed carries the
    placeholder. *)
Lemma C2_counterexample :
  (accepts ListPage new_emma = true
   ∧ create_fails ListPage (created 42) = false
   ∧ identities_of (books (page (run Script.handlers [Submit new_dune 1000]
                                   (System blank []))))
     = [VNum (-1000)]
   ∧ identities_of
       (books (page (run Script.handlers [Submit new_emma 1000; Settle 1 (created 42)]
                       (run Script.handlers [Submit new_dune 1000] (System blank [])))))
     = [VNum 42; VNum (-1000)])
  ∧ (create_fails ListPage (created (-1000)) = false
     ∧ identities_of
         (books (page (run Script.handlers [Submit new_dune 1000; Settle 0 (created (-1000))]
                         (System blank []))))
       = [VNum (1000 * -1)]).
Proof. split; split_and!; by vm_compute. Qed.





Lemma C10_witness :
  [duna; emma; ulysses; walden] ≠ []
  ∧ [duna; emma; ulysses; walden] !! 3%nat = Some walden
  ∧ in_flight (run PaginaPrincipal.handlers [Submit new_dune 1000]
                 (System (showing MainPage [duna; emma; ulysses; walden]) [])) ≠ []
  ∧ books (PaginaPrincipal.renderBooks
             (showing MainPage [duna; emma; ulysses; walden])).2
    = books (showing MainPage [duna; emma; ulysses; walden])
  ∧ ∃ (o : gmap string jsval) (cards : list card) (doc : list jsval),
      books (page (run PaginaPrincipal.handlers [Settle 0 (created 101)]
                     (run PaginaPrincipal.handlers [Submit new_dune 1000]
                        (System (showing MainPage [duna; emma; ulysses; walden]) []))))
      = of_records (o :: [duna; emma; ulysses; walden])
      ∧ identity o = VNum 101
      ∧ listaLivros (page (run PaginaPrincipal.handlers [Settle 0 (created 101)]
                             (run PaginaPrincipal.handlers [Submit new_dune 1000]
                                (System (showing MainPage [duna; emma; ulysses; walden])
                                   []))))
        = Cards cards
      ∧ cards = pp_card <$> (o :: take 3 [duna; emma; ulysses; walden])
      ∧ length cards = 4%nat
      ∧ pp_view [duna; emma; ulysses; walden]
        = Cards ((pp_card <$> take 3 [duna; emma; ulysses; walden]) ++ [pp_card walden])
      ∧ books (page (run PaginaPrincipal.handlers [Settle 0 (created 101)]
                       (run PaginaPrincipal.handlers [Submit new_dune 1000]
                          (System (showing MainPage [duna; emma; ulysses; walden]) []))))
        !! 4%nat = Some (Some (VObj walden))
      ∧ livros (page (run PaginaPrincipal.handlers [Settle 0 (created 101)]
                        (run PaginaPrincipal.handlers [Submit new_dune 1000]
                           (System (showing MainPage [duna; emma; ulysses; walden]) []))))
        = Some (VArr doc)
      ∧ doc !! 4%nat = Some (to_json (VObj walden)).
Proof.
  assert (in_flight (run PaginaPrincipal.handlers [Submit new_dune 1000]
                       (System (showing MainPage [duna; emma; ulysses; walden]) [])) ≠ [])
    as Hcall by (by vm_compute).
  split; [done|]. split; [reflexivity|]. split; [exact Hcall|]. split.
  - apply (proj1 C10_render_shows_first_four_and_saves_all
             [duna; emma; ulysses; walden]
             (showing MainPage [duna; emma; ulysses; walden]) eq_refl).
    done.
  - apply (proj2 C10_render_shows_first_four_and_saves_all new_dune 1000
             (Response true (Some (VObj {["id" := VNum 101]})))
             (VObj {["id" := VNum 101]}) (VNum 101) [duna; emma; ulysses; walden]
             (showing MainPage [duna; emma; ulysses; walden]) walden);
      first [reflexivity | exact Hcall].
Defined.

(** ** The further properties at sample data *)

Lemma X3_witness :
  saved blank
  ∧ quiet PaginaPrincipal.handlers
      [Submit new_dune 1000; Submit new_emma 2000; Settle 1 Rejected;
       Settle 0 (created 101)]
      (System blank []) = true
  ∧ saved (page (run PaginaPrincipal.handlers
                   [Submit new_dune 1000; Submit new_emma 2000; Settle 1 Rejected;
                    Settle 0 (created 101)]
                   (System blank []))).
Proof.
  assert (saved blank) as Hblank.
  { intros [|o rs] Hb Hne; [done|discriminate Hb]. }
  split; [exact Hblank|]. split; [by vm_compute|].
  refine (proj1 X3_main_page_slot_follows_store
            [Submit new_dune 1000; Submit new_emma 2000; Settle 1 Rejected;
             Settle 0 (created 101)]
            (System blank []) Hblank _).
  by vm_compute.
Defined.

Lemma X4_witness :
  accepts MainPage (Form "7" "ab" "Herbert" EmptyString "1965" "Romance") = false
  ∧ books (page (step (handlers_of MainPage)
                   (Submit (Form "7" "ab" "Herbert" EmptyString "1965" "Romance") 1000)
                   (System (showing MainPage [duna]) [])))
    = books (showing MainPage [duna])
  ∧ livros (page (step (handlers_of MainPage)
                    (Submit (Form "7" "ab" "Herbert" EmptyString "1965" "Romance") 1000)
                    (System (showing MainPage [duna]) [])))
    = livros (showing MainPage [duna])
  ∧ requests (page (step (handlers_of MainPage)
                      (Submit (Form "7" "ab" "Herbert" EmptyString "1965" "Romance") 1000)
                      (System (showing MainPage [duna]) [])))
    = requests (showing MainPage [duna])
  ∧ in_flight (step (handlers_of MainPage)
                 (Submit (Form "7" "ab" "Herbert" EmptyString "1965" "Romance") 1000)
                 (System (showing MainPage [duna]) []))
    = []
  ∧ length (errors_since (notices (showing MainPage [duna]))
              (page (step (handlers_of MainPage)
                       (Submit (Form "7" "ab" "Herbert" EmptyString "1965" "Romance") 1000)
                       (System (showing MainPage [duna]) []))))
    = 1%nat.
Proof.
  split; [reflexivity|].
  apply (X4_rejected_form_changes_nothing MainPage
           (Form "7" "ab" "Herbert" EmptyString "1965" "Romance") 1000
           (System (showing MainPage [duna]) [])).
  reflexivity.
Defined.

Lemma X5_witness :
  (lookup ListPage (VNum 99) (showing ListPage [duna])).1 = Ok None
  ∧ (Script.handleUpdate_call (VNum 99) (Script.payload_of edit_duna)
       (showing ListPage [duna])).1 = Ok None
  ∧ (on_delete (handlers_of ListPage) (VNum 99) (showing ListPage [duna])).1 = Ok None
  ∧ books (Script.handleUpdate_call (VNum 99) (Script.payload_of edit_duna)
             (showing ListPage [duna])).2 = books (showing ListPage [duna])
  ∧ books (on_delete (handlers_of ListPage) (VNum 99) (showing ListPage [duna])).2
    = books (showing ListPage [duna])
  ∧ livros (Script.handleUpdate_call (VNum 99) (Script.payload_of edit_duna)
              (showing ListPage [duna])).2 = livros (showing ListPage [duna])
  ∧ livros (on_delete (handlers_of ListPage) (VNum 99) (showing ListPage [duna])).2
    = livros (showing ListPage [duna])
  ∧ requests (Script.handleUpdate_call (VNum 99) (Script.payload_of edit_duna)
                (showing ListPage [duna])).2 = requests (showing ListPage [duna])
  ∧ requests (on_delete (handlers_of ListPage) (VNum 99) (showing ListPage [duna])).2
    = requests (showing ListPage [duna]).
Proof.
  split; [reflexivity|].
  apply (X5_absent_identity_changes_nothing ListPage (VNum 99)
           (Script.payload_of edit_duna) [duna] (showing ListPage [duna]));
    reflexivity.
Defined.


Lemma X7_witness :
  unmatched MainPage (1000 * -1) [duna] = true
  ∧ accepts MainPage new_dune = true
  ∧ delete_fails MainPage status_200 = false
  ∧ create_fails MainPage (created 101) = false
  ∧ books (page (run (handlers_of MainPage)
                   [Submit new_dune 1000; ClickDelete (VNum (1000 * -1));
                    Settle 1 status_200; Settle 0 (created 101)]
                   (System (showing MainPage [duna]) [])))
    = books (showing MainPage [duna])
  ∧ errors_since (notices (showing MainPage [duna]))
      (page (run (handlers_of MainPage)
               [Submit new_dune 1000; ClickDelete (VNum (1000 * -1));
                Settle 1 status_200; Settle 0 (created 101)]
               (System (showing MainPage [duna]) [])))
    = []
  ∧ in_flight (run (handlers_of MainPage)
                 [Submit new_dune 1000; ClickDelete (VNum (1000 * -1));
                  Settle 1 status_200; Settle 0 (created 101)]
                 (System (showing MainPage [duna]) []))
    = [].
Proof.
  split; [reflexivity|]. split; [reflexivity|]. split; [reflexivity|].
  split; [reflexivity|].
  apply (X7_commit_after_delete_does_nothing MainPage new_dune 1000 status_200
           (created 101) [duna] (showing MainPage [duna]));
    reflexivity.
Defined.

Lemma X8_witness :
  list_fails MainPage (Resolved (Response true (Some (VArr [VNull])))) = true
  ∧ books (fetchBooks_of MainPage (λ _, (0, 0)%nat)
             (Resolved (Response true (Some (VArr [VNull])))) blank).2
    = books blank
  ∧ length (errors_since (notices blank)
              (fetchBooks_of MainPage (λ _, (0, 0)%nat)
                 (Resolved (Response true (Some (VArr [VNull])))) blank).2)
    = 0%nat.
Proof.
  split; [reflexivity|].
  pose proof (X8_failed_load_takes_nothing MainPage (λ _, (0, 0)%nat)
                (Resolved (Response true (Some (VArr [VNull])))) blank
                (λ _, eq_refl) eq_refl) as H.
  cbv zeta in H. split; [apply H|apply H].
Defined.


Lemma X10_witness :
  books blank = []
  ∧ list_fails MainPage
      (Resolved (Response false (Some (VArr [VObj {["id" := VNum 1]}])))) = false
  ∧ (∃ g, field (pp_book_of (7, 30)%nat (VObj {["id" := VNum 1]})) "genre" = VStr g
          ∧ g ∈ PaginaPrincipal.generosValidos)
  ∧ (∃ y, field (pp_book_of (7, 30)%nat (VObj {["id" := VNum 1]})) "year" = VNum y
          ∧ 2000 ≤ y ≤ 2024)%Z
  ∧ js_truthy (field (pp_book_of (7, 30)%nat (VObj {["id" := VNum 1]})) "author") = true.
Proof.
  split; [reflexivity|]. split; [reflexivity|].
  apply (X10_loaded_books_have_genre_and_year (λ _, (7, 30)%nat)
           (Response false (Some (VArr [VObj {["id" := VNum 1]}]))) blank).
  - reflexivity.
  - reflexivity.
  - vm_compute. apply list_elem_of_here.
Defined.

Lemma X11_witness :
  [duna; emma] ≠ []
  ∧ books (State (of_records [duna; emma]) None NoBooks [] [])
    = of_records (json_record <$> [duna; emma])
  ∧ requests (PaginaPrincipal.fetchBooks (λ _, (0, 0)%nat) Rejected
                (State (of_records [duna; emma]) None NoBooks [] [])).2
    = [].
Proof.
  split; [done|].
  pose proof (X11_next_visit_starts_from_saved_books [duna; emma] (λ _, (0, 0)%nat)
                Rejected (State (of_records [duna; emma]) None NoBooks [] [])
                ltac:(done) eq_refl) as H.
  split; apply H.
Defined.

Lemma X13_witness :
  stringable (VStr "Duna") = true
  ∧ Forall (λ c, c ∉ list_ascii_of_string (js_to_string (VStr "Duna")))
      ["&"; "<"; ">"; ascii_of_nat 34; "'"]%char
  ∧ CatalogoPagina.escapeHtml (VStr "Duna") = Ok "Duna".
Proof.
  assert (Forall (λ c, c ∉ list_ascii_of_string (js_to_string (VStr "Duna")))
            ["&"; "<"; ">"; ascii_of_nat 34; "'"]%char) as Hplain.
  { repeat apply Forall_cons_2; [| | | | |apply Forall_nil_2];
      by apply (bool_decide_unpack _). }
  split; [reflexivity|]. split; [exact Hplain|].
  apply (X13_plain_text_is_kept (VStr "Duna") eq_refl Hplain).
Defined.

Lemma X15_witness :
  saved (PaginaPrincipal.renderBooks (showing MainPage [duna; emma])).2
  ∧ [duna; emma] ≠ []
  ∧ (CatalogoPagina.initCatalogo
       (livros (PaginaPrincipal.renderBooks (showing MainPage [duna; emma])).2) Rejected).1.1
    = VObj <$> ((λ o, catalogue_of (json_record o)) <$> [duna; emma])
  ∧ (CatalogoPagina.initCatalogo
       (livros (PaginaPrincipal.renderBooks (showing MainPage [duna; emma])).2) Rejected).2
    = false
  ∧ (CatalogoPagina.initCatalogo
       (livros (PaginaPrincipal.renderBooks (showing MainPage [duna; emma])).2) Rejected).1.2
    = Cards (catalogue_card <$> ((λ o, catalogue_of (json_record o)) <$> [duna; emma])).
Proof.
  assert (saved (PaginaPrincipal.renderBooks (showing MainPage [duna; emma])).2) as Hsaved.
  { unfold showing. rewrite pp_render_records. intros rs' Hrs' _. cbn in Hrs' |- *.
    apply (of_records_inj [duna; emma] rs') in Hrs'. by subst rs'. }
  split; [exact Hsaved|]. split; [done|].
  pose proof (X15_catalogue_shows_every_saved_book [duna; emma]
                (PaginaPrincipal.renderBooks (showing MainPage [duna; emma])).2 Rejected
                Hsaved eq_refl ltac:(done)) as (Hbooks & Hcall & _ & Hcards).
  split; [exact Hbooks|]. split; [exact Hcall|].
  apply Hcards. repeat constructor.
Defined.

Lemma X17_witness :
  Forall (λ v, catalogued v = true) CatalogoPagina.gerarMockLivros
  ∧ (CatalogoPagina.on_filter (VStr "Terror") CatalogoPagina.gerarMockLivros NoBooks).1
    = Ok ()
  ∧ (CatalogoPagina.on_filter (VStr "Poesia") CatalogoPagina.gerarMockLivros (Cards [])).2
    = NoBooks.
Proof.
  split; [apply mocks_catalogued|]. split.
  - pose proof (X17_filter_shows_the_books_of_a_genre (VStr "Terror")
                  CatalogoPagina.gerarMockLivros NoBooks mocks_catalogued) as (-> & H & _).
    apply H. repeat constructor.
  - pose proof (X17_filter_shows_the_books_of_a_genre (VStr "Poesia")
                  CatalogoPagina.gerarMockLivros (Cards []) mocks_catalogued) as (-> & _ & H).
    by apply H.
Defined.




Lemma X22_witness :
  accepts MainPage (Form EmptyString "Dune" EmptyString EmptyString "1965" "Romance") = true
  ∧ in_flight (step (handlers_of MainPage)
                 (Submit (Form EmptyString "Dune" EmptyString EmptyString
                            "1965" "Romance") 1000)
                 (System (showing MainPage [emma]) [])) ≠ []
  ∧ ∃ ns,
      (CatalogoPagina.initCatalogo
         (livros (page (step (handlers_of MainPage)
                          (Submit (Form EmptyString "Dune" EmptyString EmptyString
                                     "1965" "Romance") 1000)
                          (System (showing MainPage [emma]) [])))) Rejected).1.1
      = VObj (built (VNum (1000 * -1)) (VStr "Dune") (VStr EmptyString) (VStr "Romance")
                (VStr "1965") (VStr EmptyString))
        :: ns
      ∧ length ns = length [emma]
      ∧ (CatalogoPagina.initCatalogo
           (livros (page (step (handlers_of MainPage)
                            (Submit (Form EmptyString "Dune" EmptyString EmptyString
                                       "1965" "Romance") 1000)
                            (System (showing MainPage [emma]) [])))) Rejected).2 = false.
Proof.
  assert (in_flight (step (handlers_of MainPage)
                       (Submit (Form EmptyString "Dune" EmptyString EmptyString
                                  "1965" "Romance") 1000)
                       (System (showing MainPage [emma]) [])) ≠ []) as Hcall
    by (by vm_compute).
  split; [reflexivity|]. split; [exact Hcall|].
  apply (X22_created_book_reaches_the_catalogue
           (Form EmptyString "Dune" EmptyString EmptyString "1965" "Romance") 1000
           [emma] (showing MainPage [emma]) Rejected);
    first [reflexivity | exact Hcall].
Defined.

Lemma X23_witness :
  saved (PaginaPrincipal.renderBooks (showing MainPage [duna])).2
  ∧ (lookup MainPage (VNum 7) (PaginaPrincipal.renderBooks (showing MainPage [duna])).2).1
    = Ok (Some 0%nat)
  ∧ books (delete_of MainPage (VNum 7) status_200
             (PaginaPrincipal.renderBooks (showing MainPage [duna])).2).2 = []
  ∧ listaLivros (delete_of MainPage (VNum 7) status_200
                   (PaginaPrincipal.renderBooks (showing MainPage [duna])).2).2 = NoBooks
  ∧ (CatalogoPagina.initCatalogo
       (livros (delete_of MainPage (VNum 7) status_200
                  (PaginaPrincipal.renderBooks (showing MainPage [duna])).2).2) Rejected).1.1
    = [VObj (catalogue_of (json_record duna))]
  ∧ (CatalogoPagina.initCatalogo
       (livros (delete_of MainPage (VNum 7) status_200
                  (PaginaPrincipal.renderBooks (showing MainPage [duna])).2).2) Rejected).1.2
    = Cards [catalogue_card (catalogue_of (json_record duna))].
Proof.
  assert (saved (PaginaPrincipal.renderBooks (showing MainPage [duna])).2) as Hsaved.
  { unfold showing. rewrite pp_render_records. intros rs' Hrs' _. cbn in Hrs' |- *.
    apply (of_records_inj [duna] rs') in Hrs'. by subst rs'. }
  split; [exact Hsaved|]. split; [reflexivity|].
  pose proof (X23_catalogue_keeps_the_last_book_deleted (VNum 7) duna
                (PaginaPrincipal.renderBooks (showing MainPage [duna])).2 status_200
                Rejected Hsaved eq_refl eq_refl eq_refl) as (Hb & Hv & Hl & _ & Hc).
  split; [exact Hb|]. split; [exact Hv|]. split; [exact Hl|]. exact (Hc eq_refl).
Defined.

Lemma X24_witness :
  Catalogo.carregarLivrosLocal (Some (VArr [VNum 1])) = None
  ∧ no_posts (Resolved (Response true (Some (VArr [VNull])))) = true
  ∧ ∃ cards,
      CatalogoPagina.initCatalogo (Some (VArr [VNum 1]))
        (Resolved (Response true (Some (VArr [VNull]))))
      = (CatalogoPagina.gerarMockLivros, Cards cards, true)
      ∧ length CatalogoPagina.gerarMockLivros = 8%nat
      ∧ length cards = 8%nat.
Proof.
  split; [reflexivity|]. split; [reflexivity|].
  apply (X24_catalogue_falls_back_to_the_mock_books (Some (VArr [VNum 1]))
           (Resolved (Response true (Some (VArr [VNull])))));
    reflexivity.
Defined.

Lemma X25_witness :
  Catalogo.carregarLivrosLocal None = None
  ∧ posts_of (Response false (Some (VArr [VObj {["id" := VNum 1]}])))
    = Some [VObj {["id" := VNum 1]}]
  ∧ Forall (λ item, stringable (prop item "title") = true
                    ∧ stringable (prop item "body") = true) [VObj {["id" := VNum 1]}]
  ∧ ∃ ns,
      CatalogoPagina.initCatalogo None
        (Resolved (Response false (Some (VArr [VObj {["id" := VNum 1]}]))))
      = (VObj <$> ns, catalogue_view ns, true)
      ∧ length ns = length [VObj {["id" := VNum 1]}]
      ∧ ∀ j item,
          [VObj {["id" := VNum 1]}] !! j = Some item →
          ∃ n,
            ns !! j = Some n
            ∧ field n "id" = js_coalesce (prop item "id") VNull
            ∧ field n "titulo" = js_coalesce (prop item "title") (VStr "Título sem nome")
            ∧ field n "autor" = VStr ("Autor " +:+ pretty (j + 1)%nat)
            ∧ field n "descricao" = js_coalesce (prop item "body") (VStr EmptyString)
            ∧ (∃ g, field n "genero" = VStr g ∧ g ∈ CatalogoPagina.generos)
            ∧ (∃ y, field n "ano" = VNum y ∧ 2010 ≤ y ≤ 2023)%Z.
Proof.
  assert (Forall (λ item, stringable (prop item "title") = true
                          ∧ stringable (prop item "body") = true)
            [VObj {["id" := VNum 1]}]) as Htexts by (by repeat constructor).
  split; [reflexivity|]. split; [reflexivity|]. split; [exact Htexts|].
  apply (X25_catalogue_takes_one_book_for_each_post None
           (Response false (Some (VArr [VObj {["id" := VNum 1]}])))
           [VObj {["id" := VNum 1]}]);
    first [reflexivity | exact Htexts].
Defined.


End scenarios.
